(** * Scheduled actions: the scheduling and execution engine

    A shallow embedding of [backend/open_webui/services/scheduler.py]
    ([SchedulerService]) and of the repository it drives,
    [backend/open_webui/models/scheduled_actions.py]
    ([ScheduledActionsTable]), with the properties of the engine stated over
    it.

    Python objects are modelled as follows.
    - A [dict] decoded from JSON is a [gmap string json]; [d.get(k, v)] is
      [default v (d !! k)] and [{**d, k: v}] is [<[k:=v]> d].
    - Integers and timestamps (seconds since the epoch) are [Z].
    - The body of a coroutine is a computation in the monad [M]: it threads
      the [World] (table, job store, trace, clock, oracles) and either
      returns a value or raises an exception; [try ... except Exception] is
      [try_except].
    - What the engine only consumes (the JSON codec, croniter, the trigger
      classes of APScheduler, [str()]) is a field of the class [PyLib]. *)

From Stdlib Require Import ZArith Lia List Bool Ascii String.
From stdpp Require Import base option strings pretty gmap list.

Set Warnings "-register-all".

Open Scope string_scope.
Open Scope list_scope.
Open Scope Z_scope.

(** ** JSON values and Python truthiness *)

Inductive json : Type :=
| JNull
| JBool (b : bool)
| JInt (z : Z)
| JStr (s : string)
| JList (l : list json)
| JDict (l : list (string * json)).

(** A decoded JSON object, the Python [dict] of the models. *)
Abbreviation dict := (gmap string json).

(** [bool(v)]: the test Python applies in [if v], [not v] and [a or b]. *)
Definition truthy (v : json) : bool :=
  match v with
  | JNull => false
  | JBool b => b
  | JInt z => negb (z =? 0)
  | JStr s => negb (String.eqb s "")
  | JList l => match l with [] => false | _ => true end
  | JDict l => match l with [] => false | _ => true end
  end.

(** [d.get(k)]: a missing key reads as [None]. *)
Definition dict_get (d : dict) (k : string) : json := default JNull (d !! k).

(** [d.get(k, dflt)]. *)
Definition dict_get_default (d : dict) (k : string) (dflt : json) : json :=
  default dflt (d !! k).

(** [a or b]. *)
Definition py_or (a b : json) : json := if truthy a then a else b.

(** ** Exceptions and results *)

Inductive exn_class : Type :=
| TypeError | ValueError | AttributeError | OverflowError
| JSONDecodeError | OperationalError | IntegrityError
| JobLookupError | ConflictingIdError
| SchedulerAlreadyRunningError | SchedulerNotRunningError
| RuntimeError.

(** An exception: its class and [str(e)]. *)
Record exn : Type := Exn { exn_cls : exn_class; exn_msg : string }.

Inductive result (A : Type) : Type :=
| Ok (a : A)
| Raise (e : exn).
Arguments Ok {A} a.
Arguments Raise {A} e.

Definition is_ok {A} (r : result A) : bool :=
  match r with Ok _ => true | Raise _ => false end.

(** ** Python string methods used by the trigger calculator *)

(** [str.isspace] on a code point below 256. *)
Definition is_space (c : ascii) : bool :=
  let n := Z.of_nat (nat_of_ascii c) in
  ((9 <=? n) && (n <=? 13)) || ((28 <=? n) && (n <=? 32))
  || (n =? 133) || (n =? 160).

(** [s.split()]: the maximal runs of characters that are not whitespace.
    [cur] is the run being read. *)
Fixpoint split_ws (cur : option string) (s : string) : list string :=
  match s with
  | EmptyString => match cur with Some w => [w] | None => [] end
  | String c s' =>
      if is_space c
      then match cur with
           | Some w => w :: split_ws None s'
           | None => split_ws None s'
           end
      else split_ws (Some (default "" cur +:+ String c "")) s'
  end.

Definition py_split (s : string) : list string := split_ws None s.

(** [s.replace('Z', '+00:00')]. *)
Fixpoint replace_Z (s : string) : string :=
  match s with
  | EmptyString => ""
  | String c s' =>
      if Ascii.eqb c "Z"%char then "+00:00" +:+ replace_Z s'
      else String c (replace_Z s')
  end.

(** ** Triggers (apscheduler.triggers)

    The trigger objects the calculator builds, with the attributes their
    constructors store. Instants are seconds since the epoch and durations
    are seconds. *)

Inductive Trigger : Type :=
| CronTrigger (minute hour day month day_of_week : string)
| IntervalTrigger (interval_length : Z) (start_date : Z)
                  (end_date : option Z) (timezone : option string)
                  (jitter : json)
| DateTrigger (run_date : Z).

(** ** The libraries the engine consumes

    Everything here is code outside the repository: the engine calls it and
    the model takes it as given. [json_loads] is [None] where [json.loads]
    raises or where the decoded value is not an object (the model class then
    rejects it); [json_dumps_None] is [json.dumps(None)], the text [null],
    which decodes to no object; [datetime_fromisoformat] is [None] where Python raises
    [ValueError]; [CronTrigger_check] is the exception the constructor of
    [CronTrigger] raises on its five field expressions, if any. *)

Class PyLib : Type := {
  Text : Type;
  json_dumps : dict -> Text;
  json_loads : Text -> option dict;
  json_loads_dumps : forall d, json_loads (json_dumps d) = Some d;
  json_dumps_None : Text;
  json_loads_None : json_loads json_dumps_None = None;
  py_str : json -> string;
  croniter_is_valid : json -> result bool;
  CronTrigger_check : string -> string -> string -> string -> string -> option exn;
  datetime_fromisoformat : string -> option Z;
  convert_to_datetime_str : string -> result Z;
  astimezone_str : string -> result string;
  get_next_fire_time : Trigger -> option Z -> Z -> option Z
}.

(** ** Data model (models/scheduled_actions.py) *)

(** [ScheduledActionModel]: an action as the scheduler sees it, a snapshot
    read from the table with both configurations decoded. *)
Record ScheduledActionModel : Type := {
  action_id : string;
  user_id : string;
  name : string;
  description : option string;
  action_type : string;
  action_config : dict;
  schedule_type : string;
  schedule_config : dict;
  enabled : bool;
  last_run_at : option Z;
  next_run_at : option Z;
  created_at : Z;
  updated_at : Z
}.

(** [ScheduledActionForm]: the creation form. *)
Record ScheduledActionForm : Type := {
  form_name : string;
  form_description : option string;
  form_action_type : string;
  form_action_config : dict;
  form_schedule_type : string;
  form_schedule_config : dict;
  form_enabled : bool
}.

(** [ScheduledActionUpdateForm]: every field is optional. [None] is a field
    that was not set, which [model_dump(exclude_unset=True)] leaves out;
    [Some None] is a field that was set to null, which it keeps; and
    [Some (Some v)] is a field that was set to [v]. *)
Record ScheduledActionUpdateForm : Type := {
  upd_name : option (option string);
  upd_description : option (option string);
  upd_action_config : option (option dict);
  upd_schedule_type : option (option string);
  upd_schedule_config : option (option dict);
  upd_enabled : option (option bool)
}.

Definition empty_form : ScheduledActionUpdateForm :=
  {| upd_name := None; upd_description := None; upd_action_config := None;
     upd_schedule_type := None; upd_schedule_config := None;
     upd_enabled := None |}.

(** [ScheduledActionUpdateForm(enabled=b)]. *)
Definition form_enabled_only (b : bool) : ScheduledActionUpdateForm :=
  {| upd_name := None; upd_description := None; upd_action_config := None;
     upd_schedule_type := None; upd_schedule_config := None;
     upd_enabled := Some (Some b) |}.

(** [ScheduledActionUpdateForm(action_config=d)]. *)
Definition form_action_config_only (d : dict) : ScheduledActionUpdateForm :=
  {| upd_name := None; upd_description := None; upd_action_config := Some (Some d);
     upd_schedule_type := None; upd_schedule_config := None;
     upd_enabled := None |}.

(** ** Timers (apscheduler.job, apscheduler.schedulers) *)

(** A job of the timer subsystem. [next_run_time] is [None] both for a job
    that has no such attribute yet (it is pending) and for one whose
    attribute is [None]; the engine reads it through
    [hasattr(job, 'next_run_time') and job.next_run_time]. *)
Record Job : Type := {
  job_id : string;
  job_name : string;
  job_args : string;
  trigger : Trigger;
  next_run_time : option Z;
  misfire_grace_time : Z
}.

(** [AsyncIOScheduler]: whether it runs, the jobs added while it was
    stopped, and the jobs of its memory job store. *)
Record AsyncIOScheduler : Type := {
  running : bool;
  _pending_jobs : list Job;
  _jobs : list Job
}.

(** ** What a run leaves behind *)

Inductive level : Type := INFO | WARNING | ERROR.

(** A committed write of the repository. *)
Inductive Commit : Type :=
| CommitInsert (id : string)
| CommitUpdate (id : string) (form : ScheduledActionUpdateForm)
| CommitRunTimes (id : string) (last_run : Z) (next_run : option Z)
| CommitDelete (id : string).

(** The observable events of a run, oldest first in the trace: a log record
    (the text of the f-string), an invocation of an executor's [execute],
    a committed write. *)
Inductive Event : Type :=
| EvLog (lvl : level) (msg : string)
| EvExecute (executor : string) (user : string) (config : dict)
| EvCommit (c : Commit).

Section Engine.
Context `{lib : PyLib}.

(** [ScheduledAction]: a row of the table [scheduled_action]. Both
    configurations are stored as text, the output of [json.dumps]. *)
Record ScheduledAction : Type := {
  row_id : string;
  row_user_id : string;
  row_name : string;
  row_description : option string;
  row_action_type : string;
  row_action_config : Text;
  row_schedule_type : string;
  row_schedule_config : Text;
  row_enabled : bool;
  row_last_run_at : option Z;
  row_next_run_at : option Z;
  row_created_at : Z;
  row_updated_at : Z
}.

(** ** The world a coroutine runs in

    [table] is the table [scheduled_action]; [scheduler], [job_map] and
    [_running] are the attributes of the [SchedulerService]; [trace] collects
    the events; [clock] is what [time.time()] and [datetime.now()] read.
    The last two fields are the environment's choices: [db_faults 0] tells
    whether the next session opened by [get_db] fails, and
    [executor_outcomes 0] is what the next [execute] of an executor returns
    or raises. *)
Record World : Type := {
  table : list ScheduledAction;
  scheduler : AsyncIOScheduler;
  job_map : gmap string string;
  _running : bool;
  trace : list Event;
  clock : Z;
  db_faults : nat -> bool;
  executor_outcomes : nat -> result dict
}.

Definition set_table (t : list ScheduledAction) (w : World) : World :=
  {| table := t; scheduler := scheduler w; job_map := job_map w;
     _running := _running w; trace := trace w; clock := clock w;
     db_faults := db_faults w; executor_outcomes := executor_outcomes w |}.

Definition set_scheduler (s : AsyncIOScheduler) (w : World) : World :=
  {| table := table w; scheduler := s; job_map := job_map w;
     _running := _running w; trace := trace w; clock := clock w;
     db_faults := db_faults w; executor_outcomes := executor_outcomes w |}.

Definition set_job_map (m : gmap string string) (w : World) : World :=
  {| table := table w; scheduler := scheduler w; job_map := m;
     _running := _running w; trace := trace w; clock := clock w;
     db_faults := db_faults w; executor_outcomes := executor_outcomes w |}.

Definition set_running (b : bool) (w : World) : World :=
  {| table := table w; scheduler := scheduler w; job_map := job_map w;
     _running := b; trace := trace w; clock := clock w;
     db_faults := db_faults w; executor_outcomes := executor_outcomes w |}.

Definition emit (e : Event) (w : World) : World :=
  {| table := table w; scheduler := scheduler w; job_map := job_map w;
     _running := _running w; trace := trace w ++ [e]; clock := clock w;
     db_faults := db_faults w; executor_outcomes := executor_outcomes w |}.

Definition set_clock (t : Z) (w : World) : World :=
  {| table := table w; scheduler := scheduler w; job_map := job_map w;
     _running := _running w; trace := trace w; clock := t;
     db_faults := db_faults w; executor_outcomes := executor_outcomes w |}.

Definition next_db_fault (w : World) : World :=
  {| table := table w; scheduler := scheduler w; job_map := job_map w;
     _running := _running w; trace := trace w; clock := clock w;
     db_faults := fun n => db_faults w (S n);
     executor_outcomes := executor_outcomes w |}.

Definition next_executor_outcome (w : World) : World :=
  {| table := table w; scheduler := scheduler w; job_map := job_map w;
     _running := _running w; trace := trace w; clock := clock w;
     db_faults := db_faults w;
     executor_outcomes := fun n => executor_outcomes w (S n) |}.

(** ** Coroutine bodies: state and exceptions *)

Definition M (A : Type) : Type := World -> result A * World.

Definition ret {A} (a : A) : M A := fun w => (Ok a, w).

Definition bind {A B} (m : M A) (k : A -> M B) : M B :=
  fun w =>
    match m w with
    | (Ok a, w') => k a w'
    | (Raise e, w') => (Raise e, w')
    end.

Definition raise {A} (e : exn) : M A := fun w => (Raise e, w).

(** [try: m  except Exception as e: h e]. What [m] did to the world before
    it raised stays done. *)
Definition try_except {A} (m : M A) (h : exn -> M A) : M A :=
  fun w =>
    match m w with
    | (Ok a, w') => (Ok a, w')
    | (Raise e, w') => h e w'
    end.

Definition lift {A} (r : result A) : M A := fun w => (r, w).

Definition modify (f : World -> World) : M unit := fun w => (Ok tt, f w).

Definition reads {A} (f : World -> A) : M A := fun w => (Ok (f w), w).

Notation "x <- m ;; k" := (bind m (fun x => k))
  (at level 100, m at next level, right associativity).
Notation "m ;;; k" := (bind m (fun _ => k))
  (at level 100, right associativity).

(** [log.info], [log.warning], [log.error]; [log.exception] logs at level
    [ERROR]. *)
Definition log (lvl : level) (msg : string) : M unit := modify (emit (EvLog lvl msg)).

(** [for x in xs: body x]. *)
Fixpoint for_each {A} (xs : list A) (body : A -> M unit) : M unit :=
  match xs with
  | [] => ret tt
  | x :: xs' => body x ;;; for_each xs' body
  end.

(** ** The repository (ScheduledActionsTable) *)

(** [with get_db() as db]: a session is opened, and the environment decides
    whether the database serves it. A failed session changes nothing. *)
Definition get_db : M unit :=
  fun w =>
    if db_faults w 0%nat
    then (Raise (Exn OperationalError "database is unavailable"), next_db_fault w)
    else (Ok tt, next_db_fault w).

(** The model built from a row: its columns, with [action_config] and
    [schedule_config] replaced by what [json.loads] decodes them to. *)
Definition model_validate (r : ScheduledAction) : result ScheduledActionModel :=
  match json_loads (row_action_config r) with
  | None => Raise (Exn JSONDecodeError "action_config")
  | Some ac =>
      match json_loads (row_schedule_config r) with
      | None => Raise (Exn JSONDecodeError "schedule_config")
      | Some sc =>
          Ok {| action_id := row_id r; user_id := row_user_id r;
                name := row_name r; description := row_description r;
                action_type := row_action_type r; action_config := ac;
                schedule_type := row_schedule_type r; schedule_config := sc;
                enabled := row_enabled r; last_run_at := row_last_run_at r;
                next_run_at := row_next_run_at r;
                created_at := row_created_at r;
                updated_at := row_updated_at r |}
      end
  end.

(** A list comprehension whose element expression may raise. *)
Fixpoint map_result {A B} (f : A -> result B) (l : list A) : result (list B) :=
  match l with
  | [] => Ok []
  | x :: l' =>
      match f x with
      | Raise e => Raise e
      | Ok y =>
          match map_result f l' with
          | Raise e => Raise e
          | Ok ys => Ok (y :: ys)
          end
      end
  end.

Definition has_id (id : string) (r : ScheduledAction) : bool :=
  String.eqb (row_id r) id.

(** [db.query(ScheduledAction).filter_by(id=id).first()]. *)
Definition first_by_id (id : string) (t : list ScheduledAction) : option ScheduledAction :=
  List.find (has_id id) t.

(** The table after the attributes of the first row [p] selects were set
    and the session committed. *)
Fixpoint update_first {A} (p : A -> bool) (f : A -> A) (l : list A) : list A :=
  match l with
  | [] => []
  | x :: l' => if p x then f x :: l' else x :: update_first p f l'
  end.

Definition get_enabled_scheduled_actions : M (list ScheduledActionModel) :=
  get_db ;;;
  rows <- reads (fun w => List.filter row_enabled (table w)) ;;
  lift (map_result model_validate rows).

Definition get_scheduled_action_by_id (id : string) : M (option ScheduledActionModel) :=
  try_except
    (get_db ;;;
     row <- reads (fun w => first_by_id id (table w)) ;;
     match row with
     | Some r => m <- lift (model_validate r) ;; ret (Some m)
     | None => ret None
     end)
    (fun _ => ret None).

(** A column that takes no null keeps its value unless the form sets one. *)
Definition set_column {A} (old : A) (v : option (option A)) : A :=
  match v with
  | Some (Some x) => x
  | _ => old
  end.

(** A configuration column after [json.dumps] of what the form sets:
    [json.dumps(None)] is a text, so a configuration set to null is stored
    as the text [null]. *)
Definition set_config (old : Text) (v : option (option dict)) : Text :=
  match v with
  | Some (Some d) => json_dumps d
  | Some None => json_dumps_None
  | None => old
  end.

(** The first of the columns [name], [schedule_type] and [enabled] that the
    form sets to null. The table is the one the migration creates: but for
    [description], [last_run_at] and [next_run_at], no column takes a null,
    and a commit that writes one fails. *)
Definition null_violation (form : ScheduledActionUpdateForm) : option string :=
  match upd_name form with
  | Some None => Some "name"
  | _ =>
      match upd_schedule_type form with
      | Some None => Some "schedule_type"
      | _ =>
          match upd_enabled form with
          | Some None => Some "enabled"
          | _ => None
          end
      end
  end.

(** The [setattr] loop over [update_data], with [updated_at] set to [now],
    as the commit stores it. *)
Definition apply_update (form : ScheduledActionUpdateForm) (now : Z)
    (r : ScheduledAction) : ScheduledAction :=
  {| row_id := row_id r;
     row_user_id := row_user_id r;
     row_name := set_column (row_name r) (upd_name form);
     row_description := default (row_description r) (upd_description form);
     row_action_type := row_action_type r;
     row_action_config := set_config (row_action_config r) (upd_action_config form);
     row_schedule_type := set_column (row_schedule_type r) (upd_schedule_type form);
     row_schedule_config := set_config (row_schedule_config r) (upd_schedule_config form);
     row_enabled := set_column (row_enabled r) (upd_enabled form);
     row_last_run_at := row_last_run_at r;
     row_next_run_at := row_next_run_at r;
     row_created_at := row_created_at r;
     row_updated_at := now |}.

(** [update_scheduled_action_by_id]. A form that sets [name],
    [schedule_type] or [enabled] to null fails at the commit, and the
    session leaves the table as it was. A form that sets a configuration to
    null is committed, and the model class rejects the row afterwards. *)
Definition update_scheduled_action_by_id (id : string)
    (form_data : ScheduledActionUpdateForm) : M (option ScheduledActionModel) :=
  get_db ;;;
  row <- reads (fun w => first_by_id id (table w)) ;;
  match row with
  | None => ret None
  | Some r =>
      now <- reads clock ;;
      match null_violation form_data with
      | Some column =>
          raise (Exn IntegrityError
                   ("NOT NULL constraint failed: scheduled_action." +:+ column))
      | None =>
          modify (fun w =>
            set_table (update_first (has_id id) (apply_update form_data now) (table w)) w) ;;;
          modify (emit (EvCommit (CommitUpdate id form_data))) ;;;
          m <- lift (model_validate (apply_update form_data now r)) ;;
          ret (Some m)
      end
  end.

(** [action.last_run_at = last_run_at]; [next_run_at] is written only when
    it is not [None]. *)
Definition apply_run_times (last_run : Z) (next_run : option Z) (now : Z)
    (r : ScheduledAction) : ScheduledAction :=
  {| row_id := row_id r;
     row_user_id := row_user_id r;
     row_name := row_name r;
     row_description := row_description r;
     row_action_type := row_action_type r;
     row_action_config := row_action_config r;
     row_schedule_type := row_schedule_type r;
     row_schedule_config := row_schedule_config r;
     row_enabled := row_enabled r;
     row_last_run_at := Some last_run;
     row_next_run_at :=
       match next_run with
       | Some t => Some t
       | None => row_next_run_at r
       end;
     row_created_at := row_created_at r;
     row_updated_at := now |}.

Definition update_scheduled_action_run_times (id : string) (last_run : Z)
    (next_run : option Z) : M bool :=
  get_db ;;;
  row <- reads (fun w => first_by_id id (table w)) ;;
  match row with
  | None => ret false
  | Some _ =>
      now <- reads clock ;;
      modify (fun w =>
        set_table (update_first (has_id id) (apply_run_times last_run next_run now) (table w)) w) ;;;
      modify (emit (EvCommit (CommitRunTimes id last_run next_run))) ;;;
      ret true
  end.

(** ** Trigger constructors (apscheduler.triggers, as the calculator calls them) *)

(** The keyword arguments of [timedelta] that [IntervalTrigger] forwards,
    in seconds. *)
Definition unit_seconds (u : string) : option Z :=
  if String.eqb u "weeks" then Some 604800
  else if String.eqb u "days" then Some 86400
  else if String.eqb u "hours" then Some 3600
  else if String.eqb u "minutes" then Some 60
  else if String.eqb u "seconds" then Some 1
  else None.

(** [timedelta] called with one keyword, in seconds: the value has to be a
    number, and a span of more than 999999999 days overflows. *)
Definition timedelta_seconds (secs_per_unit : Z) (value : json) : result Z :=
  match value with
  | JInt z =>
      if Z.abs ((z * secs_per_unit) / 86400) <=? 999999999
      then Ok (z * secs_per_unit)
      else Raise (Exn OverflowError "days out of range")
  | JBool b => Ok (Z.b2z b * secs_per_unit)
  | _ => Raise (Exn TypeError "unsupported type for timedelta component")
  end.

(** [datetime.min] and [datetime.max], in seconds since the epoch. *)
Definition datetime_min : Z := -62135596800.
Definition datetime_max : Z := 253402300799.

(** [now + interval] on datetimes: a result outside the years 1 to 9999
    overflows. *)
Definition datetime_add (now delta : Z) : result Z :=
  if (datetime_min <=? now + delta) && (now + delta <=? datetime_max)
  then Ok (now + delta)
  else Raise (Exn OverflowError "date value out of range").

(** [IntervalTrigger(weeks=0, days=0, hours=0, minutes=0, seconds=0,
    start_date=None, end_date=None, timezone=None, jitter=None)] called
    with the keyword arguments [kwargs = {unit: value}]: the one keyword is
    bound to the parameter of that name. An interval of length zero becomes
    one second; [start_date] defaults to [now] plus the interval. *)
Definition IntervalTrigger_init (unit value : json) (now : Z) : result Trigger :=
  match unit with
  | JStr u =>
      match unit_seconds u with
      | Some k =>
          match timedelta_seconds k value with
          | Raise e => Raise e
          | Ok len =>
              let len' := if len =? 0 then 1 else len in
              match datetime_add now len' with
              | Raise e => Raise e
              | Ok start => Ok (IntervalTrigger len' start None None JNull)
              end
          end
      | None =>
          if String.eqb u "start_date" then
            if truthy value then
              match value with
              | JStr s =>
                  match convert_to_datetime_str s with
                  | Ok t => Ok (IntervalTrigger 1 t None None JNull)
                  | Raise e => Raise e
                  end
              | _ => Raise (Exn TypeError "Unsupported type for start_date")
              end
            else
              match datetime_add now 1 with
              | Raise e => Raise e
              | Ok start => Ok (IntervalTrigger 1 start None None JNull)
              end
          else if String.eqb u "end_date" then
            match datetime_add now 1 with
            | Raise e => Raise e
            | Ok start =>
                match value with
                | JNull => Ok (IntervalTrigger 1 start None None JNull)
                | JStr s =>
                    match convert_to_datetime_str s with
                    | Ok t => Ok (IntervalTrigger 1 start (Some t) None JNull)
                    | Raise e => Raise e
                    end
                | _ => Raise (Exn TypeError "Unsupported type for end_date")
                end
            end
          else if String.eqb u "timezone" then
            if truthy value then
              match value with
              | JStr s =>
                  match astimezone_str s with
                  | Raise e => Raise e
                  | Ok tz =>
                      match datetime_add now 1 with
                      | Raise e => Raise e
                      | Ok start => Ok (IntervalTrigger 1 start None (Some tz) JNull)
                      end
                  end
              | _ => Raise (Exn TypeError "Expected tzinfo")
              end
            else
              match datetime_add now 1 with
              | Raise e => Raise e
              | Ok start => Ok (IntervalTrigger 1 start None None JNull)
              end
          else if String.eqb u "jitter" then
            match datetime_add now 1 with
            | Raise e => Raise e
            | Ok start => Ok (IntervalTrigger 1 start None None value)
            end
          else Raise (Exn TypeError "__init__() got an unexpected keyword argument")
      end
  | JList _ | JDict _ => Raise (Exn TypeError "unhashable type")
  | _ => Raise (Exn TypeError "keywords must be strings")
  end.

(** [CronTrigger(minute=, hour=, day=, month=, day_of_week=)]. *)
Definition CronTrigger_init (minute hour day month day_of_week : string) : result Trigger :=
  match CronTrigger_check minute hour day month day_of_week with
  | Some e => Raise e
  | None => Ok (CronTrigger minute hour day month day_of_week)
  end.

(** [cron_expr.split()]; only a [str] has the method. *)
Definition str_split (v : json) : result (list string) :=
  match v with
  | JStr s => Ok (py_split s)
  | _ => Raise (Exn AttributeError "object has no attribute 'split'")
  end.

(** ** The timer subsystem (AsyncIOScheduler with its memory job store) *)

Definition has_job_id (jid : string) (j : Job) : bool := String.eqb (job_id j) jid.

Definition set_jobs (js : list Job) (s : AsyncIOScheduler) : AsyncIOScheduler :=
  {| running := running s; _pending_jobs := _pending_jobs s; _jobs := js |}.

Definition set_pending (js : list Job) (s : AsyncIOScheduler) : AsyncIOScheduler :=
  {| running := running s; _pending_jobs := js; _jobs := _jobs s |}.

Definition set_state (b : bool) (s : AsyncIOScheduler) : AsyncIOScheduler :=
  {| running := b; _pending_jobs := _pending_jobs s; _jobs := _jobs s |}.

Definition set_next_run_time (t : option Z) (j : Job) : Job :=
  {| job_id := job_id j; job_name := job_name j; job_args := job_args j;
     trigger := trigger j; next_run_time := t;
     misfire_grace_time := misfire_grace_time j |}.

(** Removal of the first job with the given id. *)
Fixpoint remove_first (jid : string) (js : list Job) : list Job :=
  match js with
  | [] => []
  | j :: js' => if has_job_id jid j then js' else j :: remove_first jid js'
  end.

(** [_real_add_job]: the first fire time is computed, and the job is stored.
    The store refuses a second job with an id it holds, and
    [replace_existing] turns that refusal into an update of the stored job. *)
Definition _real_add_job (job : Job) (replace_existing : bool) : M Job :=
  now <- reads clock ;;
  let job' := set_next_run_time (get_next_fire_time (trigger job) None now) job in
  s <- reads scheduler ;;
  if existsb (has_job_id (job_id job)) (_jobs s) then
    if replace_existing then
      modify (set_scheduler
        (set_jobs (update_first (has_job_id (job_id job)) (fun _ => job') (_jobs s)) s)) ;;;
      ret job'
    else raise (Exn ConflictingIdError "Job identifier conflicts with an existing job")
  else
    modify (set_scheduler (set_jobs (_jobs s ++ [job']) s)) ;;;
    ret job'.

(** [scheduler.add_job(func, trigger=, args=[action_id], id=, name=,
    replace_existing=, misfire_grace_time=)]: while the scheduler is stopped
    the job only joins the pending ones. *)
Definition add_job (t : Trigger) (arg jid jname : string) (replace_existing : bool)
    (grace : Z) : M Job :=
  let job := {| job_id := jid; job_name := jname; job_args := arg; trigger := t;
                next_run_time := None; misfire_grace_time := grace |} in
  s <- reads scheduler ;;
  if running s then _real_add_job job replace_existing
  else
    modify (set_scheduler (set_pending (_pending_jobs s ++ [job]) s)) ;;;
    ret job.

(** [scheduler.remove_all_jobs()]. *)
Definition remove_all_jobs : M unit :=
  modify (fun w =>
    let s := scheduler w in
    set_scheduler (if running s then set_jobs [] s else set_pending [] s) w).

(** [scheduler.get_job(job_id)]. *)
Definition get_job (jid : string) : M (option Job) :=
  reads (fun w =>
    let s := scheduler w in
    if running s then List.find (has_job_id jid) (_jobs s)
    else
      match List.find (has_job_id jid) (_pending_jobs s) with
      | Some j => Some j
      | None => List.find (has_job_id jid) (_jobs s)
      end).

(** [scheduler.remove_job(job_id)]. *)
Definition remove_job (jid : string) : M unit :=
  s <- reads scheduler ;;
  if running s then
    if existsb (has_job_id jid) (_jobs s)
    then modify (set_scheduler (set_jobs (remove_first jid (_jobs s)) s))
    else raise (Exn JobLookupError ("No job by the id of " +:+ jid +:+ " was found"))
  else
    if existsb (has_job_id jid) (_pending_jobs s)
    then modify (set_scheduler (set_pending (remove_first jid (_pending_jobs s)) s))
    else raise (Exn JobLookupError ("No job by the id of " +:+ jid +:+ " was found")).

(** [scheduler.start()]: the pending jobs are stored, each as it was added. *)
Definition scheduler_start : M unit :=
  s <- reads scheduler ;;
  if running s then raise (Exn SchedulerAlreadyRunningError "Scheduler is already running")
  else
    for_each (_pending_jobs s) (fun j => _real_add_job j true ;;; ret tt) ;;;
    modify (fun w => set_scheduler (set_state true (set_pending [] (scheduler w))) w).

(** [scheduler.shutdown(wait=True)]: the memory job store forgets its jobs
    when it is shut down. *)
Definition scheduler_shutdown : M unit :=
  s <- reads scheduler ;;
  if running s
  then modify (fun w => set_scheduler (set_state false (set_jobs [] (scheduler w))) w)
  else raise (Exn SchedulerNotRunningError "Scheduler is not running").

(** What the dispatch loop does to a due job before its callback runs: the
    job is rescheduled to its next fire time, and removed when there is
    none. *)
Definition reschedule (jid : string) : M unit :=
  s <- reads scheduler ;;
  now <- reads clock ;;
  match List.find (has_job_id jid) (_jobs s) with
  | None => ret tt
  | Some j =>
      match get_next_fire_time (trigger j) (next_run_time j) now with
      | Some t =>
          modify (set_scheduler
            (set_jobs (update_first (has_job_id jid) (set_next_run_time (Some t)) (_jobs s)) s))
      | None =>
          modify (set_scheduler (set_jobs (remove_first jid (_jobs s)) s))
      end
  end.

(** ** Executors (services/action_executors.py)

    The engine sees an executor through its [execute] only. The model
    records every invocation. [NotificationExecutor] is self-contained and
    is modelled as written; what the executors that reach outside the
    engine (search providers, chats, memories) return, or raise, is taken
    from the environment. *)

Inductive executor_class : Type :=
| WebSearchExecutor | ChatCompletionExecutor | NotificationExecutor.

Definition class_name (c : executor_class) : string :=
  match c with
  | WebSearchExecutor => "WebSearchExecutor"
  | ChatCompletionExecutor => "ChatCompletionExecutor"
  | NotificationExecutor => "NotificationExecutor"
  end.

Definition EXECUTOR_REGISTRY (action_type : string) : option executor_class :=
  if String.eqb action_type "web_search" then Some WebSearchExecutor
  else if String.eqb action_type "chat_completion" then Some ChatCompletionExecutor
  else if String.eqb action_type "notification" then Some NotificationExecutor
  else None.

Definition get_executor (action_type : string) : option executor_class :=
  EXECUTOR_REGISTRY action_type.

(** [{"status": "error", "message": msg}]. *)
Definition error_outcome (msg : string) : dict :=
  <["status" := JStr "error"]> (<["message" := JStr msg]> ∅).

(** [NotificationExecutor.execute]. *)
Definition NotificationExecutor_execute (user : string) (action_config : dict) : M dict :=
  try_except
    (let title := dict_get_default action_config "title" (JStr "Scheduled Action") in
     let message := dict_get_default action_config "message"
                      (JStr "Your scheduled action has completed") in
     let notification_type := dict_get_default action_config "type" (JStr "info") in
     log INFO ("Sending notification to user " +:+ user +:+ ": " +:+ py_str title) ;;;
     log INFO ("Notification for " +:+ user +:+ ": [" +:+ py_str notification_type
               +:+ "] " +:+ py_str title +:+ " - " +:+ py_str message) ;;;
     ret (<["status" := JStr "success"]> (<["title" := title]>
          (<["message" := message]> (<["type" := notification_type]> ∅)))))
    (fun e =>
       log ERROR ("Error sending notification: " +:+ exn_msg e) ;;;
       ret (error_outcome (exn_msg e))).

(** [execute] of an executor that reaches outside the engine. *)
Definition external_execute : M dict :=
  fun w => (executor_outcomes w 0%nat, next_executor_outcome w).

Definition execute (c : executor_class) (user : string) (config : dict) : M dict :=
  modify (emit (EvExecute (class_name c) user config)) ;;;
  match c with
  | NotificationExecutor => NotificationExecutor_execute user config
  | _ => external_execute
  end.

(** ** The scheduler service (services/scheduler.py) *)

(** The job id of an action's timer, [f"action_{action.id}"]. *)
Definition job_id_of (id : string) : string := "action_" +:+ id.

(** [x or 0] on an optional integer. *)
Definition int_or_0 (x : option Z) : Z :=
  match x with
  | Some n => if n =? 0 then 0 else n
  | None => 0
  end.

Definition _create_trigger (action : ScheduledActionModel) : M (option Trigger) :=
  let config := schedule_config action in
  try_except
    (if String.eqb (schedule_type action) "cron" then
       let cron_expr := dict_get_default config "expression" (JStr "0 9 * * *") in
       valid <- lift (croniter_is_valid cron_expr) ;;
       if negb valid then
         log ERROR ("Invalid cron expression: " +:+ py_str cron_expr) ;;;
         ret None
       else
         parts <- lift (str_split cron_expr) ;;
         match parts with
         | [minute; hour; day; month; day_of_week] =>
             t <- lift (CronTrigger_init minute hour day month day_of_week) ;;
             ret (Some t)
         | _ =>
             log ERROR ("Invalid cron format: " +:+ py_str cron_expr) ;;;
             ret None
         end
     else if String.eqb (schedule_type action) "interval" then
       let value := dict_get_default config "value" (JInt 60) in
       let unit := dict_get_default config "unit" (JStr "minutes") in
       now <- reads clock ;;
       t <- lift (IntervalTrigger_init unit value now) ;;
       ret (Some t)
     else if String.eqb (schedule_type action) "once" then
       let dt_str := py_or (dict_get config "datetime") (dict_get config "run_at") in
       if negb (truthy dt_str) then
         log ERROR "No datetime specified for 'once' schedule" ;;;
         ret None
       else
         match dt_str with
         | JStr s =>
             match datetime_fromisoformat (replace_Z s) with
             | Some run_date => ret (Some (DateTrigger run_date))
             | None =>
                 log ERROR ("Invalid datetime format: " +:+ s) ;;;
                 ret None
             end
         | _ => raise (Exn AttributeError "object has no attribute 'replace'")
         end
     else
       log ERROR ("Unknown schedule type: " +:+ schedule_type action) ;;;
       ret None)
    (fun e =>
       log ERROR ("Error creating trigger: " +:+ exn_msg e) ;;;
       ret None).

Definition _schedule_action (action : ScheduledActionModel) : M unit :=
  try_except
    (trigger <- _create_trigger action ;;
     match trigger with
     | None =>
         log WARNING ("Could not create trigger for action " +:+ action_id action)
     | Some t =>
         job <- add_job t (action_id action) (job_id_of (action_id action))
                  (name action) true 60 ;;
         modify (fun w => set_job_map (<[action_id action := job_id job]> (job_map w)) w) ;;;
         match next_run_time job with
         | Some next_run_timestamp =>
             update_scheduled_action_run_times (action_id action)
               (int_or_0 (last_run_at action)) (Some next_run_timestamp) ;;;
             log INFO ("Scheduled action '" +:+ name action +:+ "' (ID: "
                       +:+ action_id action +:+ ") - Next run: "
                       +:+ pretty next_run_timestamp)
         | None =>
             log INFO ("Scheduled action '" +:+ name action +:+ "' (ID: "
                       +:+ action_id action +:+ ") - scheduled successfully")
         end
     end)
    (fun e =>
       log ERROR ("Error scheduling action " +:+ action_id action +:+ ": " +:+ exn_msg e)).

Definition reload_jobs : M unit :=
  log INFO "Reloading scheduled jobs..." ;;;
  remove_all_jobs ;;;
  modify (set_job_map ∅) ;;;
  try_except
    (actions <- get_enabled_scheduled_actions ;;
     log INFO ("Found " +:+ pretty (length actions) +:+ " enabled scheduled actions") ;;;
     for_each actions _schedule_action)
    (fun e => log ERROR ("Error reloading jobs: " +:+ exn_msg e)).

Definition start : M unit :=
  r <- reads _running ;;
  if r then log WARNING "Scheduler service is already running"
  else
    log INFO "Starting scheduler service..." ;;;
    reload_jobs ;;;
    scheduler_start ;;;
    modify (set_running true) ;;;
    log INFO "Scheduler service started successfully".

Definition stop : M unit :=
  r <- reads _running ;;
  if negb r then ret tt
  else
    log INFO "Stopping scheduler service..." ;;;
    scheduler_shutdown ;;;
    modify (set_running false) ;;;
    modify (set_job_map ∅) ;;;
    log INFO "Scheduler service stopped".

Definition _send_completion_notification (action : ScheduledActionModel)
    (result : dict) : M unit :=
  try_except
    (let status := dict_get_default result "status" (JStr "unknown") in
     let notification_config : dict :=
       <["title" := JStr ("Scheduled Action Complete: " +:+ name action)]>
       (<["message" := JStr ("Status: " +:+ py_str status)]>
       (<["type" := JStr (match status with
                          | JStr s => if String.eqb s "success" then "success" else "warning"
                          | _ => "warning"
                          end)]> ∅)) in
     execute NotificationExecutor (user_id action) notification_config ;;;
     ret tt)
    (fun e => log ERROR ("Error sending completion notification: " +:+ exn_msg e)).

(** The suite of the [try] in [execute_action]. *)
Definition _execute_action_body (action : ScheduledActionModel) : M dict :=
  match get_executor (action_type action) with
  | None =>
      let error_msg := "No executor found for action type: " +:+ action_type action in
      log ERROR error_msg ;;;
      ret (error_outcome error_msg)
  | Some executor =>
      result <- execute executor (user_id action) (action_config action) ;;
      log INFO ("Action " +:+ action_id action +:+ " execution result: "
                +:+ py_str (dict_get result "status")) ;;;
      (if truthy (dict_get result "chat_id") then
         let chat_id := dict_get result "chat_id" in
         let updated_config := <["chat_id" := chat_id]> (action_config action) in
         update_scheduled_action_by_id (action_id action)
           (form_action_config_only updated_config) ;;;
         log INFO ("Persisted chat_id " +:+ py_str chat_id +:+ " to action "
                   +:+ action_id action)
       else ret tt) ;;;
      (if truthy (dict_get_default (action_config action) "notify" (JBool false))
       then _send_completion_notification action result
       else ret tt) ;;;
      ret result
  end.

Definition execute_action (action : ScheduledActionModel) : M dict :=
  log INFO ("Executing scheduled action: " +:+ name action +:+ " (type: "
            +:+ action_type action +:+ ", user: " +:+ user_id action +:+ ")") ;;;
  try_except (_execute_action_body action)
    (fun e =>
       log ERROR ("Error executing action " +:+ action_id action +:+ ": " +:+ exn_msg e) ;;;
       ret (error_outcome (exn_msg e))).

(** The suite of the [try] in [_execute_action_wrapper]. *)
Definition _execute_action_wrapper_body (id : string) : M unit :=
  action <- get_scheduled_action_by_id id ;;
  match action with
  | None =>
      log WARNING ("Action " +:+ id +:+ " not found, removing from schedule") ;;;
      remove_job (job_id_of id)
  | Some action =>
      if negb (enabled action) then
        log INFO ("Action " +:+ id +:+ " is disabled, skipping execution")
      else
        execute_action action ;;;
        current_time <- reads clock ;;
        job <- get_job (job_id_of id) ;;
        let next_run_at :=
          match job with
          | Some j => next_run_time j
          | None => None
          end in
        update_scheduled_action_run_times id current_time next_run_at ;;;
        if String.eqb (schedule_type action) "once" then
          update_scheduled_action_by_id id (form_enabled_only false) ;;;
          log INFO ("One-time action " +:+ id +:+ " completed and disabled")
        else ret tt
  end.

Definition _execute_action_wrapper (id : string) : M unit :=
  try_except (_execute_action_wrapper_body id)
    (fun e => log ERROR ("Error in action wrapper for " +:+ id +:+ ": " +:+ exn_msg e)).

End Engine.

(** ** A reference library

    An instance of [PyLib] that computes, for running the engine on concrete
    inputs. Text is the encoded object itself, or nothing for a text that
    does not decode. The cron validator accepts five or six fields over the
    characters of numeric cron expressions, the date parser reads
    [YYYY-MM-DDTHH:MM:SS] with an optional [+00:00], and fire times are
    those of date triggers, of interval triggers without jitter, and of cron
    triggers whose minute and hour are a number or a star and whose other
    fields are stars. *)

Module Ref.

Definition digit (c : ascii) : option Z :=
  let n := Z.of_nat (nat_of_ascii c) in
  if (48 <=? n) && (n <=? 57) then Some (n - 48) else None.

Fixpoint number (acc : Z) (s : string) : option Z :=
  match s with
  | EmptyString => Some acc
  | String c s' =>
      match digit c with
      | Some d => number (10 * acc + d) s'
      | None => None
      end
  end.

Definition field (s : string) (pos len : nat) : option Z :=
  let f := substring pos len s in
  if Nat.eqb (String.length f) len then number 0 f else None.

Definition days_from_civil (y m d : Z) : Z :=
  let y' := if m <=? 2 then y - 1 else y in
  let era := y' / 400 in
  let yoe := y' - era * 400 in
  let doy := (153 * (if 2 <? m then m - 3 else m + 9) + 2) / 5 + d - 1 in
  let doe := yoe * 365 + yoe / 4 - yoe / 100 + doy in
  era * 146097 + doe - 719468.

Definition fromisoformat (s : string) : option Z :=
  let n := String.length s in
  if negb (Nat.eqb n 19 || (Nat.eqb n 25 && String.eqb (substring 19 6 s) "+00:00"))
  then None
  else if negb (String.eqb (substring 4 1 s) "-" && String.eqb (substring 7 1 s) "-"
                && String.eqb (substring 10 1 s) "T" && String.eqb (substring 13 1 s) ":"
                && String.eqb (substring 16 1 s) ":")
  then None
  else
    match field s 0 4, field s 5 2, field s 8 2, field s 11 2, field s 14 2, field s 17 2 with
    | Some y, Some mo, Some d, Some h, Some mi, Some sec =>
        if (1 <=? mo) && (mo <=? 12) && (1 <=? d) && (d <=? 31)
           && (h <=? 23) && (mi <=? 59) && (sec <=? 59)
        then Some (days_from_civil y mo d * 86400 + h * 3600 + mi * 60 + sec)
        else None
    | _, _, _, _, _, _ => None
    end.

Definition cron_char (c : ascii) : bool :=
  match digit c with
  | Some _ => true
  | None => Ascii.eqb c "*" || Ascii.eqb c "," || Ascii.eqb c "-" || Ascii.eqb c "/"
  end.

Fixpoint all_chars (p : ascii -> bool) (s : string) : bool :=
  match s with
  | EmptyString => true
  | String c s' => p c && all_chars p s'
  end.

Definition is_valid (v : json) : result bool :=
  match v with
  | JStr s =>
      let parts := py_split s in
      Ok ((Nat.eqb (length parts) 5 || Nat.eqb (length parts) 6)
          && forallb (all_chars cron_char) parts)
  | _ => Raise (Exn AttributeError "object has no attribute 'lower'")
  end.

(** A field that is a star or a number. *)
Definition field_matches (f : string) (v : Z) : option bool :=
  if String.eqb f "*" then Some true
  else match number 0 f with
       | Some n => if String.eqb f "" then None else Some (n =? v)
       | None => None
       end.

(** The first of the next [fuel] whole minutes after [t] that matches. *)
Fixpoint next_minute (fuel : nat) (minute hour : string) (t : Z) : option Z :=
  match fuel with
  | O => None
  | S fuel' =>
      let t' := (t / 60 + 1) * 60 in
      match field_matches minute ((t' / 60) mod 60), field_matches hour ((t' / 3600) mod 24) with
      | Some true, Some true => Some t'
      | Some _, Some _ => next_minute fuel' minute hour t'
      | _, _ => None
      end
  end.

Definition next_fire_time (t : Trigger) (previous : option Z) (now : Z) : option Z :=
  match t with
  | DateTrigger run_date =>
      match previous with
      | None => Some run_date
      | Some _ => None
      end
  | IntervalTrigger len start end_date _ _ =>
      let next :=
        match previous with
        | Some p => p + len
        | None =>
            if now <? start then start
            else start + len * ((now - start + len - 1) / len)
        end in
      match end_date with
      | Some e => if next <=? e then Some next else None
      | None => Some next
      end
  | CronTrigger minute hour day month day_of_week =>
      if String.eqb day "*" && String.eqb month "*" && String.eqb day_of_week "*"
      then next_minute 1440 minute hour (match previous with Some p => Z.max p now | None => now end)
      else None
  end.

Definition str (v : json) : string :=
  match v with
  | JNull => "None"
  | JBool true => "True"
  | JBool false => "False"
  | JInt z => pretty z
  | JStr s => s
  | JList _ => "[...]"
  | JDict _ => "{...}"
  end.

#[export] Instance lib : PyLib := {|
  Text := option dict;
  json_dumps := Some;
  json_loads := fun t => t;
  json_loads_dumps := fun d => eq_refl;
  json_dumps_None := None;
  json_loads_None := eq_refl;
  py_str := str;
  croniter_is_valid := is_valid;
  CronTrigger_check := fun _ _ _ _ _ => None;
  datetime_fromisoformat := fromisoformat;
  convert_to_datetime_str := fun s =>
    match fromisoformat s with
    | Some t => Ok t
    | None => Raise (Exn ValueError "Invalid date string")
    end;
  astimezone_str := fun s =>
    if String.eqb s "UTC" then Ok s
    else Raise (Exn ValueError "unknown time zone");
  get_next_fire_time := next_fire_time
|}.

End Ref.

(** ** Notions the properties are stated with *)

Section Notions.
Context `{lib : PyLib}.

(** The world a [SchedulerService] is constructed in: a table, a clock and
    an environment; the scheduler is stopped and holds no job. *)
Definition init (t : list ScheduledAction) (now : Z) (faults : nat -> bool)
    (outcomes : nat -> result dict) : World :=
  {| table := t;
     scheduler := {| running := false; _pending_jobs := []; _jobs := [] |};
     job_map := ∅; _running := false; trace := []; clock := now;
     db_faults := faults; executor_outcomes := outcomes |}.

(** The timers of an action in the job store. *)
Definition timers_of (id : string) (s : AsyncIOScheduler) : list Job :=
  List.filter (has_job_id (job_id_of id)) (_jobs s).

(** No two jobs of the store share an id. *)
Definition unique_timers (s : AsyncIOScheduler) : Prop :=
  NoDup (map job_id (_jobs s)).

(** The jobs the service sees: those of the store while the scheduler runs,
    the pending ones while it is stopped. *)
Definition armed (s : AsyncIOScheduler) : list Job :=
  if running s then _jobs s else _pending_jobs s.

(** What can happen to a service: its own entry points, the steps of the
    timer subsystem taken one at a time, and the outside world editing the
    table or letting time pass. [Fire] is a timer going off: the dispatch
    loop reschedules the job and runs the callback. *)
Inductive op : Type :=
| Start | Stop | Reload
| Fire (id : string)
| Callback (id : string)
| Reschedule (jid : string)
| ScheduleAction (action : ScheduledActionModel)
| RunNow (action : ScheduledActionModel)
| AddJob (t : Trigger) (arg jid jname : string)
| RemoveJob (jid : string)
| RemoveAllJobs
| Edit (t : list ScheduledAction)
| Tick (now : Z).

Definition run_op (o : op) (w : World) : World :=
  match o with
  | Start => snd (start w)
  | Stop => snd (stop w)
  | Reload => snd (reload_jobs w)
  | Fire id => snd (_execute_action_wrapper id (snd (reschedule (job_id_of id) w)))
  | Callback id => snd (_execute_action_wrapper id w)
  | Reschedule jid => snd (reschedule jid w)
  | ScheduleAction action => snd (_schedule_action action w)
  | RunNow action => snd (execute_action action w)
  | AddJob t arg jid jname => snd (add_job t arg jid jname true 60 w)
  | RemoveJob jid => snd (remove_job jid w)
  | RemoveAllJobs => snd (remove_all_jobs w)
  | Edit t => set_table t w
  | Tick now => set_clock now w
  end.

(** The world after a sequence of steps, in any interleaving. *)
Definition run (ops : list op) (w : World) : World :=
  fold_left (fun w o => run_op o w) ops w.

(** The cron expression the calculator reads. *)
Definition cron_expression (action : ScheduledActionModel) : json :=
  dict_get_default (schedule_config action) "expression" (JStr "0 9 * * *").

(** A cron expression that croniter does not accept, or that is not made of
    exactly five fields. *)
Definition bad_cron (action : ScheduledActionModel) : Prop :=
  croniter_is_valid (cron_expression action) <> Ok true
  \/ forall s, cron_expression action = JStr s -> length (py_split s) <> 5%nat.

(** What [execute] gives for a configuration: the notification executor
    reports success with the title, message and type it was given; the
    executors that reach outside give what the environment chose. *)
Definition executor_result (c : executor_class) (config : dict) (w : World) : result dict :=
  match c with
  | NotificationExecutor =>
      Ok (<["status" := JStr "success"]>
          (<["title" := dict_get_default config "title" (JStr "Scheduled Action")]>
          (<["message" := dict_get_default config "message"
                            (JStr "Your scheduled action has completed")]>
          (<["type" := dict_get_default config "type" (JStr "info")]> ∅))))
  | _ => executor_outcomes w 0%nat
  end.

(** The next fire time the timer subsystem reports for an action, if it
    still has a timer with one. *)
Definition next_fire_of (id : string) (w : World) : option Z :=
  match fst (get_job (job_id_of id) w) with
  | Ok (Some j) => next_run_time j
  | _ => None
  end.

(** An event of an execution attempt: a log record, an invocation of an
    executor, or a committed update that does not touch [enabled]. No
    run-time update and no disabling write is one. *)
Definition attempt_event (e : Event) : Prop :=
  match e with
  | EvLog _ _ => True
  | EvExecute _ _ _ => True
  | EvCommit (CommitUpdate _ form) => upd_enabled form = None
  | EvCommit _ => False
  end.

(** [extends P w w']: the trace of [w'] is the trace of [w] followed by
    events that satisfy [P]. *)
Definition extends (P : Event -> Prop) : relation World :=
  fun w w' => exists evs, trace w' = trace w ++ evs /\ Forall P evs.

(** The world after the events [evs] were appended to its trace. *)
Definition emits (evs : list Event) w : World :=
  fold_left (fun w e => emit e w) evs w.

(** A log record. *)
Definition is_log (e : Event) : Prop :=
  match e with EvLog _ _ => True | _ => False end.

(** [respects R m]: whatever world [m] starts in, the world it leaves is
    related to it by [R], whether [m] returns or raises. *)
Definition respects {A} (R : relation World) (m : M A) : Prop :=
  forall w, R w (snd (m w)).

(** [total m]: [m] returns, it never raises. *)
Definition total {A} (m : M A) : Prop :=
  forall w, is_ok (fst (m w)) = true.

(** [same f]: the computation leaves the component [f] of the world as it
    was. *)
Definition same {A} (f : World -> A) : relation World :=
  fun w w' => f w' = f w.

(** [keeps I]: an invariant of the scheduler survives the computation. *)
Definition keeps (I : AsyncIOScheduler -> Prop) : relation World :=
  fun w w' => I (scheduler w) -> I (scheduler w').

(** The job [add_job] builds for an action, before and after the store
    computed its first fire time. *)
Definition new_job (t : Trigger) (id jname : string) (next : option Z) : Job :=
  {| job_id := job_id_of id; job_name := jname; job_args := id; trigger := t;
     next_run_time := next; misfire_grace_time := 60 |}.

(** [r2] is [r], or [r] with a new [action_config] and time stamp. *)
Definition config_rewrite (r r2 : ScheduledAction) : Prop :=
  r2 = r \/ exists d now, r2 = apply_update (form_action_config_only d) now r.

(** The two bookkeeping writes that end a fire, as worlds: the run-time
    update of a fire at time [now] with next fire time [next], and the
    disabling write of a one-shot action. *)
Definition after_run_times (id : string) (now : Z) (next : option Z) (w : World) : World :=
  emit (EvCommit (CommitRunTimes id now next))
    (set_table (update_first (has_id id) (apply_run_times now next now) (table w))
       (next_db_fault w)).

Definition after_disable (id : string) (now : Z) (w : World) : World :=
  emit (EvLog INFO ("One-time action " +:+ id +:+ " completed and disabled"))
    (emit (EvCommit (CommitUpdate id (form_enabled_only false)))
       (set_table (update_first (has_id id) (apply_update (form_enabled_only false) now) (table w))
          (next_db_fault w))).

End Notions.

(** ** Sample actions and worlds

    Concrete inputs over the reference library, on which the engine is run
    below. *)

Module Sample.

Definition cfg (l : list (string * json)) : dict := list_to_map l.

(** The row that stores an action. *)
Definition row_of (a : ScheduledActionModel) : @ScheduledAction Ref.lib :=
  {| row_id := action_id a; row_user_id := user_id a; row_name := name a;
     row_description := description a; row_action_type := action_type a;
     row_action_config := (Some (action_config a) : @Text Ref.lib);
     row_schedule_type := schedule_type a;
     row_schedule_config := (Some (schedule_config a) : @Text Ref.lib);
     row_enabled := enabled a; row_last_run_at := last_run_at a;
     row_next_run_at := next_run_at a; row_created_at := created_at a;
     row_updated_at := updated_at a |}.

Definition action (id act_type : string) (act_cfg : dict) (sched_type : string)
    (sched_cfg : dict) (en : bool) (last next : option Z) : ScheduledActionModel :=
  {| action_id := id; user_id := "u1"; name := "job " +:+ id; description := None;
     action_type := act_type; action_config := act_cfg;
     schedule_type := sched_type; schedule_config := sched_cfg;
     enabled := en; last_run_at := last; next_run_at := next;
     created_at := 1700000000; updated_at := 1700000000 |}.

Definition notification_config : dict :=
  cfg [("title", JStr "T"); ("message", JStr "M")].

(** What [NotificationExecutor] returns for [notification_config]. *)
Definition notification_outcome : dict :=
  cfg [("status", JStr "success"); ("title", JStr "T"); ("message", JStr "M");
       ("type", JStr "info")].

(** What [WebSearchExecutor] returns when it saved the results to chat [c1]. *)
Definition search_config : dict :=
  cfg [("query", JStr "rocq"); ("engine", JStr "duckduckgo"); ("max_results", JInt 5)].

Definition search_outcome : dict :=
  cfg [("status", JStr "success"); ("query", JStr "rocq"); ("engine", JStr "duckduckgo");
       ("results_count", JInt 0); ("results", JList []); ("chat_id", JStr "c1")].

(** A one-shot notification, due on 2030-01-01 at 09:00 UTC, with a stale
    [next_run_at] from the reload that armed it. *)
Definition once_action : ScheduledActionModel :=
  action "a1" "notification" notification_config "once"
    (cfg [("datetime", JStr "2030-01-01T09:00:00Z")]) true None (Some 1893488400).

Definition disabled_action : ScheduledActionModel :=
  action "a1" "notification" notification_config "once"
    (cfg [("datetime", JStr "2030-01-01T09:00:00Z")]) false None (Some 1893488400).

(** A notification every five minutes that never ran. *)
Definition interval_action : ScheduledActionModel :=
  action "a2" "notification" notification_config "interval"
    (cfg [("value", JInt 5); ("unit", JStr "minutes")]) true None None.

(** A cron schedule with three fields. *)
Definition bad_cron_action : ScheduledActionModel :=
  action "a3" "notification" notification_config "cron"
    (cfg [("expression", JStr "x y z")]) true None None.

(** A cron schedule without an expression. *)
Definition bare_cron_action : ScheduledActionModel :=
  action "a4" "notification" notification_config "cron" (cfg []) true None None.

(** An interval schedule whose unit is [jitter]. *)
Definition jitter_action : ScheduledActionModel :=
  action "a5" "notification" notification_config "interval"
    (cfg [("unit", JStr "jitter")]) true None None.

(** A web search every hour. *)
Definition search_action : ScheduledActionModel :=
  action "a6" "web_search" search_config "interval"
    (cfg [("value", JInt 1); ("unit", JStr "hours")]) true None None.

(** A search that asks for a notification on completion. *)
Definition notifying_action : ScheduledActionModel :=
  action "a7" "web_search" (<["notify" := JBool true]> search_config) "interval"
    (cfg [("value", JInt 1); ("unit", JStr "hours")]) true None None.

Definition no_faults : nat -> bool := fun _ => false.

(** The second session of the run fails. *)
Definition second_fails : nat -> bool := fun n => Nat.eqb n 1.

(** The first session of the run fails. *)
Definition first_fails : nat -> bool := fun n => Nat.eqb n 0.

Definition always (o : dict) : nat -> result dict := fun _ => Ok o.

Definition raising (msg : string) : nat -> result dict :=
  fun _ => Raise (Exn RuntimeError msg).

Definition started (js : list Job) : AsyncIOScheduler :=
  {| running := true; _pending_jobs := []; _jobs := js |}.

Definition world (t : list ScheduledActionModel) (s : AsyncIOScheduler) (now : Z)
    (faults : nat -> bool) (outcomes : nat -> result dict) : @World Ref.lib :=
  {| table := map row_of t; scheduler := s; job_map := ∅; _running := running s;
     trace := []; clock := now; db_faults := faults; executor_outcomes := outcomes |}.

(** The timer of [interval_action], armed at 1893488100. *)
Definition interval_job : Job :=
  {| job_id := "action_a2"; job_name := "job a2"; job_args := "a2";
     trigger := IntervalTrigger 300 1893488400 None None JNull;
     next_run_time := Some 1893488400; misfire_grace_time := 60 |}.

(** 2030-01-01 09:00:00 UTC. *)
Definition nine : Z := 1893488400.

End Sample.

(** * The rest of the repository, the router and the status query

    The operations of [ScheduledActionsTable] that the engine does not
    call, the endpoints of [backend/open_webui/routers/scheduled_actions.py]
    that drive repository and engine, and [SchedulerService.get_job_status]. *)

Section Repository.
Context `{lib : PyLib}.

Notation "x <- m ;; k" := (bind m (fun x => k))
  (at level 100, m at next level, right associativity).
Notation "m ;;; k" := (bind m (fun _ => k))
  (at level 100, right associativity).

(** The table without the first row that [p] selects: the session deleted
    that row and committed. *)
Fixpoint delete_first {A} (p : A -> bool) (l : list A) : list A :=
  match l with
  | [] => []
  | x :: l' => if p x then l' else x :: delete_first p l'
  end.

(** The row [insert_new_scheduled_action] builds: the form's fields under a
    new id, both configurations encoded, the two run times left null and
    both time stamps set to [timestamp]. *)
Definition new_scheduled_action (id user : string) (form_data : ScheduledActionForm)
    (timestamp : Z) : ScheduledAction :=
  {| row_id := id;
     row_user_id := user;
     row_name := form_name form_data;
     row_description := form_description form_data;
     row_action_type := form_action_type form_data;
     row_action_config := json_dumps (form_action_config form_data);
     row_schedule_type := form_schedule_type form_data;
     row_schedule_config := json_dumps (form_schedule_config form_data);
     row_enabled := form_enabled form_data;
     row_last_run_at := None;
     row_next_run_at := None;
     row_created_at := timestamp;
     row_updated_at := timestamp |}.

(** [insert_new_scheduled_action]. [uuid4] is the identifier that
    [str(uuid.uuid4())] drew. The column [id] is the primary key: the commit
    of a row whose id the table holds raises, and the table keeps its rows. *)
Definition insert_new_scheduled_action (uuid4 user : string)
    (form_data : ScheduledActionForm) : M (option ScheduledActionModel) :=
  get_db ;;;
  timestamp <- reads clock ;;
  let scheduled_action := new_scheduled_action uuid4 user form_data timestamp in
  t <- reads table ;;
  if existsb (has_id uuid4) t then
    raise (Exn IntegrityError "UNIQUE constraint failed: scheduled_action.id")
  else
    modify (fun w => set_table (table w ++ [scheduled_action]) w) ;;;
    modify (emit (EvCommit (CommitInsert uuid4))) ;;;
    m <- lift (model_validate scheduled_action) ;;
    ret (Some m).

Definition get_scheduled_actions : M (list ScheduledActionModel) :=
  get_db ;;;
  rows <- reads table ;;
  lift (map_result model_validate rows).

Definition has_user_id (user : string) (r : ScheduledAction) : bool :=
  String.eqb (row_user_id r) user.

Definition get_scheduled_actions_by_user_id (user : string)
    : M (list ScheduledActionModel) :=
  get_db ;;;
  rows <- reads (fun w => List.filter (has_user_id user) (table w)) ;;
  lift (map_result model_validate rows).

Definition delete_scheduled_action_by_id (id : string) : M bool :=
  get_db ;;;
  row <- reads (fun w => first_by_id id (table w)) ;;
  match row with
  | None => ret false
  | Some _ =>
      modify (fun w => set_table (delete_first (has_id id) (table w)) w) ;;;
      modify (emit (EvCommit (CommitDelete id))) ;;;
      ret true
  end.

(** [delete_scheduled_actions_by_user_id]: the bulk delete removes every
    row of the user; the trace records one deletion per row. *)
Definition delete_scheduled_actions_by_user_id (user : string) : M bool :=
  get_db ;;;
  rows <- reads (fun w => List.filter (has_user_id user) (table w)) ;;
  modify (fun w => set_table (List.filter (fun r => negb (has_user_id user r)) (table w)) w) ;;;
  for_each rows (fun r => modify (emit (EvCommit (CommitDelete (row_id r))))) ;;;
  ret true.

End Repository.

(** ** The router (routers/scheduled_actions.py)

    An endpoint is a coroutine that returns its response or raises
    [HTTPException]. The endpoints that write run in
    [try ... except HTTPException: raise ... except Exception as e: raise
    HTTPException(500, str(e))]: an [HTTPException] raised in the suite
    passes the handler untouched, every other exception becomes the status
    500. The model returns the [HTTPException] as a value of [http], so that
    what a computation of [M] raises is an exception of another class.

    The user is the one [get_verified_user] admitted; [get_admin_user]
    admits administrators only. [has_scheduler_service] is
    [hasattr(request.app.state, "scheduler_service")], and the service the
    attribute holds is the one of the world. *)

Inductive http (A : Type) : Type :=
| Response (a : A)
| HTTPException (status_code : Z) (detail : string).
Arguments Response {A} a.
Arguments HTTPException {A} status_code detail.

(** The user model, as far as the router reads it. *)
Record UserModel : Type := {
  user_model_id : string;
  role : string
}.

(** [{"status": "success", "result": result}]. *)
Record TestResponse : Type := {
  response_status : string;
  response_result : dict
}.

(** [sep.join(l)]. *)
Fixpoint str_join (sep : string) (l : list string) : string :=
  match l with
  | [] => ""
  | x :: l' =>
      match l' with
      | [] => x
      | _ :: _ => x +:+ sep +:+ str_join sep l'
      end
  end.

(** [x in l] on a list of strings. *)
Definition str_in (x : string) (l : list string) : bool :=
  existsb (String.eqb x) l.

Definition valid_action_types : list string :=
  ["web_search"; "chat_completion"; "notification"].

Definition valid_schedule_types : list string :=
  ["cron"; "interval"; "once"].

Module Router.
Section Endpoints.
Context `{lib : PyLib}.

Notation "x <- m ;; k" := (bind m (fun x => k))
  (at level 100, m at next level, right associativity).
Notation "m ;;; k" := (bind m (fun _ => k))
  (at level 100, right associativity).

(** [action.user_id != user.id and user.role != "admin"]. *)
Definition access_denied (action : ScheduledActionModel) (user : UserModel) : bool :=
  negb (String.eqb (user_id action) (user_model_id user))
  && negb (String.eqb (role user) "admin").

(** [await request.app.state.scheduler_service.reload_jobs()] under
    [if hasattr(request.app.state, "scheduler_service")]. *)
Definition reload_if_present (has_scheduler_service : bool) : M unit :=
  if has_scheduler_service then reload_jobs else ret tt.

(** [except Exception as e] of an endpoint: the exception is logged and
    answered with the status 500. *)
Definition internal_error {A} (what : string) (e : exn) : M (http A) :=
  log ERROR ("Error " +:+ what +:+ " scheduled action: " +:+ exn_msg e) ;;;
  ret (HTTPException 500 (exn_msg e)).

(** The endpoints that share a name with an operation of the repository
    come last: until then the name is the repository's. *)

Definition get_all_scheduled_actions (user : UserModel) : M (list ScheduledActionModel) :=
  get_scheduled_actions.

Definition create_scheduled_action (has_scheduler_service : bool) (uuid4 : string)
    (form_data : ScheduledActionForm) (user : UserModel)
    : M (http (option ScheduledActionModel)) :=
  try_except
    (if negb (str_in (form_action_type form_data) valid_action_types) then
       ret (HTTPException 400
              ("Invalid action_type. Must be one of: "
               +:+ str_join ", " valid_action_types))
     else if negb (str_in (form_schedule_type form_data) valid_schedule_types) then
       ret (HTTPException 400
              ("Invalid schedule_type. Must be one of: "
               +:+ str_join ", " valid_schedule_types))
     else
       action <- insert_new_scheduled_action uuid4 (user_model_id user) form_data ;;
       reload_if_present has_scheduler_service ;;;
       ret (Response action))
    (internal_error "creating").

Definition update_scheduled_action (has_scheduler_service : bool) (action_id : string)
    (form_data : ScheduledActionUpdateForm) (user : UserModel)
    : M (http (option ScheduledActionModel)) :=
  try_except
    (action <- get_scheduled_action_by_id action_id ;;
     match action with
     | None => ret (HTTPException 404 "Scheduled action not found")
     | Some action =>
         if access_denied action user then ret (HTTPException 403 "Access denied")
         else
           updated_action <- update_scheduled_action_by_id action_id form_data ;;
           reload_if_present has_scheduler_service ;;;
           ret (Response updated_action)
     end)
    (internal_error "updating").

(** [ToggleForm] has the one field [enabled]. *)
Definition toggle_scheduled_action (has_scheduler_service : bool) (action_id : string)
    (form_enabled : bool) (user : UserModel)
    : M (http (option ScheduledActionModel)) :=
  try_except
    (action <- get_scheduled_action_by_id action_id ;;
     match action with
     | None => ret (HTTPException 404 "Scheduled action not found")
     | Some action =>
         if access_denied action user then ret (HTTPException 403 "Access denied")
         else
           updated_action <- update_scheduled_action_by_id action_id
                               (form_enabled_only form_enabled) ;;
           reload_if_present has_scheduler_service ;;;
           ret (Response updated_action)
     end)
    (internal_error "toggling").

Definition delete_scheduled_action (has_scheduler_service : bool) (action_id : string)
    (user : UserModel) : M (http bool) :=
  try_except
    (action <- get_scheduled_action_by_id action_id ;;
     match action with
     | None => ret (HTTPException 404 "Scheduled action not found")
     | Some action =>
         if access_denied action user then ret (HTTPException 403 "Access denied")
         else
           result <- delete_scheduled_action_by_id action_id ;;
           reload_if_present has_scheduler_service ;;;
           ret (Response result)
     end)
    (internal_error "deleting").

Definition test_scheduled_action (has_scheduler_service : bool) (action_id : string)
    (user : UserModel) : M (http TestResponse) :=
  try_except
    (action <- get_scheduled_action_by_id action_id ;;
     match action with
     | None => ret (HTTPException 404 "Scheduled action not found")
     | Some action =>
         if access_denied action user then ret (HTTPException 403 "Access denied")
         else if has_scheduler_service then
           result <- execute_action action ;;
           ret (Response {| response_status := "success"; response_result := result |})
         else ret (HTTPException 503 "Scheduler service not available")
     end)
    (internal_error "testing").

Definition get_scheduled_actions (user : UserModel) : M (list ScheduledActionModel) :=
  get_scheduled_actions_by_user_id (user_model_id user).

Definition get_scheduled_action_by_id (action_id : string) (user : UserModel)
    : M (http ScheduledActionModel) :=
  action <- get_scheduled_action_by_id action_id ;;
  match action with
  | None => ret (HTTPException 404 "Scheduled action not found")
  | Some action =>
      if access_denied action user then ret (HTTPException 403 "Access denied")
      else ret (Response action)
  end.

End Endpoints.
End Router.

(** ** The status of a timer (SchedulerService.get_job_status) *)

(** The dictionary [get_job_status] returns. *)
Record JobStatus : Type := {
  status_id : string;
  status_name : string;
  status_next_run_time : option string;
  status_trigger : string
}.

Section Status.
Context `{lib : PyLib}.

(** [datetime.isoformat] of an instant and [str] of a trigger. *)
Context (isoformat : Z -> string) (trigger_str : Trigger -> string).

Notation "x <- m ;; k" := (bind m (fun x => k))
  (at level 100, m at next level, right associativity).
Notation "m ;;; k" := (bind m (fun _ => k))
  (at level 100, right associativity).

Definition get_job_status (action_id : string) : M (option JobStatus) :=
  mapped <- reads (fun w => job_map w !! action_id) ;;
  match mapped with
  | None => ret None
  | Some jid =>
      if String.eqb jid "" then ret None
      else
        job <- get_job jid ;;
        match job with
        | None => ret None
        | Some job =>
            ret (Some {| status_id := job_id job;
                         status_name := job_name job;
                         status_next_run_time := isoformat <$> next_run_time job;
                         status_trigger := trigger_str (trigger job) |})
        end
  end.

End Status.

(** * The executors (services/action_executors.py)

    [NotificationExecutor] is part of the engine above. The search and the
    chat completion reach services outside these files: the search
    providers, the chats, the memories and the vector store. Those are the
    fields of the class [Services]; each is a computation that may change
    the world and may raise. The identifiers that [uuid.uuid4()] draws are
    parameters. *)

(** ** Python dictionaries in insertion order *)

Abbreviation odict := (list (string * json)).

(** [d.get(k)]. *)
Fixpoint odict_get (k : string) (d : odict) : option json :=
  match d with
  | [] => None
  | (k', v) :: d' => if String.eqb k' k then Some v else odict_get k d'
  end.

(** [k in d]. *)
Definition odict_in (k : string) (d : odict) : bool :=
  match odict_get k d with Some _ => true | None => false end.

(** [d[k] = v]: the value of a key that is present is replaced where it
    stands, a new key goes to the end. *)
Fixpoint odict_set (k : string) (v : json) (d : odict) : odict :=
  match d with
  | [] => [(k, v)]
  | (k', v') :: d' =>
      if String.eqb k' k then (k', v) :: d' else (k', v') :: odict_set k v d'
  end.

(** [if k not in d: d[k] = v]. *)
Definition odict_setdefault (k : string) (v : json) (d : odict) : odict :=
  if odict_in k d then d else odict_set k v d.

(** The line break of an f-string. *)
Definition nl : string := String "010"%char "".

(** [x == s] for a text [s]. *)
Definition is_str (x : json) (s : string) : bool :=
  match x with
  | JStr s' => String.eqb s' s
  | _ => false
  end.

(** [s or d] on an optional text. *)
Definition str_or (s : option string) (d : string) : string :=
  match s with
  | Some s' => if String.eqb s' "" then d else s'
  | None => d
  end.

(** A search result: an object with the attributes [link], [title] and
    [snippet], or a dictionary. *)
Inductive search_item : Type :=
| SearchResult (link : string) (title snippet : option string)
| ResultDict (d : odict).

(** A result as it is serialized in an outcome. *)
Definition item_json (r : search_item) : json :=
  match r with
  | SearchResult link title snippet =>
      JDict [("link", JStr link);
             ("title", match title with Some t => JStr t | None => JNull end);
             ("snippet", match snippet with Some s => JStr s | None => JNull end)]
  | ResultDict d => JDict d
  end.

(** [app_state.config], as far as the search reads it. *)
Record AppConfig : Type := {
  OLLAMA_CLOUD_WEB_SEARCH_API_KEY : json;
  SEARXNG_QUERY_URL : json;
  BRAVE_SEARCH_API_KEY : json;
  GOOGLE_PSE_API_KEY : json;
  GOOGLE_PSE_ENGINE_ID : json;
  TAVILY_API_KEY : json;
  WEB_SEARCH_DOMAIN_FILTER_LIST : json
}.

(** A chat of [open_webui.models.chats]: its id and its content. *)
Record ChatModel : Type := {
  chat_model_id : string;
  chat : odict
}.

(** A memory of [open_webui.models.memories]. *)
Record MemoryModel : Type := {
  memory_id : string;
  memory_content : string;
  memory_created_at : Z
}.

(** The services the executors call. The arguments are the ones of the
    calls in the source, in their order. *)
Class Services `{lib : PyLib} : Type := {
  config : AppConfig;
  search_ollama_cloud : string -> json -> json -> json -> json -> M (list search_item);
  search_searxng : json -> json -> json -> json -> M (list search_item);
  search_brave : json -> json -> json -> json -> M (list search_item);
  search_google_pse : json -> json -> json -> json -> json -> M (list search_item);
  search_duckduckgo : json -> json -> json -> M (list search_item);
  search_tavily : json -> json -> json -> json -> M (list search_item);
  strftime : Z -> string;
  Chats_get_chat_by_id_and_user_id : json -> string -> M (option ChatModel);
  Chats_update_chat_by_id : json -> odict -> M (option ChatModel);
  Chats_insert_new_chat : string -> odict -> M (option ChatModel);
  Memories_insert_new_memory : string -> string -> M (option MemoryModel);
  has_EMBEDDING_FUNCTION : bool;
  Users_get_user_by_id : string -> M json;
  EMBEDDING_FUNCTION : string -> json -> M json;
  VECTOR_DB_CLIENT_upsert : string -> list json -> M unit
}.

Section Executors.
Context `{svc : Services}.

Notation "x <- m ;; k" := (bind m (fun x => k))
  (at level 100, m at next level, right associativity).
Notation "m ;;; k" := (bind m (fun _ => k))
  (at level 100, right associativity).

(** ** WebSearchExecutor._save_to_chat *)

(** Title, link and snippet of a result as the message shows them, and
    whether the snippet is shown. *)
Definition item_fields (r : search_item) : string * string * string * bool :=
  match r with
  | SearchResult link title snippet =>
      (str_or title "No title", link, str_or snippet "",
       negb (String.eqb (str_or snippet "") ""))
  | ResultDict d =>
      (py_str (default (JStr "No title") (odict_get "title" d)),
       py_str (default (JStr "") (odict_get "link" d)),
       py_str (default (JStr "") (odict_get "snippet" d)),
       truthy (default (JStr "") (odict_get "snippet" d)))
  end.

(** The part of the message for the [i]-th result and the ones after it. *)
Fixpoint results_content (i : nat) (results : list search_item) : string :=
  match results with
  | [] => ""
  | r :: rest =>
      let '(title, link, snippet, shown) := item_fields r in
      "### " +:+ pretty i +:+ ". " +:+ title +:+ nl
      +:+ "ðŸ”— [" +:+ link +:+ "](" +:+ link +:+ ")" +:+ nl +:+ nl
      +:+ (if shown then snippet +:+ nl +:+ nl else "")
      +:+ "---" +:+ nl +:+ nl
      +:+ results_content (S i) rest
  end.

Definition message_content (query : json) (timestamp : string) (action_config : dict)
    (results : list search_item) : string :=
  "ðŸ” **Search Results for:** " +:+ py_str query +:+ nl
  +:+ "ðŸ“… **Date:** " +:+ timestamp +:+ nl
  +:+ "ðŸ”Ž **Engine:** "
  +:+ py_str (dict_get_default action_config "engine" (JStr "unknown")) +:+ nl
  +:+ "ðŸ“Š **Results Found:** " +:+ pretty (length results) +:+ nl +:+ nl
  +:+ "---" +:+ nl +:+ nl
  +:+ results_content 1 results.

(** The message that asks. *)
Definition user_message (user_msg_id assistant_msg_id : string) (parent : json)
    (query : json) (now : Z) : odict :=
  [("id", JStr user_msg_id);
   ("parentId", parent);
   ("childrenIds", JList [JStr assistant_msg_id]);
   ("role", JStr "user");
   ("content", JStr ("[Scheduled Search] " +:+ py_str query));
   ("timestamp", JInt now);
   ("models", JList [JStr "scheduled-search"])].

(** The message that answers with the results. *)
Definition assistant_message (user_msg_id assistant_msg_id : string) (content : string)
    (now : Z) : odict :=
  [("id", JStr assistant_msg_id);
   ("parentId", JStr user_msg_id);
   ("childrenIds", JList []);
   ("role", JStr "assistant");
   ("content", JStr content);
   ("timestamp", JInt now);
   ("model", JStr "scheduled-search");
   ("done", JBool true)].

(** The loop over [messages.items()]: the key of the first message whose
    [childrenIds] is missing or empty. A message that is no dictionary has
    no [get]. *)
Fixpoint first_leaf (messages : odict) : result (option string) :=
  match messages with
  | [] => Ok None
  | (msg_id, msg) :: rest =>
      match msg with
      | JDict m =>
          if negb (truthy (default JNull (odict_get "childrenIds" m)))
          then Ok (Some msg_id)
          else first_leaf rest
      | _ => Raise (Exn AttributeError "object has no attribute 'get'")
      end
  end.

(** [if "childrenIds" not in msg: msg["childrenIds"] = []] and
    [msg["childrenIds"].append(child)]. *)
Definition add_child (child : string) (msg : json) : result json :=
  match msg with
  | JDict m =>
      match odict_get "childrenIds" m with
      | None => Ok (JDict (odict_set "childrenIds" (JList [JStr child]) m))
      | Some (JList l) => Ok (JDict (odict_set "childrenIds" (JList (l ++ [JStr child])) m))
      | Some _ => Raise (Exn AttributeError "object has no attribute 'append'")
      end
  | _ => Raise (Exn TypeError "argument is not iterable")
  end.

(** [sub in s] on two texts. *)
Fixpoint str_contains (sub s : string) : bool :=
  String.prefix sub s
  || match s with
     | EmptyString => false
     | String _ s' => str_contains sub s'
     end.

(** What the suite under [if existing_chat] does to the content of the
    chat before it is written back, or the exception it raises.

    A history that is no dictionary ends in a [TypeError]: at
    ["messages" not in chat_data["history"]] when it cannot be searched, at
    the assignment after it, or at [chat_data["history"]["messages"]]. A
    collection of messages that is no dictionary has no [items] when it is
    truthy, and takes no item when it is not. The texts of these errors are
    shortened.

    The two new messages are objects that the history and the message array
    share: when the last step adds a child to one of them (its id is the
    one of the leaf), both places show it. *)
Definition add_to_chat (chat_data : odict) (user_msg_id assistant_msg_id : string)
    (query : json) (content : string) (now : Z) : result odict :=
  let chat_data :=
    odict_setdefault "history" (JDict [("messages", JDict [])]) chat_data in
  match default JNull (odict_get "history" chat_data) with
  | JDict history =>
      let history := odict_setdefault "messages" (JDict []) history in
      let chat_data := odict_setdefault "messages" (JList []) chat_data in
      let chat_data :=
        if negb (odict_in "models" chat_data)
           || negb (truthy (default JNull (odict_get "models" chat_data)))
        then odict_set "models" (JList [JStr "scheduled-search"]) chat_data
        else chat_data in
      let chat_data := odict_setdefault "tags" (JList []) chat_data in
      let chat_data := odict_setdefault "files" (JList []) chat_data in
      match default JNull (odict_get "messages" history) with
      | JDict messages =>
          match (if truthy (JDict messages) then first_leaf messages else Ok None) with
          | Raise e => Raise e
          | Ok last_msg_id =>
              let parent :=
                match last_msg_id with Some k => JStr k | None => JNull end in
              let user_msg := user_message user_msg_id assistant_msg_id parent query now in
              let assistant_msg :=
                assistant_message user_msg_id assistant_msg_id content now in
              let messages :=
                odict_set assistant_msg_id (JDict assistant_msg)
                  (odict_set user_msg_id (JDict user_msg) messages) in
              let finish (messages : odict) (user_msg assistant_msg : json) :=
                let history :=
                  odict_set "currentId" (JStr assistant_msg_id)
                    (odict_set "messages" (JDict messages) history) in
                match default JNull (odict_get "messages" chat_data) with
                | JList array =>
                    Ok (odict_set "messages" (JList (array ++ [user_msg; assistant_msg]))
                          (odict_set "history" (JDict history) chat_data))
                | _ => Raise (Exn AttributeError "object has no attribute 'append'")
                end in
              match default JNull (odict_get "messages" chat_data) with
              | JList _ =>
                  match last_msg_id with
                  | Some k =>
                      if negb (String.eqb k "") && odict_in k messages then
                        match add_child user_msg_id
                                (default JNull (odict_get k messages)) with
                        | Raise e => Raise e
                        | Ok leaf =>
                            finish (odict_set k leaf messages)
                              (if String.eqb k user_msg_id
                                  && negb (String.eqb user_msg_id assistant_msg_id)
                               then leaf else JDict user_msg)
                              (if String.eqb k assistant_msg_id then leaf
                               else JDict assistant_msg)
                        end
                      else finish messages (JDict user_msg) (JDict assistant_msg)
                  | None => finish messages (JDict user_msg) (JDict assistant_msg)
                  end
              | _ => Raise (Exn AttributeError "object has no attribute 'append'")
              end
          end
      | messages =>
          if truthy messages
          then Raise (Exn AttributeError "object has no attribute 'items'")
          else Raise (Exn TypeError "object does not support item assignment")
      end
  | JStr s =>
      if str_contains "messages" s
      then Raise (Exn TypeError "string indices must be integers")
      else Raise (Exn TypeError "object does not support item assignment")
  | JList _ => Raise (Exn TypeError "list indices must be integers or slices")
  | _ => Raise (Exn TypeError "argument is not iterable")
  end.

(** The content of a new chat. *)
Definition new_chat_data (user_msg_id assistant_msg_id : string) (query : json)
    (content : string) (now : Z) : odict :=
  let user_msg := user_message user_msg_id assistant_msg_id JNull query now in
  let assistant_msg := assistant_message user_msg_id assistant_msg_id content now in
  [("id", JStr "");
   ("title", JStr ("ðŸ“° " +:+ py_str query));
   ("models", JList [JStr "scheduled-search"]);
   ("params", JDict []);
   ("history",
    JDict [("messages",
            JDict (odict_set assistant_msg_id (JDict assistant_msg)
                     [(user_msg_id, JDict user_msg)]));
           ("currentId", JStr assistant_msg_id)]);
   ("messages", JList [JDict user_msg; JDict assistant_msg]);
   ("tags", JList []);
   ("files", JList []);
   ("timestamp", JInt now)].

(** The end of [_save_to_chat]: a new chat is created. *)
Definition create_chat (user : string) (user_msg_id assistant_msg_id : string)
    (query : json) (content : string) : M json :=
  now <- reads clock ;;
  new_chat <- Chats_insert_new_chat user
                (new_chat_data user_msg_id assistant_msg_id query content now) ;;
  match new_chat with
  | Some c =>
      log INFO ("Created new chat " +:+ chat_model_id c +:+ " with search results") ;;;
      ret (JStr (chat_model_id c))
  | None => ret JNull
  end.

(** [_save_to_chat]; the result is the chat id, or [None]. The two
    identifiers are the ones the path taken draws. *)
Definition _save_to_chat (user_msg_id assistant_msg_id : string) (user : string)
    (query : json) (results : list search_item) (action_config : dict) : M json :=
  try_except
    (timestamp <- reads (fun w => strftime (clock w)) ;;
     let content := message_content query timestamp action_config results in
     let chat_id := dict_get action_config "chat_id" in
     if truthy chat_id then
       existing_chat <- Chats_get_chat_by_id_and_user_id chat_id user ;;
       match existing_chat with
       | Some existing_chat =>
           now <- reads clock ;;
           chat_data <- lift (add_to_chat (chat existing_chat) user_msg_id
                                assistant_msg_id query content now) ;;
           Chats_update_chat_by_id chat_id chat_data ;;;
           log INFO ("Updated existing chat " +:+ py_str chat_id
                     +:+ " with new search results") ;;;
           ret chat_id
       | None => create_chat user user_msg_id assistant_msg_id query content
       end
     else create_chat user user_msg_id assistant_msg_id query content)
    (fun e =>
       log ERROR ("Error saving to chat: " +:+ exn_msg e) ;;;
       ret JNull).

(** ** WebSearchExecutor.execute *)

(** The outcome of a search that ran. *)
Definition search_success (query engine : json) (results : list search_item)
    (chat_id : json) : dict :=
  <["status" := JStr "success"]>
  (<["query" := query]>
  (<["engine" := engine]>
  (<["results_count" := JInt (Z.of_nat (length results))]>
  (<["results" := JList (map item_json results)]>
  (<["chat_id" := chat_id]> ∅))))).

(** The end of [execute], once the provider returned. *)
Definition finish_search (user_msg_id assistant_msg_id : string) (user : string)
    (query engine : json) (action_config : dict) (results : list search_item) : M dict :=
  chat_id <-
    (if truthy (dict_get_default action_config "save_to_chat" (JBool true))
     then _save_to_chat user_msg_id assistant_msg_id user query results action_config
     else ret JNull) ;;
  ret (search_success query engine results chat_id).

Definition WebSearchExecutor_execute (user_msg_id assistant_msg_id : string)
    (user : string) (action_config : dict) : M dict :=
  try_except
    (let query := dict_get_default action_config "query" (JStr "") in
     let engine := dict_get_default action_config "engine" (JStr "ollama_cloud") in
     let max_results := dict_get_default action_config "max_results" (JInt 10) in
     if negb (truthy query) then ret (error_outcome "No query provided")
     else
       log INFO ("Executing web search for user " +:+ user +:+ ": " +:+ py_str query
                 +:+ " (engine: " +:+ py_str engine +:+ ")") ;;;
       let finish := finish_search user_msg_id assistant_msg_id user query engine
                       action_config in
       if is_str engine "ollama_cloud" then
         if negb (truthy (OLLAMA_CLOUD_WEB_SEARCH_API_KEY config))
         then ret (error_outcome "Ollama Cloud API key not configured")
         else
           results <- search_ollama_cloud "https://ollama.com"
                        (OLLAMA_CLOUD_WEB_SEARCH_API_KEY config) query max_results
                        (WEB_SEARCH_DOMAIN_FILTER_LIST config) ;;
           finish results
       else if is_str engine "searxng" then
         if negb (truthy (SEARXNG_QUERY_URL config))
         then ret (error_outcome "SearXNG query URL not configured")
         else
           results <- search_searxng (SEARXNG_QUERY_URL config) query max_results
                        (WEB_SEARCH_DOMAIN_FILTER_LIST config) ;;
           finish results
       else if is_str engine "brave" then
         if negb (truthy (BRAVE_SEARCH_API_KEY config))
         then ret (error_outcome "Brave Search API key not configured")
         else
           results <- search_brave (BRAVE_SEARCH_API_KEY config) query max_results
                        (WEB_SEARCH_DOMAIN_FILTER_LIST config) ;;
           finish results
       else if is_str engine "google_pse" then
         if negb (truthy (GOOGLE_PSE_API_KEY config))
            || negb (truthy (GOOGLE_PSE_ENGINE_ID config))
         then ret (error_outcome "Google PSE API key or engine ID not configured")
         else
           results <- search_google_pse (GOOGLE_PSE_API_KEY config)
                        (GOOGLE_PSE_ENGINE_ID config) query max_results
                        (WEB_SEARCH_DOMAIN_FILTER_LIST config) ;;
           finish results
       else if is_str engine "duckduckgo" then
         results <- search_duckduckgo query max_results
                      (WEB_SEARCH_DOMAIN_FILTER_LIST config) ;;
         finish results
       else if is_str engine "tavily" then
         if negb (truthy (TAVILY_API_KEY config))
         then ret (error_outcome "Tavily API key not configured")
         else
           results <- search_tavily (TAVILY_API_KEY config) query max_results
                        (WEB_SEARCH_DOMAIN_FILTER_LIST config) ;;
           finish results
       else ret (error_outcome ("Unsupported search engine: " +:+ py_str engine)))
    (fun e =>
       log ERROR ("Error executing web search: " +:+ exn_msg e) ;;;
       ret (error_outcome (exn_msg e))).

(** ** ChatCompletionExecutor *)

Definition _save_to_memory (user : string) (prompt : json) (response : string) : M unit :=
  try_except
    (let summary := "Automated chat:" +:+ nl +:+ "Q: " +:+ py_str prompt +:+ nl
                    +:+ "A: " +:+ response in
     memory <- Memories_insert_new_memory user summary ;;
     (match memory with
      | Some memory =>
          if has_EMBEDDING_FUNCTION then
            user_model <- Users_get_user_by_id user ;;
            vector <- EMBEDDING_FUNCTION (memory_content memory) user_model ;;
            VECTOR_DB_CLIENT_upsert ("user-memory-" +:+ user)
              [JDict [("id", JStr (memory_id memory));
                      ("text", JStr (memory_content memory));
                      ("vector", vector);
                      ("metadata", JDict [("created_at", JInt (memory_created_at memory))])]]
          else ret tt
      | None => ret tt
      end) ;;;
     log INFO ("Saved chat completion to memory for user " +:+ user))
    (fun e => log ERROR ("Error saving to memory: " +:+ exn_msg e)).

(** The outcome of a chat completion that ran. *)
Definition completion_success (model prompt : json) (response : string) : dict :=
  <["status" := JStr "success"]>
  (<["model" := model]>
  (<["prompt" := prompt]>
  (<["response" := JStr response]> ∅))).

Definition ChatCompletionExecutor_execute (user : string) (action_config : dict) : M dict :=
  try_except
    (let model := dict_get_default action_config "model" (JStr "") in
     let prompt := dict_get_default action_config "prompt" (JStr "") in
     let system_prompt := dict_get_default action_config "system_prompt" (JStr "") in
     if negb (truthy prompt) then ret (error_outcome "No prompt provided")
     else if negb (truthy model) then ret (error_outcome "No model specified")
     else
       log INFO ("Executing chat completion for user " +:+ user +:+ " with model "
                 +:+ py_str model) ;;;
       let messages :=
         (if truthy system_prompt
          then [JDict [("role", JStr "system"); ("content", system_prompt)]]
          else [])
         ++ [JDict [("role", JStr "user"); ("content", prompt)]] in
       let form_data :=
         [("model", model); ("messages", JList messages); ("stream", JBool false)] in
       let response_content := "Chat completion executed (implementation pending)" in
       (if truthy (dict_get_default action_config "save_to_memory" (JBool false))
        then _save_to_memory user prompt response_content
        else ret tt) ;;;
       ret (completion_success model prompt response_content))
    (fun e =>
       log ERROR ("Error executing chat completion: " +:+ exn_msg e) ;;;
       ret (error_outcome (exn_msg e))).

End Executors.

(** ** Notions for the repository, the router and the service *)

Section MoreNotions.
Context `{lib : PyLib}.

(** The primary key: no two rows share an id. *)
Definition unique_ids (t : list ScheduledAction) : Prop :=
  NoDup (map row_id t).

(** What an action is, as opposed to how its runs went: every column but
    [last_run_at], [next_run_at] and [updated_at]. *)
Definition definition_of (r : ScheduledAction) :=
  (row_id r, row_user_id r, row_name r, row_description r, row_action_type r,
   row_action_config r, row_schedule_type r, row_schedule_config r,
   row_enabled r, row_created_at r).

(** Who owns an action, what it is called, what kind it is and when it
    runs. *)
Definition schedule_of (r : ScheduledAction) :=
  (row_id r, row_user_id r, row_name r, row_description r, row_action_type r,
   row_schedule_type r, row_schedule_config r, row_created_at r).

(** The columns the fire of a timer keeps up to date. *)
Definition run_state_of (r : ScheduledAction) :=
  (row_enabled r, row_last_run_at r, row_next_run_at r).

(** The model of the action a form describes, created at [now] under the
    id [id] for the user [user]. *)
Definition model_of_form (id user : string) (form_data : ScheduledActionForm)
    (now : Z) : ScheduledActionModel :=
  {| action_id := id; user_id := user; name := form_name form_data;
     description := form_description form_data;
     action_type := form_action_type form_data;
     action_config := form_action_config form_data;
     schedule_type := form_schedule_type form_data;
     schedule_config := form_schedule_config form_data;
     enabled := form_enabled form_data;
     last_run_at := None; next_run_at := None;
     created_at := now; updated_at := now |}.

(** The model after an update with [form] at [now]: a field the form sets
    takes the form's value, [updated_at] is [now], the rest stays. *)
Definition updated_model (form : ScheduledActionUpdateForm) (now : Z)
    (m : ScheduledActionModel) : ScheduledActionModel :=
  {| action_id := action_id m; user_id := user_id m;
     name := set_column (name m) (upd_name form);
     description := default (description m) (upd_description form);
     action_type := action_type m;
     action_config := set_column (action_config m) (upd_action_config form);
     schedule_type := set_column (schedule_type m) (upd_schedule_type form);
     schedule_config := set_column (schedule_config m) (upd_schedule_config form);
     enabled := set_column (enabled m) (upd_enabled form);
     last_run_at := last_run_at m; next_run_at := next_run_at m;
     created_at := created_at m; updated_at := now |}.

(** The form sets a configuration to null. *)
Definition nulls_a_config (form : ScheduledActionUpdateForm) : bool :=
  match upd_action_config form with Some None => true | _ => false end
  || match upd_schedule_config form with Some None => true | _ => false end.

(** The value of a key in the stored [action_config] of an action. *)
Definition stored_key (id k : string) (w : World) : option json :=
  match first_by_id id (table w) with
  | Some r =>
      match json_loads (row_action_config r) with
      | Some stored => stored !! k
      | None => None
      end
  | None => None
  end.

(** The flag of the service agrees with the state of its scheduler. *)
Definition service_consistent (w : World) : Prop :=
  _running w = running (scheduler w).

(** Every entry of the job map names the timer of its action. *)
Definition job_map_named (w : World) : Prop :=
  forall id jid, job_map w !! id = Some jid -> jid = job_id_of id.

(** The one step that is not the engine's: the outside world rewriting the
    table. *)
Definition edits (o : op) : bool :=
  match o with Edit _ => true | _ => false end.

(** A computation that, as far as table, states and clock go, did
    nothing, and that left log records only. *)
Definition quiet (w w' : World) : Prop :=
  table w' = table w /\
  running (scheduler w') = running (scheduler w) /\
  _running w' = _running w /\
  clock w' = clock w /\
  exists logs, trace w' = trace w ++ logs /\ Forall is_log logs.

(** Quiet whenever it starts with the scheduler stopped. *)
Definition quiet_while_stopped : relation World :=
  fun w w' => running (scheduler w) = false -> quiet w w'.

(** A request to the router. *)
Inductive request : Type :=
| CreateAction (uuid4 : string) (form_data : ScheduledActionForm)
| UpdateAction (action_id : string) (form_data : ScheduledActionUpdateForm)
| ToggleAction (action_id : string) (enabled : bool)
| DeleteAction (action_id : string)
| TestAction (action_id : string)
| GetAction (action_id : string)
| ListActions
| ListAllActions.

(** The world after the router served a request of [user]. *)
Definition serve (has_scheduler_service : bool) (user : UserModel) (q : request)
    (w : World) : World :=
  match q with
  | CreateAction uuid4 form_data =>
      snd (Router.create_scheduled_action has_scheduler_service uuid4 form_data user w)
  | UpdateAction id form_data =>
      snd (Router.update_scheduled_action has_scheduler_service id form_data user w)
  | ToggleAction id b =>
      snd (Router.toggle_scheduled_action has_scheduler_service id b user w)
  | DeleteAction id =>
      snd (Router.delete_scheduled_action has_scheduler_service id user w)
  | TestAction id =>
      snd (Router.test_scheduled_action has_scheduler_service id user w)
  | GetAction id => snd (Router.get_scheduled_action_by_id id user w)
  | ListActions => snd (Router.get_scheduled_actions user w)
  | ListAllActions => snd (Router.get_all_scheduled_actions user w)
  end.

(** What happens to a deployment: the router serves a request, or the
    engine takes a step. *)
Inductive happening : Type :=
| Request (has_scheduler_service : bool) (user : UserModel) (q : request)
| Engine (o : op).

Definition happen (h : happening) (w : World) : World :=
  match h with
  | Request hs user q => serve hs user q w
  | Engine o => run_op o w
  end.

(** The world after a sequence of requests and engine steps. *)
Definition history (hs : list happening) (w : World) : World :=
  fold_left (fun w h => happen h w) hs w.

(** The table written from outside the application. *)
Definition outside_edit (h : happening) : bool :=
  match h with
  | Engine o => edits o
  | Request _ _ _ => false
  end.

(** The job map and the timer subsystem agree: an action has an entry
    exactly when a timer with its job id is armed. *)
Definition job_map_matches_timers (w : World) : Prop :=
  forall id, is_Some (job_map w !! id) <->
             exists j, j ∈ armed (scheduler w) /\ job_id j = job_id_of id.

(** A committed write. *)
Definition is_commit (e : Event) : Prop :=
  match e with EvCommit _ => True | _ => False end.

End MoreNotions.

(** ** Notions about the executors, and sample data *)

(** The engines [WebSearchExecutor.execute] has a branch for. *)
Definition supported_engines : list string :=
  ["ollama_cloud"; "searxng"; "brave"; "google_pse"; "duckduckgo"; "tavily"].

(** An outcome reports a success or an error. *)
Definition reports_status (outcome : dict) : Prop :=
  outcome !! "status" = Some (JStr "success")
  \/ outcome !! "status" = Some (JStr "error").

(** The messages of a chat by their ids, [chat["history"]["messages"]]. *)
Definition messages_of (chat_data : odict) : option odict :=
  match odict_get "history" chat_data with
  | Some (JDict history) =>
      match odict_get "messages" history with
      | Some (JDict messages) => Some messages
      | _ => None
      end
  | _ => None
  end.

(** The message a chat shows as its last, [chat["history"]["currentId"]]. *)
Definition current_of (chat_data : odict) : option json :=
  match odict_get "history" chat_data with
  | Some (JDict history) => odict_get "currentId" history
  | _ => None
  end.

(** The messages of a chat as the array the frontend reads,
    [chat["messages"]]. *)
Definition array_of (chat_data : odict) : option (list json) :=
  match odict_get "messages" chat_data with
  | Some (JList array) => Some array
  | _ => None
  end.

(** Sample data of the router: users, forms and deployments. *)
Module RouterSample.

(** The owner of the sample actions. *)
Definition owner : UserModel := {| user_model_id := "u1"; role := "user" |}.

(** Another user, no administrator. *)
Definition stranger : UserModel := {| user_model_id := "u2"; role := "user" |}.

(** A notification every five minutes. *)
Definition new_form : ScheduledActionForm :=
  {| form_name := "digest"; form_description := None;
     form_action_type := "notification";
     form_action_config := Sample.notification_config;
     form_schedule_type := "interval";
     form_schedule_config := Sample.cfg [("value", JInt 5); ("unit", JStr "minutes")];
     form_enabled := true |}.

(** A form that sets the name only. *)
Definition rename : ScheduledActionUpdateForm :=
  {| upd_name := Some (Some "renamed"); upd_description := None; upd_action_config := None;
     upd_schedule_type := None; upd_schedule_config := None; upd_enabled := None |}.

(** An action whose schedule type is none of the three. *)
Definition weekly_action : ScheduledActionModel :=
  Sample.action "a8" "notification" Sample.notification_config "weekly" (Sample.cfg [])
    true None None.

(** A running service that holds the one-shot action, at nine. *)
Definition deployed : @World Ref.lib :=
  Sample.world [Sample.once_action] (Sample.started []) Sample.nine Sample.no_faults
    (Sample.always Sample.notification_outcome).

(** The same, with a database that does not serve the second session. *)
Definition faulty : @World Ref.lib :=
  Sample.world [Sample.once_action] (Sample.started []) Sample.nine Sample.second_fails
    (Sample.always Sample.notification_outcome).

(** A service that was never started, at nine. *)
Definition idle : @World Ref.lib :=
  Sample.world [Sample.once_action]
    {| running := false; _pending_jobs := []; _jobs := [] |}
    Sample.nine Sample.no_faults (Sample.always Sample.notification_outcome).

End RouterSample.

(** Sample data of the executors. *)
Module ExecutorSample.

Definition hello : odict :=
  [("id", JStr "m1"); ("parentId", JNull); ("childrenIds", JList []);
   ("role", JStr "user"); ("content", JStr "hello")].

(** A chat of one message. *)
Definition chat_content : odict :=
  [("title", JStr "News");
   ("history", JDict [("messages", JDict [("m1", JDict hello)]);
                      ("currentId", JStr "m1")]);
   ("messages", JList [JDict hello])].

Definition app_config : AppConfig :=
  {| OLLAMA_CLOUD_WEB_SEARCH_API_KEY := JStr "";
     SEARXNG_QUERY_URL := JStr "";
     BRAVE_SEARCH_API_KEY := JStr "";
     GOOGLE_PSE_API_KEY := JStr "";
     GOOGLE_PSE_ENGINE_ID := JStr "";
     TAVILY_API_KEY := JStr "";
     WEB_SEARCH_DOMAIN_FILTER_LIST := JList [] |}.

Definition found : list search_item :=
  [SearchResult "https://example.org" (Some "Example") None].

(** Services without a chat and without a memory store: the providers
    find one page, no chat exists, and the memory store is out of reach. *)
Definition services : @Services Ref.lib :=
  {| config := app_config;
     search_ollama_cloud := fun _ _ _ _ _ => ret found;
     search_searxng := fun _ _ _ _ => ret found;
     search_brave := fun _ _ _ _ => ret found;
     search_google_pse := fun _ _ _ _ _ => ret found;
     search_duckduckgo := fun _ _ _ => ret found;
     search_tavily := fun _ _ _ _ => ret found;
     strftime := fun _ => "2030-01-01 09:00:00";
     Chats_get_chat_by_id_and_user_id := fun _ _ => ret None;
     Chats_update_chat_by_id := fun _ _ => ret None;
     Chats_insert_new_chat := fun _ content =>
       ret (Some {| chat_model_id := "c1"; chat := content |});
     Memories_insert_new_memory := fun _ _ =>
       raise (Exn OperationalError "database is locked");
     has_EMBEDDING_FUNCTION := true;
     Users_get_user_by_id := fun _ => ret JNull;
     EMBEDDING_FUNCTION := fun _ _ => ret (JList []);
     VECTOR_DB_CLIENT_upsert := fun _ _ => ret tt |}.

(** A search with an engine of the docstring that has no branch. *)
Definition google_search : dict :=
  Sample.cfg [("query", JStr "rocq"); ("engine", JStr "google")].

(** A chat completion that asks for its response to be remembered. *)
Definition remembered_completion : dict :=
  Sample.cfg [("prompt", JStr "hi"); ("model", JStr "m"); ("save_to_memory", JBool true)].

End ExecutorSample.

(** * Properties of the engine *)

Section Properties.
Context `{lib : PyLib}.

Implicit Types (w : World) (action : ScheduledActionModel) (id : string).

(** Unfolding of the monad's combinators. *)
Ltac monad_unfold :=
  unfold bind, ret, raise, lift, modify, reads, log, try_except in *.

(** ** The trigger calculator *)

Lemma py_split_default : py_split "0 9 * * *" = ["0"; "9"; "*"; "*"; "*"].
Proof. vm_compute. reflexivity. Qed.

(** C10. A cron schedule whose configuration has no key [expression] does
    not fail: the calculator takes the expression [0 9 * * *] (croniter
    accepts it and the trigger class takes its five fields) and returns the
    cron trigger of that expression, without logging anything. *)
Theorem cron_without_expression_uses_default action w :
  schedule_type action = "cron" ->
  schedule_config action !! "expression" = None ->
  croniter_is_valid (JStr "0 9 * * *") = Ok true ->
  CronTrigger_check "0" "9" "*" "*" "*" = None ->
  _create_trigger action w = (Ok (Some (CronTrigger "0" "9" "*" "*" "*")), w).
Proof.
  intros Hty Hexpr Hvalid Hcheck.
  unfold _create_trigger. rewrite Hty. cbn [String.eqb Ascii.eqb Bool.eqb].
  unfold dict_get_default. rewrite Hexpr. cbn [default].
  monad_unfold. rewrite Hvalid. cbn [negb].
  unfold str_split. rewrite py_split_default.
  unfold CronTrigger_init. rewrite Hcheck. reflexivity.
Qed.

(** ** Interval schedules *)

(** The current time is a date that leaves room for the interval. *)
Lemma datetime_add_ok now delta :
  datetime_min <= now + delta <= datetime_max ->
  datetime_add now delta = Ok (now + delta).
Proof.
  intros [H1 H2]. unfold datetime_add.
  apply Z.leb_le in H1, H2. rewrite H1, H2. reflexivity.
Qed.

(** Missing values: every 60 minutes. *)
Lemma interval_defaults action w :
  schedule_type action = "interval" ->
  schedule_config action !! "value" = None ->
  schedule_config action !! "unit" = None ->
  datetime_min <= clock w + 3600 <= datetime_max ->
  _create_trigger action w
  = (Ok (Some (IntervalTrigger 3600 (clock w + 3600) None None JNull)), w).
Proof.
  intros Hty Hv Hu Hd. unfold _create_trigger. rewrite Hty.
  cbn [String.eqb Ascii.eqb Bool.eqb].
  unfold dict_get_default. rewrite Hv, Hu. cbn [default].
  monad_unfold. unfold IntervalTrigger_init.
  change (unit_seconds "minutes") with (Some 60). cbv beta iota.
  change (timedelta_seconds 60 (JInt 60)) with (@Ok Z 3600). cbv beta iota zeta.
  change (if 3600 =? 0 then 1 else 3600) with 3600.
  rewrite (datetime_add_ok _ _ Hd). reflexivity.
Qed.

(** A recognized unit and an integer count that [timedelta] can hold: the
    trigger fires every [value] units (every second for a count of zero). *)
Lemma interval_recognized_unit action w u k z :
  schedule_type action = "interval" ->
  dict_get_default (schedule_config action) "unit" (JStr "minutes") = JStr u ->
  dict_get_default (schedule_config action) "value" (JInt 60) = JInt z ->
  unit_seconds u = Some k ->
  Z.abs (z * k / 86400) <= 999999999 ->
  datetime_min <= clock w + (if z * k =? 0 then 1 else z * k) <= datetime_max ->
  _create_trigger action w
  = (Ok (Some (IntervalTrigger (if z * k =? 0 then 1 else z * k)
                 (clock w + (if z * k =? 0 then 1 else z * k)) None None JNull)), w).
Proof.
  intros Hty Hu Hv Hk Hb Hd. unfold _create_trigger. rewrite Hty.
  cbn [String.eqb Ascii.eqb Bool.eqb]. rewrite Hu, Hv.
  monad_unfold. unfold IntervalTrigger_init. rewrite Hk. unfold timedelta_seconds.
  apply Z.leb_le in Hb. rewrite Hb. cbv zeta.
  rewrite (datetime_add_ok _ _ Hd). reflexivity.
Qed.

(** A unit that is no parameter of the interval trigger: no trigger. *)
Lemma interval_unknown_keyword action w u :
  schedule_type action = "interval" ->
  dict_get_default (schedule_config action) "unit" (JStr "minutes") = JStr u ->
  unit_seconds u = None ->
  u <> "start_date" -> u <> "end_date" -> u <> "timezone" -> u <> "jitter" ->
  fst (_create_trigger action w) = Ok None.
Proof.
  intros Hty Hu Hk H1 H2 H3 H4. unfold _create_trigger. rewrite Hty.
  cbn [String.eqb Ascii.eqb Bool.eqb]. rewrite Hu.
  monad_unfold. unfold IntervalTrigger_init. rewrite Hk.
  apply String.eqb_neq in H1, H2, H3, H4. rewrite H1, H2, H3, H4. reflexivity.
Qed.

(** The unit [jitter] is a parameter of the interval trigger: the
    calculator returns a trigger that fires every second. *)
Lemma interval_unit_jitter action w :
  schedule_type action = "interval" ->
  schedule_config action !! "unit" = Some (JStr "jitter") ->
  datetime_min <= clock w + 1 <= datetime_max ->
  _create_trigger action w
  = (Ok (Some (IntervalTrigger 1 (clock w + 1) None None
                 (dict_get_default (schedule_config action) "value" (JInt 60)))), w).
Proof.
  intros Hty Hu Hd. unfold _create_trigger. rewrite Hty.
  cbn [String.eqb Ascii.eqb Bool.eqb].
  assert (dict_get_default (schedule_config action) "unit" (JStr "minutes")
          = JStr "jitter") as -> by (unfold dict_get_default; rewrite Hu; reflexivity).
  monad_unfold. unfold IntervalTrigger_init.
  change (unit_seconds "jitter") with (@None Z).
  cbn [String.eqb Ascii.eqb Bool.eqb].
  rewrite (datetime_add_ok _ _ Hd). reflexivity.
Qed.

(** A leaf of the case analysis of the calculator: its result [t], and
    whether it logged an error. *)
Ltac leaf t n :=
  exists t;
  (match n with O => exists (@nil Event) | _ => eexists [EvLog ERROR _] end);
  (split;
   [| let w' := fresh "w'" in let Hw := fresh "Hw" in
      intros w' Hw; monad_unfold; rewrite ?Hw;
      repeat match goal with H : _ = _ |- _ => rewrite H end;
      cbn [negb]; reflexivity]);
  repeat constructor.

(** The calculator never raises, it only logs, and of the world it reads the
    clock only. *)
Lemma create_trigger_run action w :
  exists t evs, Forall is_log evs /\
    forall w', clock w' = clock w ->
      _create_trigger action w' = (Ok t, emits evs w').
Proof.
  unfold _create_trigger.
  destruct (String.eqb (schedule_type action) "cron") eqn:Hcron.
  { destruct (croniter_is_valid (dict_get_default (schedule_config action)
               "expression" (JStr "0 9 * * *"))) as [[|]|e] eqn:Hv;
      [| leaf (@None Trigger) 1%nat ..].
    destruct (str_split (dict_get_default (schedule_config action)
               "expression" (JStr "0 9 * * *"))) as [parts|e] eqn:Hs;
      [| leaf (@None Trigger) 1%nat].
    destruct parts as [|p1 [|p2 [|p3 [|p4 [|p5 [|p6 ps]]]]]];
      try (leaf (@None Trigger) 1%nat).
    unfold CronTrigger_init.
    destruct (CronTrigger_check p1 p2 p3 p4 p5) as [e|] eqn:Hc.
    - leaf (@None Trigger) 1%nat.
    - leaf (Some (CronTrigger p1 p2 p3 p4 p5)) 0%nat. }
  destruct (String.eqb (schedule_type action) "interval") eqn:Hint.
  { destruct (IntervalTrigger_init
                (dict_get_default (schedule_config action) "unit" (JStr "minutes"))
                (dict_get_default (schedule_config action) "value" (JInt 60))
                (clock w)) as [t|e] eqn:Hi.
    - leaf (Some t) 0%nat.
    - leaf (@None Trigger) 1%nat. }
  destruct (String.eqb (schedule_type action) "once") eqn:Honce;
    [| leaf (@None Trigger) 1%nat].
  destruct (truthy (py_or (dict_get (schedule_config action) "datetime")
                          (dict_get (schedule_config action) "run_at"))) eqn:Ht;
    [| leaf (@None Trigger) 1%nat].
  destruct (py_or (dict_get (schedule_config action) "datetime")
                  (dict_get (schedule_config action) "run_at")) as [| | |s| |] eqn:Hd;
    try (leaf (@None Trigger) 1%nat).
  destruct (datetime_fromisoformat (replace_Z s)) as [d|] eqn:Hf.
  - leaf (Some (DateTrigger d)) 0%nat.
  - leaf (@None Trigger) 1%nat.
Qed.

(** ** Effects of a computation *)

Section Respects.
Context (R : relation World) `{!PreOrder R}.

Lemma respects_ret {A} (a : A) : respects R (ret a).
Proof. intros w. reflexivity. Qed.

Lemma respects_raise {A} e : respects R (@raise _ A e).
Proof. intros w. reflexivity. Qed.

Lemma respects_lift {A} (r : result A) : respects R (lift r).
Proof. intros w. reflexivity. Qed.

Lemma respects_reads {A} (f : World -> A) : respects R (reads f).
Proof. intros w. reflexivity. Qed.

Lemma respects_modify f : (forall w, R w (f w)) -> respects R (modify f).
Proof. intros H w. apply H. Qed.

Lemma respects_bind {A B} (m : M A) (k : A -> M B) :
  respects R m -> (forall a, respects R (k a)) -> respects R (bind m k).
Proof.
  intros Hm Hk w. unfold bind. specialize (Hm w).
  destruct (m w) as [[a|e] w1]; cbn in *; [|assumption].
  etransitivity; [eassumption|apply Hk].
Qed.

Lemma respects_try_except {A} (m : M A) (h : exn -> M A) :
  respects R m -> (forall e, respects R (h e)) -> respects R (try_except m h).
Proof.
  intros Hm Hh w. unfold try_except. specialize (Hm w).
  destruct (m w) as [[a|e] w1]; cbn in *; [assumption|].
  etransitivity; [eassumption|apply Hh].
Qed.

Lemma respects_for_each {A} (xs : list A) (body : A -> M unit) :
  (forall x, respects R (body x)) -> respects R (for_each xs body).
Proof.
  intros Hb. induction xs as [|x xs IH]; cbn [for_each].
  - apply respects_ret.
  - apply respects_bind; [apply Hb|intros _; apply IH].
Qed.

End Respects.

Lemma total_ret {A} (a : A) : total (ret a).
Proof. intros w. reflexivity. Qed.

Lemma total_modify f : total (modify f).
Proof. intros w. reflexivity. Qed.

Lemma total_reads {A} (f : World -> A) : total (reads f).
Proof. intros w. reflexivity. Qed.

Lemma total_log lvl msg : total (log lvl msg).
Proof. intros w. reflexivity. Qed.

Lemma total_bind {A B} (m : M A) (k : A -> M B) :
  total m -> (forall a, total (k a)) -> total (bind m k).
Proof.
  intros Hm Hk w. unfold bind. specialize (Hm w).
  destruct (m w) as [[a|e] w1]; cbn in *; [apply Hk|discriminate].
Qed.

Lemma total_try_except {A} (m : M A) (h : exn -> M A) :
  (forall e, total (h e)) -> total (try_except m h).
Proof.
  intros Hh w. unfold try_except.
  destruct (m w) as [[a|e] w1]; cbn; [reflexivity|apply Hh].
Qed.

Lemma total_for_each {A} (xs : list A) (body : A -> M unit) :
  (forall x, total (body x)) -> total (for_each xs body).
Proof.
  intros Hb. induction xs as [|x xs IH]; cbn [for_each].
  - apply total_ret.
  - apply total_bind; [apply Hb|intros _; apply IH].
Qed.

(** What [total] gives: the value and the world. *)
Lemma total_run {A} (m : M A) w :
  total m -> exists a, m w = (Ok a, snd (m w)).
Proof.
  intros H. specialize (H w). destruct (m w) as [[a|e] w1]; cbn in *.
  - eauto.
  - discriminate.
Qed.

(** ** Totality of the guarded coroutines *)

Lemma total_create_trigger action : total (_create_trigger action).
Proof.
  intros w. destruct (create_trigger_run action w) as (t & evs & _ & H).
  rewrite (H w eq_refl). reflexivity.
Qed.

Lemma total_schedule_action action : total (_schedule_action action).
Proof. apply total_try_except. intros e. apply total_log. Qed.

Lemma total_remove_all_jobs : total remove_all_jobs.
Proof. apply total_modify. Qed.

Lemma total_reload_jobs : total reload_jobs.
Proof.
  unfold reload_jobs.
  apply total_bind; [apply total_log|intros _].
  apply total_bind; [apply total_remove_all_jobs|intros _].
  apply total_bind; [apply total_modify|intros _].
  apply total_try_except. intros e. apply total_log.
Qed.

Lemma total_send_completion_notification action result :
  total (_send_completion_notification action result).
Proof. apply total_try_except. intros e. apply total_log. Qed.

Lemma total_execute_action action : total (execute_action action).
Proof.
  unfold execute_action.
  apply total_bind; [apply total_log|intros _].
  apply total_try_except. intros e.
  apply total_bind; [apply total_log|intros _]. apply total_ret.
Qed.

Lemma total_execute_action_wrapper id : total (_execute_action_wrapper id).
Proof. apply total_try_except. intros e. apply total_log. Qed.

Lemma total_get_scheduled_action_by_id id : total (get_scheduled_action_by_id id).
Proof. apply total_try_except. intros e. apply total_ret. Qed.

(** ** Frames *)

#[local] Instance same_preorder {A} (f : World -> A) : PreOrder (same f).
Proof.
  split.
  - intros w. reflexivity.
  - intros w1 w2 w3 H12 H23. unfold same in *. congruence.
Qed.

#[local] Instance keeps_preorder I : PreOrder (keeps I).
Proof.
  split.
  - intros w H. exact H.
  - intros w1 w2 w3 H12 H23 H. apply H23, H12, H.
Qed.

Lemma same_scheduler_keeps {A} I (m : M A) :
  respects (same scheduler) m -> respects (keeps I) m.
Proof. intros H w Hi. rewrite (H w). exact Hi. Qed.

(** Structural steps of a frame proof. *)
Create HintDb frames discriminated.

#[local] Hint Extern 1 (_ = _) => reflexivity : frames.
#[local] Hint Extern 1 (keeps _ _ _) => (let H := fresh in intros H; exact H) : frames.

Ltac preorder := try match goal with |- PreOrder _ => apply _ end.

Ltac respects_step :=
  first
    [ solve [eauto 3 with frames nocore]
    | apply respects_ret; preorder | apply respects_raise; preorder
    | apply respects_lift; preorder | apply respects_reads; preorder
    | apply respects_bind; preorder; [|intros ?]
    | apply respects_try_except; preorder; [|intros ?]
    | apply respects_for_each; preorder; intros ?
    | match goal with
      | |- respects _ (match ?x with _ => _ end) => destruct x
      | |- respects _ (let _ := _ in _) => cbv zeta
      end ].

Section SameFrames.
Context {B : Type} (f : World -> B).
Context (f_emit : forall e w, f (emit e w) = f w).
Context (f_fault : forall w, f (next_db_fault w) = f w).
Context (f_outcome : forall w, f (next_executor_outcome w) = f w).

Lemma same_log lvl msg : respects (same f) (log lvl msg).
Proof. intros w. apply f_emit. Qed.

Lemma same_emit e : respects (same f) (modify (emit e)).
Proof. intros w. apply f_emit. Qed.

Lemma same_get_db : respects (same f) get_db.
Proof. intros w. unfold get_db. destruct (db_faults w 0%nat); apply f_fault. Qed.

Lemma same_external_execute : respects (same f) external_execute.
Proof. intros w. apply f_outcome. Qed.

#[local] Hint Resolve same_log same_emit same_get_db same_external_execute : frames.

Lemma same_execute c user config : respects (same f) (execute c user config).
Proof. unfold execute, NotificationExecutor_execute. repeat respects_step. Qed.

Lemma same_create_trigger action : respects (same f) (_create_trigger action).
Proof.
  intros w. destruct (create_trigger_run action w) as (t & evs & _ & H).
  rewrite (H w eq_refl). unfold same. cbn [snd]. clear H.
  revert w. induction evs as [|e evs IH]; intros w; [reflexivity|].
  change (emits (e :: evs) w) with (emits evs (emit e w)).
  rewrite IH. apply f_emit.
Qed.

#[local] Hint Resolve same_execute same_create_trigger : frames.

Lemma same_get_enabled_scheduled_actions : respects (same f) get_enabled_scheduled_actions.
Proof. unfold get_enabled_scheduled_actions. repeat respects_step. Qed.

Lemma same_get_scheduled_action_by_id id : respects (same f) (get_scheduled_action_by_id id).
Proof. unfold get_scheduled_action_by_id. repeat respects_step. Qed.

Lemma same_send_completion_notification action result :
  respects (same f) (_send_completion_notification action result).
Proof. unfold _send_completion_notification. repeat respects_step. Qed.

Context (f_table : forall t w, f (set_table t w) = f w).

Lemma same_set_table (g : World -> list ScheduledAction) :
  respects (same f) (modify (fun w => set_table (g w) w)).
Proof. intros w. apply f_table. Qed.

#[local] Hint Resolve same_send_completion_notification same_set_table : frames.

Lemma same_update_scheduled_action_by_id id form :
  respects (same f) (update_scheduled_action_by_id id form).
Proof. unfold update_scheduled_action_by_id. repeat respects_step. Qed.

Lemma same_update_scheduled_action_run_times id last_run next_run :
  respects (same f) (update_scheduled_action_run_times id last_run next_run).
Proof. unfold update_scheduled_action_run_times. repeat respects_step. Qed.

#[local] Hint Resolve same_update_scheduled_action_by_id : frames.

Lemma same_execute_action action : respects (same f) (execute_action action).
Proof. unfold execute_action, _execute_action_body. repeat respects_step. Qed.

End SameFrames.

#[local] Hint Resolve same_log same_get_db same_execute same_create_trigger
  same_get_enabled_scheduled_actions same_get_scheduled_action_by_id
  same_send_completion_notification same_update_scheduled_action_by_id
  same_update_scheduled_action_run_times same_execute_action
  same_scheduler_keeps respects_modify : frames.

(** ** One timer per action *)

Lemma has_job_id_true jid j : has_job_id jid j = true <-> job_id j = jid.
Proof. apply String.eqb_eq. Qed.

Lemma existsb_has_job_id jid js :
  existsb (has_job_id jid) js = true <-> jid ∈ map job_id js.
Proof.
  induction js as [|j js IH]; cbn.
  - split; [discriminate|]. intros H. inversion H.
  - rewrite orb_true_iff, IH, has_job_id_true, elem_of_cons. intuition congruence.
Qed.

Lemma map_job_id_update_first jid (f : Job -> Job) js :
  (forall j, job_id (f j) = job_id j) ->
  map job_id (update_first (has_job_id jid) f js) = map job_id js.
Proof.
  intros Hf. induction js as [|j js IH]; cbn; [reflexivity|].
  destruct (has_job_id jid j); cbn; [rewrite Hf|rewrite IH]; reflexivity.
Qed.

Lemma map_job_id_replace jid j' js :
  job_id j' = jid ->
  map job_id (update_first (has_job_id jid) (fun _ => j') js) = map job_id js.
Proof.
  intros Hj. induction js as [|j js IH]; cbn; [reflexivity|].
  destruct (has_job_id jid j) eqn:E; cbn.
  - apply has_job_id_true in E. congruence.
  - rewrite IH. reflexivity.
Qed.

Lemma remove_first_sublist jid js :
  sublist (map job_id (remove_first jid js)) (map job_id js).
Proof.
  induction js as [|j js IH]; cbn; [constructor|].
  destruct (has_job_id jid j); cbn.
  - apply sublist_cons. reflexivity.
  - apply sublist_skip. exact IH.
Qed.

Lemma NoDup_remove_first jid js :
  NoDup (map job_id js) -> NoDup (map job_id (remove_first jid js)).
Proof. intros H. eapply sublist_NoDup; [exact H|apply remove_first_sublist]. Qed.

Lemma NoDup_snoc_job j js :
  existsb (has_job_id (job_id j)) js = false ->
  NoDup (map job_id js) -> NoDup (map job_id (js ++ [j])).
Proof.
  intros Hx Hn. rewrite map_app. apply NoDup_app. split; [exact Hn|].
  split; [|apply NoDup_singleton].
  intros x Hin Hin'. cbn in Hin'. apply list_elem_of_singleton in Hin'. subst x.
  apply existsb_has_job_id in Hin. congruence.
Qed.

Lemma keeps_real_add_job job b :
  respects (keeps unique_timers) (_real_add_job job b).
Proof.
  intros w Hu. unfold _real_add_job. monad_unfold. unfold unique_timers in *.
  destruct (existsb (has_job_id (job_id job)) (_jobs (scheduler w))) eqn:Hx.
  - destruct b; cbn; [|exact Hu].
    rewrite map_job_id_replace; [exact Hu|reflexivity].
  - cbn. apply (NoDup_snoc_job (set_next_run_time _ job)); assumption.
Qed.

#[local] Hint Resolve keeps_real_add_job : frames.

Lemma keeps_add_job t arg jid jname b grace :
  respects (keeps unique_timers) (add_job t arg jid jname b grace).
Proof.
  intros w Hu. unfold add_job. cbv beta zeta. unfold bind at 1, reads at 1.
  destruct (running (scheduler w)).
  - apply keeps_real_add_job, Hu.
  - exact Hu.
Qed.

Lemma keeps_remove_all_jobs : respects (keeps unique_timers) remove_all_jobs.
Proof.
  intros w Hu. unfold remove_all_jobs. monad_unfold. cbn. unfold unique_timers in *.
  destruct (running (scheduler w)); cbn; [constructor|exact Hu].
Qed.

Lemma keeps_remove_job jid : respects (keeps unique_timers) (remove_job jid).
Proof.
  intros w Hu. unfold remove_job. monad_unfold. unfold unique_timers in *.
  destruct (running (scheduler w)).
  - destruct (existsb _ _); cbn; [apply NoDup_remove_first|]; exact Hu.
  - destruct (existsb _ _); cbn; exact Hu.
Qed.

Lemma keeps_reschedule jid : respects (keeps unique_timers) (reschedule jid).
Proof.
  intros w Hu. unfold reschedule. monad_unfold. unfold unique_timers in *.
  destruct (List.find _ _) as [j|]; [|exact Hu].
  destruct (get_next_fire_time _ _ _); cbn.
  - rewrite map_job_id_update_first; [exact Hu|reflexivity].
  - apply NoDup_remove_first. exact Hu.
Qed.

Lemma keeps_scheduler_start : respects (keeps unique_timers) scheduler_start.
Proof. unfold scheduler_start. repeat respects_step. Qed.

Lemma keeps_scheduler_shutdown : respects (keeps unique_timers) scheduler_shutdown.
Proof.
  unfold scheduler_shutdown. repeat respects_step.
  apply respects_modify. intros w' _. cbn. constructor.
Qed.

#[local] Hint Resolve keeps_add_job keeps_remove_all_jobs keeps_remove_job
  keeps_reschedule keeps_scheduler_start keeps_scheduler_shutdown : frames.

Lemma keeps_schedule_action action :
  respects (keeps unique_timers) (_schedule_action action).
Proof. unfold _schedule_action. repeat respects_step. Qed.

#[local] Hint Resolve keeps_schedule_action : frames.

Lemma keeps_reload_jobs : respects (keeps unique_timers) reload_jobs.
Proof. unfold reload_jobs. repeat respects_step. Qed.

Lemma keeps_execute_action_wrapper id :
  respects (keeps unique_timers) (_execute_action_wrapper id).
Proof.
  unfold _execute_action_wrapper, _execute_action_wrapper_body.
  repeat respects_step.
Qed.

#[local] Hint Resolve keeps_reload_jobs keeps_execute_action_wrapper : frames.

Lemma keeps_start : respects (keeps unique_timers) start.
Proof. unfold start. repeat respects_step. Qed.

Lemma keeps_stop : respects (keeps unique_timers) stop.
Proof. unfold stop. repeat respects_step. Qed.

Lemma keeps_run_op o w :
  unique_timers (scheduler w) -> unique_timers (scheduler (run_op o w)).
Proof.
  destruct o; cbn [run_op]; intros Hu.
  - apply keeps_start, Hu.
  - apply keeps_stop, Hu.
  - apply keeps_reload_jobs, Hu.
  - apply keeps_execute_action_wrapper, keeps_reschedule, Hu.
  - apply keeps_execute_action_wrapper, Hu.
  - apply keeps_reschedule, Hu.
  - apply keeps_schedule_action, Hu.
  - apply (same_scheduler_keeps unique_timers (execute_action action)); [|exact Hu].
    apply same_execute_action; reflexivity.
  - apply keeps_add_job, Hu.
  - apply keeps_remove_job, Hu.
  - apply keeps_remove_all_jobs, Hu.
  - exact Hu.
  - exact Hu.
Qed.

Lemma keeps_run ops w :
  unique_timers (scheduler w) -> unique_timers (scheduler (run ops w)).
Proof.
  revert w. induction ops as [|o ops IH]; intros w Hu; cbn; [exact Hu|].
  apply IH, keeps_run_op, Hu.
Qed.

Lemma job_id_of_inj id1 id2 : job_id_of id1 = job_id_of id2 -> id1 = id2.
Proof. unfold job_id_of. cbn. intros H. repeat injection H as H. exact H. Qed.

(** In a list without duplicates at most one element is equal to [x]. *)
Lemma NoDup_filter_le_1 (js : list Job) jid :
  NoDup (map job_id js) -> (length (List.filter (has_job_id jid) js) <= 1)%nat.
Proof.
  induction js as [|j js IH]; cbn; [lia|].
  intros Hn. apply NoDup_cons in Hn as [Hnot Hn]. specialize (IH Hn).
  destruct (has_job_id jid j) eqn:E; [|exact IH].
  apply has_job_id_true in E. subst jid. cbn.
  assert (List.filter (has_job_id (job_id j)) js = []) as ->; [|cbn; lia].
  clear IH Hn. induction js as [|k js IH]; cbn; [reflexivity|].
  destruct (has_job_id (job_id j) k) eqn:E.
  - apply has_job_id_true in E. exfalso. apply Hnot. cbn. rewrite E. apply elem_of_cons. auto.
  - apply IH. intros Hin. apply Hnot. cbn. apply elem_of_cons. auto.
Qed.

Lemma filter_has_job_id_none jid js :
  existsb (has_job_id jid) js = false -> List.filter (has_job_id jid) js = [].
Proof.
  induction js as [|j js IH]; cbn; [reflexivity|].
  destruct (has_job_id jid j); cbn; [discriminate|exact IH].
Qed.

Lemma filter_has_job_id_replace jid j' js :
  NoDup (map job_id js) -> existsb (has_job_id jid) js = true -> job_id j' = jid ->
  List.filter (has_job_id jid) (update_first (has_job_id jid) (fun _ => j') js) = [j'].
Proof.
  intros Hn Hx Hj. induction js as [|j js IH]; cbn in *; [discriminate|].
  apply NoDup_cons in Hn as [Hnot Hn].
  destruct (has_job_id jid j) eqn:E; cbn.
  - assert (has_job_id jid j' = true) as -> by (apply has_job_id_true; exact Hj).
    f_equal. apply filter_has_job_id_none.
    destruct (existsb (has_job_id jid) js) eqn:E'; [|reflexivity].
    apply existsb_has_job_id in E'. apply has_job_id_true in E. subst jid.
    contradiction.
  - rewrite E. apply IH; assumption.
Qed.


(** ** A fire whose action is gone or disabled *)

(** The re-fetch only opens a session: it returns, and never raises. *)
Lemma get_scheduled_action_by_id_run id w :
  exists o, get_scheduled_action_by_id id w = (Ok o, next_db_fault w).
Proof.
  unfold get_scheduled_action_by_id, get_db. monad_unfold.
  destruct (db_faults w 0%nat); [eauto|].
  destruct (first_by_id id (table (next_db_fault w))) as [r|]; [|eauto].
  destruct (model_validate r); eauto.
Qed.

Lemma filter_remove_first jid js :
  NoDup (map job_id js) -> List.filter (has_job_id jid) (remove_first jid js) = [].
Proof.
  induction js as [|j js IH]; cbn; [reflexivity|].
  intros Hn. apply NoDup_cons in Hn as [Hnot Hn].
  destruct (has_job_id jid j) eqn:E; cbn.
  - apply filter_has_job_id_none.
    destruct (existsb (has_job_id jid) js) eqn:E'; [|reflexivity].
    apply existsb_has_job_id in E'. apply has_job_id_true in E. subst jid.
    contradiction.
  - rewrite E. apply IH, Hn.
Qed.


(** ** Scheduling one action *)

Lemma create_trigger_clock action w1 w2 :
  clock w1 = clock w2 ->
  fst (_create_trigger action w1) = fst (_create_trigger action w2).
Proof.
  intros Hc. destruct (create_trigger_run action w1) as (t & evs & _ & H).
  rewrite (H w1 eq_refl), (H w2 (eq_sym Hc)). reflexivity.
Qed.

Lemma elem_of_update_first_replace (p : Job -> bool) j' js j :
  j ∈ update_first p (fun _ => j') js -> j ∈ js \/ j = j'.
Proof.
  induction js as [|k js IH]; cbn; [intros H; inversion H|].
  destruct (p k); rewrite !elem_of_cons.
  - intros [->|H]; auto.
  - intros [->|H]; auto. destruct (IH H); auto.
Qed.

Lemma elem_of_update_first_other (p : Job -> bool) f js j :
  j ∈ js -> p j = false -> j ∈ update_first p f js.
Proof.
  induction js as [|k js IH]; cbn; [intros H; inversion H|].
  rewrite elem_of_cons. intros [->|H] Hp.
  - rewrite Hp. apply elem_of_cons. auto.
  - destruct (p k); apply elem_of_cons; auto.
Qed.

Lemma elem_of_update_first_new (p : Job -> bool) j' js :
  existsb p js = true -> j' ∈ update_first p (fun _ => j') js.
Proof.
  induction js as [|k js IH]; cbn; [discriminate|].
  destruct (p k); cbn; intros H; apply elem_of_cons; auto.
Qed.

(** [add_job] with [replace_existing=True] returns the job and arms it. *)
Lemma add_job_run t id jname w :
  exists w',
    add_job t id (job_id_of id) jname true 60 w
    = (Ok (new_job t id jname
             (if running (scheduler w) then get_next_fire_time t None (clock w) else None)),
       w') /\
    table w' = table w /\ trace w' = trace w /\ clock w' = clock w /\
    db_faults w' = db_faults w /\ job_map w' = job_map w /\
    running (scheduler w') = running (scheduler w) /\
    new_job t id jname
      (if running (scheduler w) then get_next_fire_time t None (clock w) else None)
      ∈ armed (scheduler w') /\
    (forall j, j ∈ armed (scheduler w') ->
       j ∈ armed (scheduler w) \/
       j = new_job t id jname
             (if running (scheduler w) then get_next_fire_time t None (clock w) else None)) /\
    (forall j, j ∈ armed (scheduler w) -> job_id j <> job_id_of id ->
       j ∈ armed (scheduler w')).
Proof.
  unfold add_job, armed. cbv beta zeta. unfold bind at 1, reads at 1.
  destruct (running (scheduler w)) eqn:Hrun.
  - unfold _real_add_job. monad_unfold. cbn [job_id trigger].
    destruct (existsb (has_job_id (job_id_of id)) (_jobs (scheduler w))) eqn:Hx.
    + eexists. split; [reflexivity|]. cbn. rewrite Hrun.
      repeat split; try reflexivity.
      * apply elem_of_update_first_new, Hx.
      * intros j Hj. apply elem_of_update_first_replace in Hj. exact Hj.
      * intros j Hj Hne. apply elem_of_update_first_other; [exact Hj|].
        destruct (has_job_id (job_id_of id) j) eqn:E; [|reflexivity].
        apply has_job_id_true in E. contradiction.
    + eexists. split; [reflexivity|]. cbn. rewrite Hrun.
      repeat split; try reflexivity.
      * apply elem_of_app. right. apply list_elem_of_singleton. reflexivity.
      * intros j Hj. apply elem_of_app in Hj as [Hj|Hj]; [auto|].
        apply list_elem_of_singleton in Hj. auto.
      * intros j Hj _. apply elem_of_app. auto.
  - monad_unfold. eexists. split; [reflexivity|]. cbn. rewrite Hrun.
    repeat split; try reflexivity.
    + apply elem_of_app. right. apply list_elem_of_singleton. reflexivity.
    + intros j Hj. apply elem_of_app in Hj as [Hj|Hj]; [auto|].
      apply list_elem_of_singleton in Hj. auto.
    + intros j Hj _. apply elem_of_app. auto.
Qed.

Lemma emits_app evs w :
  table (emits evs w) = table w /\ scheduler (emits evs w) = scheduler w /\
  clock (emits evs w) = clock w /\ db_faults (emits evs w) = db_faults w /\
  job_map (emits evs w) = job_map w /\
  executor_outcomes (emits evs w) = executor_outcomes w /\
  trace (emits evs w) = trace w ++ evs.
Proof.
  revert w. induction evs as [|e evs IH]; intros w.
  - cbn. rewrite app_nil_r. repeat split.
  - change (emits (e :: evs) w) with (emits evs (emit e w)).
    destruct (IH (emit e w)) as (H1 & H2 & H3 & H4 & H5 & H6 & H7).
    rewrite H1, H2, H3, H4, H5, H6, H7. cbn. rewrite <- app_assoc. repeat split.
Qed.

Lemma update_first_no_match {A} (p : A -> bool) f (l : list A) :
  List.find p l = None -> update_first p f l = l.
Proof.
  induction l as [|x l IH]; cbn; [reflexivity|].
  destruct (p x); [discriminate|]. intros H. rewrite IH by exact H. reflexivity.
Qed.

(** The run-time update, case by case. *)
Lemma update_scheduled_action_run_times_run id last_run next_run w :
  update_scheduled_action_run_times id last_run next_run w
  = if db_faults w 0%nat
    then (Raise (Exn OperationalError "database is unavailable"), next_db_fault w)
    else match first_by_id id (table w) with
         | None => (Ok false, next_db_fault w)
         | Some _ =>
             (Ok true,
              emit (EvCommit (CommitRunTimes id last_run next_run))
                (set_table (update_first (has_id id)
                              (apply_run_times last_run next_run (clock w)) (table w))
                   (next_db_fault w)))
         end.
Proof.
  unfold update_scheduled_action_run_times, get_db, first_by_id. monad_unfold.
  destruct (db_faults w 0%nat); [reflexivity|]. cbn.
  destruct (List.find (has_id id) (table w)); reflexivity.
Qed.

(** What scheduling one action does: it returns, and either the calculator
    gave no trigger and a warning is all that happened, or the job is armed
    under the id of the action, other jobs stay, and the advisory write of
    the next fire time reaches the table unless the session failed. *)
Lemma schedule_action_spec action w :
  fst (_schedule_action action w) = Ok tt /\
  clock (snd (_schedule_action action w)) = clock w /\
  running (scheduler (snd (_schedule_action action w))) = running (scheduler w) /\
  (exists evs, trace (snd (_schedule_action action w)) = trace w ++ evs) /\
  match fst (_create_trigger action w) with
  | Raise _ => False
  | Ok None =>
      scheduler (snd (_schedule_action action w)) = scheduler w /\
      table (snd (_schedule_action action w)) = table w /\
      EvLog WARNING ("Could not create trigger for action " +:+ action_id action)
        ∈ trace (snd (_schedule_action action w))
  | Ok (Some t) =>
      let j := new_job t (action_id action) (name action)
                 (if running (scheduler w)
                  then get_next_fire_time t None (clock w) else None) in
      j ∈ armed (scheduler (snd (_schedule_action action w))) /\
      (forall k, k ∈ armed (scheduler (snd (_schedule_action action w))) ->
                 k ∈ armed (scheduler w) \/ k = j) /\
      (forall k, k ∈ armed (scheduler w) -> job_id k <> job_id_of (action_id action) ->
                 k ∈ armed (scheduler (snd (_schedule_action action w)))) /\
      table (snd (_schedule_action action w))
      = match next_run_time j with
        | Some nt =>
            if db_faults w 0%nat then table w
            else update_first (has_id (action_id action))
                   (apply_run_times (int_or_0 (last_run_at action)) (Some nt) (clock w))
                   (table w)
        | None => table w
        end
  end.
Proof.
  destruct (create_trigger_run action w) as (tr & evs & Hlogs & Hct).
  specialize (Hct w eq_refl).
  destruct (emits_app evs w) as (Et & Es & Ec & Ef & Em & Eo & Etr).
  remember (_schedule_action action w) as W eqn:HW.
  unfold _schedule_action in HW. unfold try_except, bind at 1 in HW.
  rewrite Hct in HW. rewrite Hct. cbn [fst].
  destruct tr as [t|].
  - destruct (add_job_run t (action_id action) (name action) (emits evs w))
      as (w2 & Hadd & At & Atr & Ac & Af & Am & Ar & Ain & Aold & Akeep).
    rewrite Es, Ec in *.
    unfold bind at 1 in HW. rewrite Hadd in HW.
    unfold bind at 1, modify at 1 in HW.
    set (j := new_job t (action_id action) (name action)
                (if running (scheduler w) then get_next_fire_time t None (clock w) else None)) in *.
    destruct (next_run_time j) as [nt|] eqn:Hnt.
    + unfold bind at 1 in HW.
      rewrite update_scheduled_action_run_times_run in HW.
      cbn [set_job_map db_faults table clock] in HW.
      rewrite Af, Ef, At, Et, Ac in HW.
      destruct (db_faults w 0%nat) eqn:Hf.
      * cbn in HW. subst W. cbn. rewrite Ac, Ar, Atr, Etr, At, Et.
        repeat split; try assumption.
        eexists. rewrite <- app_assoc. reflexivity.
      * destruct (first_by_id (action_id action) (table w)) eqn:Hrow;
          cbn in HW; subst W; cbn; rewrite ?Ac, ?Ar, ?Atr, ?Etr, ?At, ?Et;
          repeat split; try assumption.
        -- eexists. rewrite <- !app_assoc. reflexivity.
        -- eexists. rewrite <- !app_assoc. reflexivity.
        -- symmetry. apply update_first_no_match. exact Hrow.
    + cbn in HW. subst W. cbn. rewrite Ac, Ar, Atr, Etr, At, Et.
      repeat split; try assumption.
      eexists. rewrite <- app_assoc. reflexivity.
  - cbn in HW. subst W. cbn. rewrite Ec, Es, Et, Etr.
    repeat split.
    + eexists. rewrite <- app_assoc. reflexivity.
    + apply elem_of_app. right. apply list_elem_of_singleton. reflexivity.
Qed.

(** ** Reconciliation *)

(** The loop of [reload_jobs] over the enabled actions. *)
Lemma for_each_schedule_spec actions w :
  fst (for_each actions _schedule_action w) = Ok tt /\
  clock (snd (for_each actions _schedule_action w)) = clock w /\
  running (scheduler (snd (for_each actions _schedule_action w))) = running (scheduler w) /\
  (exists evs, trace (snd (for_each actions _schedule_action w)) = trace w ++ evs) /\
  (forall a, a ∈ actions -> fst (_create_trigger a w) = Ok None ->
     EvLog WARNING ("Could not create trigger for action " +:+ action_id a)
       ∈ trace (snd (for_each actions _schedule_action w))) /\
  (forall k, k ∈ armed (scheduler (snd (for_each actions _schedule_action w))) ->
     k ∈ armed (scheduler w) \/
     exists b t, b ∈ actions /\ fst (_create_trigger b w) = Ok (Some t) /\
       k = new_job t (action_id b) (name b)
             (if running (scheduler w) then get_next_fire_time t None (clock w) else None)) /\
  (forall k, k ∈ armed (scheduler w) ->
     (forall b, b ∈ actions -> job_id k <> job_id_of (action_id b)) ->
     k ∈ armed (scheduler (snd (for_each actions _schedule_action w)))) /\
  (NoDup (map action_id actions) ->
   forall b t, b ∈ actions -> fst (_create_trigger b w) = Ok (Some t) ->
     new_job t (action_id b) (name b)
       (if running (scheduler w) then get_next_fire_time t None (clock w) else None)
     ∈ armed (scheduler (snd (for_each actions _schedule_action w)))).
Proof.
  revert w. induction actions as [|a rest IH]; intros w.
  { cbn. repeat split.
    - exists []. rewrite app_nil_r. reflexivity.
    - intros a Ha. inversion Ha.
    - intros k Hk. left. exact Hk.
    - intros k Hk _. exact Hk.
    - intros _ b t Hb. inversion Hb. }
  destruct (schedule_action_spec a w) as (Sok & Sc & Sr & [evs1 Str] & Scase).
  remember (_schedule_action a w) as W1 eqn:HW1. destruct W1 as [r1 w1].
  cbn [fst snd] in *. subst r1.
  assert (for_each (a :: rest) _schedule_action w = for_each rest _schedule_action w1) as ->.
  { cbn [for_each]. unfold bind. rewrite <- HW1. reflexivity. }
  destruct (IH w1) as (Iok & Ic & Ir & [evs2 Itr] & Iwarn & Isub & Ikeep & Inew).
  assert (Htr : forall b, fst (_create_trigger b w1) = fst (_create_trigger b w)).
  { intros b. apply create_trigger_clock. exact Sc. }
  split; [exact Iok|]. split; [congruence|]. split; [congruence|].
  split; [exists (evs1 ++ evs2); rewrite Itr, Str, app_assoc; reflexivity|].
  split; [|split; [|split]].
  - intros a' Ha' Hnone. apply elem_of_cons in Ha' as [->|Ha'].
    + rewrite Hnone in Scase. destruct Scase as (_ & _ & Hin).
      rewrite Itr. apply elem_of_app. left. exact Hin.
    + apply Iwarn; [exact Ha'|]. rewrite Htr. exact Hnone.
  - intros k Hk. destruct (Isub k Hk) as [Hk1|(b & t & Hb & Ht & ->)].
    + destruct (fst (_create_trigger a w)) as [[t|]|e] eqn:Ea; [| |contradiction].
      * destruct Scase as (_ & Hold & _). destruct (Hold k Hk1) as [Hk0| ->].
        -- left. exact Hk0.
        -- right. exists a, t. split; [apply elem_of_cons; auto|]. split; [exact Ea|reflexivity].
      * destruct Scase as (Hs & _). left. rewrite <- Hs. exact Hk1.
    + right. exists b, t. split; [apply elem_of_cons; auto|].
      split; [rewrite <- Htr; exact Ht|]. rewrite Sr, Sc. reflexivity.
  - intros k Hk Hne. apply Ikeep.
    + destruct (fst (_create_trigger a w)) as [[t|]|e] eqn:Ea; [| |contradiction].
      * destruct Scase as (_ & _ & Hkeep & _). apply Hkeep; [exact Hk|].
        apply Hne. apply elem_of_cons. auto.
      * destruct Scase as (Hs & _). rewrite Hs. exact Hk.
    + intros b Hb. apply Hne. apply elem_of_cons. auto.
  - intros Hnd b t Hb Ht. cbn in Hnd. apply NoDup_cons in Hnd as [Hnot Hnd].
    apply elem_of_cons in Hb as [->|Hb].
    + rewrite Ht in Scase. destruct Scase as (Hin & _).
      apply Ikeep; [exact Hin|].
      intros c Hc Heq. cbn in Heq. apply job_id_of_inj in Heq.
      apply Hnot. rewrite Heq. apply list_elem_of_fmap. exists c. auto.
    + rewrite <- Sr, <- Sc. apply Inew; [exact Hnd|exact Hb|].
      rewrite Htr. exact Ht.
Qed.

Lemma create_trigger_bad_cron action w :
  schedule_type action = "cron" -> bad_cron action ->
  exists msg, _create_trigger action w = (Ok None, emit (EvLog ERROR msg) w).
Proof.
  intros Hty Hbad. unfold bad_cron, cron_expression in Hbad.
  unfold _create_trigger. rewrite Hty. cbn [String.eqb Ascii.eqb Bool.eqb].
  monad_unfold.
  destruct (croniter_is_valid (dict_get_default (schedule_config action)
              "expression" (JStr "0 9 * * *"))) as [[|]|e] eqn:Hv;
    cbn [negb]; [|eexists; reflexivity..].
  destruct Hbad as [Hbad|Hbad]; [congruence|].
  unfold str_split.
  destruct (dict_get_default (schedule_config action) "expression" (JStr "0 9 * * *"))
    as [| | |s| |] eqn:He; try (eexists; reflexivity).
  specialize (Hbad s eq_refl).
  destruct (py_split s) as [|p1 [|p2 [|p3 [|p4 [|p5 [|p6 ps]]]]]];
    try (eexists; reflexivity).
  cbn in Hbad. congruence.
Qed.

(** The listing of the enabled actions reads the table and the next choice
    of the environment only. *)
Lemma get_enabled_scheduled_actions_run w :
  get_enabled_scheduled_actions w
  = (if db_faults w 0%nat
     then Raise (Exn OperationalError "database is unavailable")
     else map_result model_validate (List.filter row_enabled (table w)),
     next_db_fault w).
Proof.
  unfold get_enabled_scheduled_actions, get_db. monad_unfold.
  destruct (db_faults w 0%nat); reflexivity.
Qed.

Lemma NoDup_map_eq {A B} (f : A -> B) (l : list A) x y :
  NoDup (map f l) -> x ∈ l -> y ∈ l -> f x = f y -> x = y.
Proof.
  induction l as [|z l IH]; cbn; intros Hn Hx Hy Hf; [inversion Hx|].
  apply NoDup_cons in Hn as [Hnot Hn].
  apply elem_of_cons in Hx as [->|Hx]; apply elem_of_cons in Hy as [->|Hy].
  - reflexivity.
  - exfalso. apply Hnot. rewrite Hf. apply list_elem_of_fmap. eauto.
  - exfalso. apply Hnot. rewrite <- Hf. apply list_elem_of_fmap. eauto.
  - apply IH; assumption.
Qed.

(** C6. A cron schedule whose expression croniter rejects, or which does not
    have exactly five fields, gets no trigger from the calculator, which
    logs the error and does not raise. A reload that meets such an action
    among the enabled ones completes, logs that it skipped the action, arms
    no timer for it, and arms the timer of every other action for which the
    calculator gives a trigger. *)
Theorem reload_skips_bad_cron :
  (forall action w,
     schedule_type action = "cron" -> bad_cron action ->
     exists msg, _create_trigger action w = (Ok None, emit (EvLog ERROR msg) w)) /\
  (forall w actions a,
     fst (get_enabled_scheduled_actions w) = Ok actions ->
     NoDup (map action_id actions) ->
     a ∈ actions -> schedule_type a = "cron" -> bad_cron a ->
     fst (reload_jobs w) = Ok tt /\
     EvLog WARNING ("Could not create trigger for action " +:+ action_id a)
       ∈ trace (snd (reload_jobs w)) /\
     (forall j, j ∈ armed (scheduler (snd (reload_jobs w))) ->
                job_id j <> job_id_of (action_id a)) /\
     (forall b t, b ∈ actions -> fst (_create_trigger b w) = Ok (Some t) ->
        exists j, j ∈ armed (scheduler (snd (reload_jobs w))) /\
                  job_id j = job_id_of (action_id b) /\ job_args j = action_id b /\
                  trigger j = t)).
Proof.
  split; [apply create_trigger_bad_cron|].
  intros w actions a Hlist Hnd Ha Hty Hbad.
  rewrite get_enabled_scheduled_actions_run in Hlist. cbn [fst] in Hlist.
  remember (reload_jobs w) as W eqn:HW.
  unfold reload_jobs in HW. unfold bind at 1 2 3, log at 1, modify at 1 2 in HW.
  unfold remove_all_jobs, modify at 1 in HW.
  unfold try_except, bind at 1 in HW.
  rewrite get_enabled_scheduled_actions_run in HW.
  cbn [db_faults table set_job_map set_scheduler emit] in HW.
  rewrite Hlist in HW. unfold bind at 1, log at 1, modify at 1 in HW.
  match type of HW with
  | W = (let (r, w') := for_each _ _ ?x in _) => set (w3 := x) in *
  end.
  destruct (for_each_schedule_spec actions w3)
    as (Fok & Fc & Fr & [evs Ftr] & Fwarn & Fsub & Fkeep & Fnew).
  destruct (for_each actions _schedule_action w3) as [r w'] eqn:Hfe.
  cbn [fst snd] in *. subst r W. cbn [fst snd].
  assert (Hclock : clock w3 = clock w) by reflexivity.
  assert (Harmed : armed (scheduler w3) = []).
  { subst w3. unfold armed. cbn. destruct (running (scheduler w)) eqn:E; cbn; rewrite E; reflexivity. }
  assert (Hnone : fst (_create_trigger a w3) = Ok None).
  { destruct (create_trigger_bad_cron a w3 Hty Hbad) as [msg ->]. reflexivity. }
  split; [reflexivity|]. split; [apply Fwarn; assumption|]. split.
  - intros j Hj Heq. destruct (Fsub j Hj) as [Hin|(b & t & Hb & Ht & ->)].
    + rewrite Harmed in Hin. inversion Hin.
    + cbn in Heq. apply job_id_of_inj in Heq.
      assert (b = a) as -> by (eapply NoDup_map_eq; eassumption).
      congruence.
  - intros b t Hb Ht. eexists. split; [apply (Fnew Hnd b t Hb)|].
    + rewrite <- Ht. apply create_trigger_clock. exact Hclock.
    + repeat split.
Qed.

(** ** Rows after a write *)

Lemma has_id_true id r : has_id id r = true <-> row_id r = id.
Proof. apply String.eqb_eq. Qed.

(** The row of [id] after a write to it that keeps row ids. *)
Lemma first_by_id_update_first id f t :
  (forall r, row_id (f r) = row_id r) ->
  first_by_id id (update_first (has_id id) f t) = f <$> first_by_id id t.
Proof.
  intros Hf. unfold first_by_id.
  induction t as [|r t IH]; cbn; [reflexivity|].
  destruct (has_id id r) eqn:E; cbn.
  - unfold has_id in *. rewrite Hf, E. reflexivity.
  - rewrite E. exact IH.
Qed.

(** The rows of the other ids after such a write. *)
Lemma first_by_id_update_first_ne id id' f t :
  (forall r, row_id (f r) = row_id r) -> id' <> id ->
  first_by_id id' (update_first (has_id id) f t) = first_by_id id' t.
Proof.
  intros Hf Hne. unfold first_by_id.
  induction t as [|r t IH]; cbn; [reflexivity|].
  destruct (has_id id r) eqn:E; cbn.
  - apply has_id_true in E.
    assert (has_id id' r = false) as Hr.
    { unfold has_id. apply String.eqb_neq. congruence. }
    assert (has_id id' (f r) = false) as ->.
    { unfold has_id in *. rewrite Hf. exact Hr. }
    rewrite Hr. reflexivity.
  - destruct (has_id id' r); [reflexivity|exact IH].
Qed.

Lemma int_or_0_default x : int_or_0 x = default 0 x.
Proof.
  destruct x as [n|]; cbn; [|reflexivity].
  destruct (n =? 0) eqn:E; [|reflexivity]. apply Z.eqb_eq in E. congruence.
Qed.

(** C9, as the code has it. Scheduling an action in a running scheduler,
    with a trigger from the calculator and a first fire time [nt] from the
    timer subsystem, arms the timer whether or not the advisory write is
    served. A write that is served stores [nt] in [next_run_at]; it also
    writes [last_run_at], with the value of the snapshot where it has one and
    with 0 where the snapshot has none, and stamps [updated_at]; every other
    column of the row, and every other row, stays as it was. A write that
    fails leaves the table as it was. *)
Theorem advisory_write_of_next_run action w t nt r :
  fst (_create_trigger action w) = Ok (Some t) ->
  running (scheduler w) = true ->
  get_next_fire_time t None (clock w) = Some nt ->
  first_by_id (action_id action) (table w) = Some r ->
  fst (_schedule_action action w) = Ok tt /\
  new_job t (action_id action) (name action) (Some nt)
    ∈ armed (scheduler (snd (_schedule_action action w))) /\
  (db_faults w 0%nat = true -> table (snd (_schedule_action action w)) = table w) /\
  (db_faults w 0%nat = false ->
   (exists r',
      first_by_id (action_id action) (table (snd (_schedule_action action w))) = Some r' /\
      row_next_run_at r' = Some nt /\
      row_last_run_at r' = Some (default 0 (last_run_at action)) /\
      row_updated_at r' = clock w /\
      row_id r' = row_id r /\ row_user_id r' = row_user_id r /\
      row_name r' = row_name r /\ row_description r' = row_description r /\
      row_action_type r' = row_action_type r /\
      row_action_config r' = row_action_config r /\
      row_schedule_type r' = row_schedule_type r /\
      row_schedule_config r' = row_schedule_config r /\
      row_enabled r' = row_enabled r /\ row_created_at r' = row_created_at r) /\
   (forall id', id' <> action_id action ->
      first_by_id id' (table (snd (_schedule_action action w))) = first_by_id id' (table w))).
Proof.
  intros Ht Hrun Hnt Hrow.
  destruct (schedule_action_spec action w) as (Sok & _ & _ & _ & Scase).
  rewrite Ht, Hrun, Hnt in Scase. cbn [next_run_time new_job] in Scase.
  destruct Scase as (Hin & _ & _ & Htab).
  split; [exact Sok|]. split; [exact Hin|]. split.
  - intros Hf. rewrite Hf in Htab. exact Htab.
  - intros Hf. rewrite Hf in Htab. rewrite Htab. split.
    + rewrite first_by_id_update_first by reflexivity. rewrite Hrow. cbn.
      eexists. split; [reflexivity|]. cbn. rewrite int_or_0_default. repeat split.
    + intros id' Hne. apply first_by_id_update_first_ne; [reflexivity|exact Hne].
Qed.

(** ** The merge-write of the chat id *)

(** An update by id, case by case. *)
Lemma update_scheduled_action_by_id_run id form w :
  update_scheduled_action_by_id id form w
  = if db_faults w 0%nat
    then (Raise (Exn OperationalError "database is unavailable"), next_db_fault w)
    else match first_by_id id (table w) with
         | None => (Ok None, next_db_fault w)
         | Some r =>
             match null_violation form with
             | Some column =>
                 (Raise (Exn IntegrityError
                           ("NOT NULL constraint failed: scheduled_action." +:+ column)),
                  next_db_fault w)
             | None =>
                 (match model_validate (apply_update form (clock w) r) with
                  | Ok m => Ok (Some m)
                  | Raise e => Raise e
                  end,
                  emit (EvCommit (CommitUpdate id form))
                    (set_table
                       (update_first (has_id id) (apply_update form (clock w)) (table w))
                       (next_db_fault w)))
             end
         end.
Proof.
  unfold update_scheduled_action_by_id, get_db, first_by_id. monad_unfold.
  destruct (db_faults w 0%nat); [reflexivity|]. cbn.
  destruct (List.find (has_id id) (table w)) as [r|]; [|reflexivity].
  change (clock (next_db_fault w)) with (clock w).
  destruct (null_violation form); [reflexivity|].
  destruct (model_validate (apply_update form (clock w) r)); reflexivity.
Qed.

(** An update by id with a form that sets no column to null that takes
    none. *)
Lemma update_scheduled_action_by_id_set id form w :
  null_violation form = None ->
  update_scheduled_action_by_id id form w
  = if db_faults w 0%nat
    then (Raise (Exn OperationalError "database is unavailable"), next_db_fault w)
    else match first_by_id id (table w) with
         | None => (Ok None, next_db_fault w)
         | Some r =>
             (match model_validate (apply_update form (clock w) r) with
              | Ok m => Ok (Some m)
              | Raise e => Raise e
              end,
              emit (EvCommit (CommitUpdate id form))
                (set_table (update_first (has_id id) (apply_update form (clock w)) (table w))
                   (next_db_fault w)))
         end.
Proof. intros H. rewrite update_scheduled_action_by_id_run, H. reflexivity. Qed.

(** ** [execute_action]: failures become outcomes *)

(** What [execute] returns, and what it leaves alone. *)
Lemma execute_run c user config w :
  exists w1,
    execute c user config w = (executor_result c config w, w1) /\
    table w1 = table w /\ scheduler w1 = scheduler w /\ clock w1 = clock w /\
    db_faults w1 = db_faults w /\ job_map w1 = job_map w.
Proof.
  destruct c; unfold execute, NotificationExecutor_execute, external_execute;
    monad_unfold; eexists; repeat split.
Qed.

(** C4. [execute_action] returns an outcome in every world and never raises.
    Whatever exception the suite of its [try] raises, in the lookup of the
    executor, in its invocation, in the merge-write of the chat id or in the
    completion notification, is caught at the outer [except] and becomes the
    outcome [{status: error, message: str(e)}]. So a missing executor, an
    executor that raises and a merge-write whose session fails all give an
    error outcome; the completion notification in addition contains its own
    exceptions. *)
Theorem execute_action_contains_exceptions action w :
  (exists outcome, fst (execute_action action w) = Ok outcome) /\
  (forall e,
     fst (_execute_action_body action
            (emit (EvLog INFO ("Executing scheduled action: " +:+ name action
                                +:+ " (type: " +:+ action_type action
                                +:+ ", user: " +:+ user_id action +:+ ")")) w))
     = Raise e ->
     fst (execute_action action w) = Ok (error_outcome (exn_msg e))) /\
  (get_executor (action_type action) = None ->
   fst (execute_action action w)
   = Ok (error_outcome ("No executor found for action type: " +:+ action_type action))) /\
  (forall c e,
     get_executor (action_type action) = Some c ->
     executor_result c (action_config action) w = Raise e ->
     fst (execute_action action w) = Ok (error_outcome (exn_msg e))) /\
  (forall c result,
     get_executor (action_type action) = Some c ->
     executor_result c (action_config action) w = Ok result ->
     truthy (dict_get result "chat_id") = true ->
     db_faults w 0%nat = true ->
     fst (execute_action action w) = Ok (error_outcome "database is unavailable")) /\
  (forall result, total (_send_completion_notification action result)).
Proof.
  assert (Hsuite : forall e,
     fst (_execute_action_body action
            (emit (EvLog INFO ("Executing scheduled action: " +:+ name action
                                +:+ " (type: " +:+ action_type action
                                +:+ ", user: " +:+ user_id action +:+ ")")) w))
     = Raise e ->
     fst (execute_action action w) = Ok (error_outcome (exn_msg e))).
  { intros e He. unfold execute_action. unfold bind at 1, log at 1, modify at 1.
    unfold try_except.
    destruct (_execute_action_body action _) as [[o|e'] w1]; cbn in He; [discriminate|].
    injection He as ->. reflexivity. }
  split; [|split; [exact Hsuite|split; [|split; [|split]]]].
  - destruct (total_run (execute_action action) w (total_execute_action action)) as [o Ho].
    exists o. rewrite Ho. reflexivity.
  - intros Hx. unfold execute_action, _execute_action_body. monad_unfold.
    rewrite Hx. reflexivity.
  - intros c e Hx He. apply Hsuite. unfold _execute_action_body. rewrite Hx.
    unfold bind at 1.
    destruct (execute_run c (user_id action) (action_config action)
                (emit (EvLog INFO ("Executing scheduled action: " +:+ name action
                                +:+ " (type: " +:+ action_type action
                                +:+ ", user: " +:+ user_id action +:+ ")")) w))
      as (w1 & -> & _).
    change (executor_result c (action_config action) (emit _ w))
      with (executor_result c (action_config action) w).
    rewrite He. reflexivity.
  - intros c result Hx Hr Hc Hf.
    apply (Hsuite (Exn OperationalError "database is unavailable")).
    unfold _execute_action_body. rewrite Hx.
    unfold bind at 1.
    destruct (execute_run c (user_id action) (action_config action)
                (emit (EvLog INFO ("Executing scheduled action: " +:+ name action
                                +:+ " (type: " +:+ action_type action
                                +:+ ", user: " +:+ user_id action +:+ ")")) w))
      as (w1 & -> & _ & _ & _ & Hf1 & _).
    change (executor_result c (action_config action) (emit _ w))
      with (executor_result c (action_config action) w).
    rewrite Hr. unfold bind at 1, log at 1, modify at 1. rewrite Hc.
    unfold bind at 1 2. rewrite update_scheduled_action_by_id_set by reflexivity.
    cbn [db_faults emit]. rewrite Hf1. cbn [db_faults emit]. rewrite Hf. reflexivity.
  - intros result. apply total_send_completion_notification.
Qed.

(** The table after [execute_action]: the only write is the merge-write of
    the chat id, made when the outcome carries one and the session is
    served. *)
Lemma execute_action_table action w :
  table (snd (execute_action action w))
  = match get_executor (action_type action) with
    | Some c =>
        match executor_result c (action_config action) w with
        | Ok result =>
            if truthy (dict_get result "chat_id") && negb (db_faults w 0%nat)
            then update_first (has_id (action_id action))
                   (apply_update
                      (form_action_config_only
                         (<["chat_id" := dict_get result "chat_id"]> (action_config action)))
                      (clock w))
                   (table w)
            else table w
        | Raise _ => table w
        end
    | None => table w
    end.
Proof.
  unfold execute_action, _execute_action_body.
  unfold bind at 1, log at 1, modify at 1.
  destruct (get_executor (action_type action)) as [c|] eqn:Hx; [|reflexivity].
  unfold try_except at 1, bind at 1.
  match goal with
  | |- context [execute c ?u ?cfg ?w0] =>
      destruct (execute_run c u cfg w0) as (w1 & -> & Et & _ & Ec & Ef & _);
      change (executor_result c cfg w0) with (executor_result c cfg w)
  end.
  cbn [table clock db_faults emit] in Et, Ec, Ef.
  destruct (executor_result c (action_config action) w) as [result|e] eqn:Hr;
    [|cbn; exact Et].
  unfold bind at 1, log at 1, modify at 1.
  (* the completion notification leaves the table alone *)
  assert (Hnot : forall w2,
    table (snd (bind
      (if truthy (dict_get_default (action_config action) "notify" (JBool false))
       then _send_completion_notification action result else ret tt)
      (fun _ => ret result) w2)) = table w2
    /\ is_ok (fst (bind
      (if truthy (dict_get_default (action_config action) "notify" (JBool false))
       then _send_completion_notification action result else ret tt)
      (fun _ => ret result) w2)) = true).
  { intros w2. unfold bind.
    destruct (truthy (dict_get_default (action_config action) "notify" (JBool false))).
    - pose proof (same_send_completion_notification table
                    (fun _ _ => eq_refl) (fun _ => eq_refl) action result w2) as Hs.
      pose proof (total_send_completion_notification action result w2) as Ht.
      destruct (_send_completion_notification action result w2) as [[u|e] w3];
        cbn in *; [split; [exact Hs|reflexivity]|discriminate].
    - split; reflexivity. }
  destruct (truthy (dict_get result "chat_id")) eqn:Hc; cbn [andb].
  - unfold bind at 1 2. rewrite update_scheduled_action_by_id_set by reflexivity.
    cbn [db_faults table clock emit]. rewrite Ef, Et, Ec.
    destruct (db_faults w 0%nat) eqn:Hf; cbn [negb]; [cbn; exact Et|].
    destruct (first_by_id (action_id action) (table w)) as [r|] eqn:Hrow.
    + destruct (model_validate _) as [m|e]; [|reflexivity].
      unfold log at 1, modify at 1.
      match goal with
      | |- context [bind ?m ?k ?w2] => destruct (Hnot w2) as [Ht Hok];
          destruct (bind m k w2) as [[o|e] w3]
      end; cbn in *; [exact Ht|discriminate].
    + unfold log at 1, modify at 1.
      match goal with
      | |- context [bind ?m ?k ?w2] => destruct (Hnot w2) as [Ht Hok];
          destruct (bind m k w2) as [[o|e] w3]
      end; cbn in *; [|discriminate].
      rewrite Ht, Et. symmetry. apply update_first_no_match. exact Hrow.
  - unfold bind at 1, ret at 1.
    match goal with
    | |- context [bind ?m ?k ?w2] => destruct (Hnot w2) as [Ht Hok];
        destruct (bind m k w2) as [[o|e] w3]
    end; cbn in *; [congruence|discriminate].
Qed.

(** C8. When the outcome of an execution carries a chat id and the
    merge-write is served, the stored [action_config] of the action decodes
    to the configuration of the snapshot the execution started from, with
    the key [chat_id] set to that id: every other key has the value of the
    snapshot, no key is added or lost against the snapshot. A key of the
    configuration that was stored keeps its stored value exactly when the
    snapshot has that value for it, and it does so for every key when the
    row is still the one the snapshot was read from. The other columns of
    the row keep their values ([updated_at] is stamped), the other rows are
    not touched, and the next fetch of the action sees the chat id. A
    merge-write that is not served changes nothing. *)
Theorem merge_write_keeps_other_keys action w r c result :
  first_by_id (action_id action) (table w) = Some r ->
  get_executor (action_type action) = Some c ->
  executor_result c (action_config action) w = Ok result ->
  truthy (dict_get result "chat_id") = true ->
  (db_faults w 0%nat = false ->
   exists r' cfg',
     first_by_id (action_id action) (table (snd (execute_action action w))) = Some r' /\
     json_loads (row_action_config r') = Some cfg' /\
     cfg' !! "chat_id" = Some (dict_get result "chat_id") /\
     (forall k, k <> "chat_id" -> cfg' !! k = action_config action !! k) /\
     (forall stored k,
        json_loads (row_action_config r) = Some stored -> k <> "chat_id" ->
        (cfg' !! k = stored !! k <-> action_config action !! k = stored !! k)) /\
     (model_validate r = Ok action ->
      forall k, k <> "chat_id" ->
        stored_key (action_id action) k (snd (execute_action action w))
        = stored_key (action_id action) k w) /\
     row_id r' = row_id r /\ row_user_id r' = row_user_id r /\
     row_name r' = row_name r /\ row_description r' = row_description r /\
     row_action_type r' = row_action_type r /\
     row_schedule_type r' = row_schedule_type r /\
     row_schedule_config r' = row_schedule_config r /\
     row_enabled r' = row_enabled r /\
     row_last_run_at r' = row_last_run_at r /\
     row_next_run_at r' = row_next_run_at r /\
     row_created_at r' = row_created_at r /\
     (forall sc, json_loads (row_schedule_config r) = Some sc ->
        exists action', model_validate r' = Ok action' /\
                        action_config action' = cfg')) /\
  (db_faults w 0%nat = true -> table (snd (execute_action action w)) = table w) /\
  (forall id', id' <> action_id action ->
     first_by_id id' (table (snd (execute_action action w))) = first_by_id id' (table w)).
Proof.
  intros Hrow Hx Hr Hc.
  pose proof (execute_action_table action w) as Ht. rewrite Hx, Hr, Hc in Ht.
  cbn [andb] in Ht.
  split; [|split].
  - intros Hf. rewrite Hf in Ht. cbn [negb] in Ht.
    assert (Hrow' : first_by_id (action_id action) (table (snd (execute_action action w)))
                    = Some (apply_update
                              (form_action_config_only
                                 (<["chat_id" := dict_get result "chat_id"]>
                                    (action_config action)))
                              (clock w) r)).
    { rewrite Ht. rewrite first_by_id_update_first by reflexivity. rewrite Hrow.
      reflexivity. }
    assert (Hcfg : json_loads
                     (row_action_config
                        (apply_update
                           (form_action_config_only
                              (<["chat_id" := dict_get result "chat_id"]>
                                 (action_config action)))
                           (clock w) r))
                   = Some (<["chat_id" := dict_get result "chat_id"]> (action_config action))).
    { cbn [apply_update form_action_config_only upd_action_config row_action_config
           set_config].
      apply json_loads_dumps. }
    eexists _, _. split; [exact Hrow'|].
    split; [exact Hcfg|].
    split; [apply lookup_insert_eq|].
    split; [intros k Hk; apply lookup_insert_ne; congruence|].
    split.
    { intros stored k _ Hk. rewrite lookup_insert_ne by congruence. reflexivity. }
    split.
    { intros Hm k Hk. unfold stored_key. rewrite Hrow', Hcfg, Hrow.
      unfold model_validate in Hm.
      destruct (json_loads (row_action_config r)) as [ac|]; [|discriminate].
      destruct (json_loads (row_schedule_config r)); [|discriminate].
      injection Hm as <-. cbn [action_config].
      apply lookup_insert_ne. congruence. }
    repeat (split; [reflexivity|]).
    intros sc Hsc. unfold model_validate. rewrite Hcfg.
    cbn [apply_update form_action_config_only upd_schedule_config row_schedule_config
         set_config].
    rewrite Hsc. eexists. split; reflexivity.
  - intros Hf. rewrite Hf in Ht. exact Ht.
  - intros id' Hne. rewrite Ht. destruct (negb (db_faults w 0%nat)); [|reflexivity].
    apply first_by_id_update_first_ne; [reflexivity|exact Hne].
Qed.

(** ** The trace of an execution attempt *)

#[local] Instance extends_preorder P : PreOrder (extends P).
Proof.
  split.
  - intros w. exists []. rewrite app_nil_r. split; [reflexivity|constructor].
  - intros w1 w2 w3 (e1 & H1 & F1) (e2 & H2 & F2). exists (e1 ++ e2).
    rewrite H2, H1, app_assoc. split; [reflexivity|]. apply Forall_app. auto.
Qed.

Lemma extends_emit (P : Event -> Prop) e w : P e -> extends P w (emit e w).
Proof. intros H. exists [e]. split; [reflexivity|]. repeat constructor. exact H. Qed.

Lemma extends_same P w w' : trace w' = trace w -> extends P w w'.
Proof. intros H. exists []. rewrite app_nil_r. split; [exact H|constructor]. Qed.

Lemma extends_get_db P : respects (extends P) get_db.
Proof.
  intros w. unfold get_db. destruct (db_faults w 0%nat); apply extends_same; reflexivity.
Qed.

Lemma extends_external_execute P : respects (extends P) external_execute.
Proof. intros w. apply extends_same. reflexivity. Qed.

Lemma extends_execute_action action :
  respects (extends attempt_event) (execute_action action).
Proof.
  unfold execute_action, _execute_action_body, _send_completion_notification,
    update_scheduled_action_by_id, execute, NotificationExecutor_execute.
  repeat respects_step;
    first [ apply extends_get_db
          | apply extends_external_execute
          | apply respects_modify; intros w';
            first [ apply extends_emit; cbn; solve [exact I | reflexivity]
                  | apply extends_same; reflexivity ] ].
Qed.

(** ** A fire of an enabled action *)

(** A successful re-fetch: the session was served and the row decodes to
    the action. *)
Lemma get_scheduled_action_by_id_some id w action :
  fst (get_scheduled_action_by_id id w) = Ok (Some action) ->
  db_faults w 0%nat = false /\
  exists r, first_by_id id (table w) = Some r /\ model_validate r = Ok action.
Proof.
  unfold get_scheduled_action_by_id, get_db. monad_unfold.
  destruct (db_faults w 0%nat); [discriminate|].
  change (table (next_db_fault w)) with (table w).
  destruct (first_by_id id (table w)) as [r|]; [|discriminate].
  destruct (model_validate r) as [m|e] eqn:Hm; cbn; [|discriminate].
  intros H. injection H as ->. eauto.
Qed.

Lemma model_validate_fields r action :
  model_validate r = Ok action ->
  action_id action = row_id r /\ enabled action = row_enabled r /\
  schedule_type action = row_schedule_type r /\
  last_run_at action = row_last_run_at r /\ next_run_at action = row_next_run_at r /\
  json_loads (row_action_config r) = Some (action_config action) /\
  json_loads (row_schedule_config r) = Some (schedule_config action).
Proof.
  unfold model_validate.
  destruct (json_loads (row_action_config r)); [|discriminate].
  destruct (json_loads (row_schedule_config r)); [|discriminate].
  intros H. injection H as <-. repeat split.
Qed.

Lemma first_by_id_row_id id t r : first_by_id id t = Some r -> row_id r = id.
Proof.
  unfold first_by_id. intros H. apply find_some in H as [_ H].
  apply has_id_true in H. exact H.
Qed.

(** The row of the action after the execution attempt. *)
Lemma execute_action_row action w r :
  first_by_id (action_id action) (table w) = Some r ->
  exists r2, first_by_id (action_id action) (table (snd (execute_action action w))) = Some r2
             /\ config_rewrite r r2.
Proof.
  intros Hrow. rewrite execute_action_table.
  destruct (get_executor (action_type action)) as [c|];
    [|exists r; split; [exact Hrow|left; reflexivity]].
  destruct (executor_result c (action_config action) w) as [result|e];
    [|exists r; split; [exact Hrow|left; reflexivity]].
  destruct (truthy (dict_get result "chat_id") && negb (db_faults w 0%nat));
    [|exists r; split; [exact Hrow|left; reflexivity]].
  rewrite first_by_id_update_first by reflexivity. rewrite Hrow. cbn.
  eexists. split; [reflexivity|]. right. eauto.
Qed.

Lemma config_rewrite_fields r r2 :
  config_rewrite r r2 ->
  row_id r2 = row_id r /\ row_enabled r2 = row_enabled r /\
  row_last_run_at r2 = row_last_run_at r /\ row_next_run_at r2 = row_next_run_at r /\
  row_schedule_type r2 = row_schedule_type r /\
  row_schedule_config r2 = row_schedule_config r /\
  (json_loads (row_action_config r) <> None -> json_loads (row_action_config r2) <> None).
Proof.
  intros [->|(d & now & ->)]; cbn; repeat split; try (intros H; exact H).
  intros _. rewrite json_loads_dumps. discriminate.
Qed.

Lemma next_fire_of_frame id w w' :
  scheduler w' = scheduler w -> next_fire_of id w' = next_fire_of id w.
Proof. intros H. unfold next_fire_of, get_job, reads. cbn. rewrite H. reflexivity. Qed.

(** The world a fire of an enabled action ends in when its suite runs to
    completion: the world after the execution attempt, then the run-time
    update, then for a one-shot action the disabling write. *)
Lemma fire_enabled_run id w action :
  fst (get_scheduled_action_by_id id w) = Ok (Some action) ->
  enabled action = true ->
  fst (_execute_action_wrapper_body id w) = Ok tt ->
  snd (_execute_action_wrapper id w)
  = (if String.eqb (schedule_type action) "once"
     then after_disable id (clock w)
     else fun w3 => w3)
      (after_run_times id (clock w) (next_fire_of id w)
         (snd (execute_action action (next_db_fault w)))).
Proof.
  intros Hfetch Hen Hbody.
  destruct (get_scheduled_action_by_id_run id w) as [o Hget].
  rewrite Hget in Hfetch. cbn in Hfetch. injection Hfetch as ->.
  destruct (get_scheduled_action_by_id_some id w action) as (Hf0 & r & Hrow & Hm);
    [rewrite Hget; reflexivity|].
  destruct (model_validate_fields r action Hm) as (Hid & _).
  pose proof (first_by_id_row_id _ _ _ Hrow) as Hrid.
  assert (Haid : action_id action = id) by congruence.
  (* the execution attempt *)
  pose proof (total_execute_action action (next_db_fault w)) as Htot.
  pose proof (same_execute_action scheduler (fun _ _ => eq_refl) (fun _ => eq_refl)
                (fun _ => eq_refl) (fun _ _ => eq_refl) action (next_db_fault w)) as Hs.
  pose proof (same_execute_action clock (fun _ _ => eq_refl) (fun _ => eq_refl)
                (fun _ => eq_refl) (fun _ _ => eq_refl) action (next_db_fault w)) as Hc.
  destruct (execute_action_row action (next_db_fault w) r) as (r2 & Hrow2 & Hrw);
    [rewrite Haid; exact Hrow|].
  rewrite Haid in Hrow2.
  unfold same in Hs, Hc. cbn [scheduler clock next_db_fault] in Hs, Hc.
  assert (Hbody' : exists W, _execute_action_wrapper_body id w = (Ok tt, W)).
  { destruct (_execute_action_wrapper_body id w) as [[[]|e] W]; [eauto|discriminate]. }
  destruct Hbody' as [W HW].
  unfold _execute_action_wrapper, try_except. rewrite HW. cbn [snd].
  clear Hbody. unfold _execute_action_wrapper_body in HW.
  unfold bind at 1 in HW. rewrite Hget, Hen in HW. cbn [negb] in HW.
  unfold bind at 1 in HW.
  destruct (execute_action action (next_db_fault w)) as [[out|e] w2] eqn:Hex;
    [|discriminate].
  cbn [fst snd] in *.
  unfold bind at 1, reads at 1 in HW. unfold bind at 1 in HW.
  assert (Hnext : (match fst (get_job (job_id_of id) w2) with
                   | Ok (Some j) => next_run_time j
                   | _ => None
                   end) = next_fire_of id w).
  { apply (next_fire_of_frame id w w2). exact Hs. }
  unfold get_job at 1, reads at 1 in HW. unfold get_job, reads in Hnext.
  cbn [fst] in Hnext. rewrite Hnext, Hc in HW. clear Hnext.
  unfold bind at 1 in HW. rewrite update_scheduled_action_run_times_run in HW.
  destruct (db_faults w2 0%nat) eqn:Hf2; [discriminate|].
  rewrite Hrow2, Hc in HW.
  fold (after_run_times id (clock w) (next_fire_of id w) w2) in HW.
  destruct (String.eqb (schedule_type action) "once").
  - unfold bind at 1 in HW. rewrite update_scheduled_action_by_id_set in HW by reflexivity.
    destruct (db_faults (after_run_times id (clock w) (next_fire_of id w) w2) 0%nat);
      [discriminate|].
    change (clock (after_run_times id (clock w) (next_fire_of id w) w2))
      with (clock w2) in HW. rewrite Hc in HW.
    destruct (first_by_id id (table (after_run_times id (clock w) (next_fire_of id w) w2)))
      as [r3|] eqn:Hrow3.
    + destruct (model_validate (apply_update (form_enabled_only false) (clock w) r3));
        [|discriminate].
      unfold log, modify in HW. injection HW as <-. reflexivity.
    + exfalso. unfold after_run_times in Hrow3. cbn [table emit set_table] in Hrow3.
      rewrite first_by_id_update_first in Hrow3 by reflexivity.
      rewrite Hrow2 in Hrow3. discriminate.
  - unfold ret in HW. injection HW as <-. reflexivity.
Qed.


(** C5, as the code has it. After the execution attempt of a fire whose
    suite runs to completion, the run-time update is made with the current
    time and the next fire time the timer subsystem reports: [last_run_at]
    is stored as the current time, and [next_run_at] is stored when there is
    a next fire time; when there is none the stored [next_run_at] keeps the
    value it had. *)
Theorem run_times_after_fire id w action :
  fst (get_scheduled_action_by_id id w) = Ok (Some action) ->
  enabled action = true ->
  fst (_execute_action_wrapper_body id w) = Ok tt ->
  EvCommit (CommitRunTimes id (clock w) (next_fire_of id w))
    ∈ trace (snd (_execute_action_wrapper id w)) /\
  exists r',
    first_by_id id (table (snd (_execute_action_wrapper id w))) = Some r' /\
    row_last_run_at r' = Some (clock w) /\
    row_next_run_at r' = match next_fire_of id w with
                         | Some t => Some t
                         | None => next_run_at action
                         end.
Proof.
  intros Hfetch Hen Hbody.
  rewrite (fire_enabled_run id w action Hfetch Hen Hbody).
  destruct (get_scheduled_action_by_id_some id w action Hfetch) as (_ & r & Hrow & Hm).
  destruct (model_validate_fields r action Hm) as (Hid & _ & _ & _ & Hnext & _).
  pose proof (first_by_id_row_id _ _ _ Hrow) as Hrid.
  assert (Haid : action_id action = id) by congruence.
  destruct (execute_action_row action (next_db_fault w) r) as (r2 & Hrow2 & Hrw);
    [rewrite Haid; exact Hrow|].
  rewrite Haid in Hrow2.
  destruct (config_rewrite_fields r r2 Hrw) as (_ & _ & _ & Hn2 & _).
  destruct (String.eqb (schedule_type action) "once").
  - unfold after_disable, after_run_times.
    cbn [trace table emit set_table next_db_fault]. split.
    + rewrite !elem_of_app. left. left. right. apply list_elem_of_singleton. reflexivity.
    + rewrite !first_by_id_update_first by reflexivity. rewrite Hrow2. cbn.
      eexists. split; [reflexivity|]. split; [reflexivity|].
      rewrite Hnext, <- Hn2. reflexivity.
  - unfold after_run_times. cbn [trace table emit set_table next_db_fault]. split.
    + rewrite !elem_of_app. right. apply list_elem_of_singleton. reflexivity.
    + rewrite !first_by_id_update_first by reflexivity. rewrite Hrow2. cbn.
      eexists. split; [reflexivity|]. split; [reflexivity|].
      rewrite Hnext, <- Hn2. reflexivity.
Qed.

End Properties.

(** * The engine on concrete inputs *)

Import Sample.

(** C10 on a schedule without an expression. *)
Lemma cron_without_expression_uses_default_witness :
  _create_trigger (lib := Ref.lib) bare_cron_action
    (world [bare_cron_action] (started []) nine no_faults (always notification_outcome))
  = (Ok (Some (CronTrigger "0" "9" "*" "*" "*")),
     world [bare_cron_action] (started []) nine no_faults (always notification_outcome)).
Proof.
  apply (cron_without_expression_uses_default (lib := Ref.lib));
    vm_compute; reflexivity.
Defined.






(** C4, on an executor that raises: the outcome is the error with the text
    of the exception. *)
Lemma execute_action_contains_exceptions_witness :
  fst (execute_action (lib := Ref.lib) search_action
         (world [search_action] (started []) nine no_faults (raising "boom")))
  = Ok (error_outcome "boom").
Proof.
  refine (proj1 (proj2 (proj2 (proj2
    (execute_action_contains_exceptions (lib := Ref.lib) search_action
       (world [search_action] (started []) nine no_faults (raising "boom"))))))
    WebSearchExecutor (Exn RuntimeError "boom") _ _); vm_compute; reflexivity.
Defined.

(** C5, on a fire of the one-shot action: the current time is stored as
    [last_run_at]. *)
Lemma run_times_after_fire_witness :
  let w := world [once_action] (started []) nine no_faults (always notification_outcome) in
  exists r',
    first_by_id "a1" (table (snd (_execute_action_wrapper (lib := Ref.lib) "a1" w))) = Some r' /\
    row_last_run_at r' = Some (clock w) /\
    row_next_run_at r' = match next_fire_of "a1" w with
                         | Some t => Some t
                         | None => next_run_at once_action
                         end.
Proof.
  intros w.
  refine (proj2 (run_times_after_fire (lib := Ref.lib) "a1" w once_action _ _ _));
    vm_compute; reflexivity.
Defined.

(** C5 fails on the null next fire time: the timer of the one-shot action
    was consumed, the run-time update was made with no next fire time, and
    the stored [next_run_at] is still the instant of the fire, not null. *)
Lemma null_next_run_is_not_stored :
  let w := world [once_action] (started []) nine no_faults (always notification_outcome) in
  next_fire_of (lib := Ref.lib) "a1" w = None /\
  List.filter (fun e => match e with EvCommit (CommitRunTimes _ _ _) => true | _ => false end)
    (trace (snd (_execute_action_wrapper "a1" w)))
  = [EvCommit (CommitRunTimes "a1" nine None)] /\
  row_last_run_at <$> first_by_id "a1" (table (snd (_execute_action_wrapper "a1" w)))
  = Some (Some nine) /\
  row_next_run_at <$> first_by_id "a1" (table (snd (_execute_action_wrapper "a1" w)))
  = Some (Some nine).
Proof. vm_compute. repeat split. Qed.

(** C6, on a reload that finds the action with the expression [x y z]
    next to a well-formed one: the reload completes, logs the skip and arms
    no timer for it. *)
Lemma reload_skips_bad_cron_witness :
  let w := world [interval_action; bad_cron_action] (started []) (nine - 300) no_faults
             (always notification_outcome) in
  fst (reload_jobs (lib := Ref.lib) w) = Ok tt /\
  EvLog WARNING "Could not create trigger for action a3" ∈ trace (snd (reload_jobs w)) /\
  (forall j, j ∈ armed (scheduler (snd (reload_jobs w))) -> job_id j <> job_id_of "a3").
Proof.
  intros w.
  destruct (proj2 (reload_skips_bad_cron (lib := Ref.lib)) w
              [interval_action; bad_cron_action] bad_cron_action)
    as (H1 & H2 & H3 & _).
  - vm_compute. reflexivity.
  - apply (bool_decide_unpack _). vm_compute. exact I.
  - apply elem_of_cons. right. apply elem_of_cons. left. reflexivity.
  - vm_compute. reflexivity.
  - left. vm_compute. discriminate.
  - split; [exact H1|]. split; [exact H2|exact H3].
Defined.

(** C7. For the schedule [{unit: jitter}] of type [interval] the calculator
    does not fail: the keyword [jitter] is a parameter of the interval
    trigger, and the trigger that results fires every second, with the
    default 60 as its jitter. *)
Theorem interval_unit_jitter_gets_trigger :
  let w := world [jitter_action] (started []) nine no_faults (always notification_outcome) in
  _create_trigger (lib := Ref.lib) jitter_action w
  = (Ok (Some (IntervalTrigger 1 (nine + 1) None None (JInt 60))), w).
Proof.
  intros w. apply (interval_unit_jitter (lib := Ref.lib) jitter_action w).
  - vm_compute. reflexivity.
  - vm_compute. reflexivity.
  - vm_compute. split; discriminate.
Qed.

(** C8, on a web search that saved its results to the chat [c1]: the stored
    configuration keeps the query, the engine and the result count, and
    has the chat id. *)
Lemma merge_write_keeps_other_keys_witness :
  let w := world [search_action] (started []) nine no_faults (always search_outcome) in
  exists r' cfg',
    first_by_id "a6" (table (snd (execute_action (lib := Ref.lib) search_action w))) = Some r' /\
    json_loads (row_action_config r') = Some cfg' /\
    cfg' !! "chat_id" = Some (JStr "c1") /\
    (forall k, k <> "chat_id" -> cfg' !! k = search_config !! k).
Proof.
  intros w.
  assert (H1 : first_by_id (action_id search_action) (table w)
               = Some (row_of search_action)) by reflexivity.
  assert (H3 : get_executor (action_type search_action) = Some WebSearchExecutor)
    by (vm_compute; reflexivity).
  assert (H4 : executor_result WebSearchExecutor (action_config search_action) w
               = Ok search_outcome) by reflexivity.
  assert (H5 : truthy (dict_get search_outcome "chat_id") = true)
    by (vm_compute; reflexivity).
  assert (H6 : db_faults w 0%nat = false) by reflexivity.
  destruct (proj1 (merge_write_keeps_other_keys (lib := Ref.lib) search_action w
                     (row_of search_action) WebSearchExecutor search_outcome
                     H1 H3 H4 H5) H6)
    as (r' & cfg' & G1 & G2 & G3 & G4 & _).
  exists r', cfg'.
  split; [exact G1|]. split; [exact G2|]. split; [exact G3|exact G4].
Defined.

(** C8 fails on a key that was stored after the snapshot was taken: the
    search runs on the snapshot of [a6], the owner adds the key [folder] to
    the stored configuration through the router, and the merge-write of the
    chat id stores the configuration of the snapshot: the key is lost. *)
Lemma merge_write_drops_a_key_stored_since_the_snapshot :
  let w := world [search_action] (started []) nine no_faults (always search_outcome) in
  let updated :=
    serve false RouterSample.owner
      (UpdateAction "a6"
         (form_action_config_only (<["folder" := JStr "f1"]> search_config))) w in
  fst (get_scheduled_action_by_id (lib := Ref.lib) "a6" w) = Ok (Some search_action) /\
  stored_key "a6" "folder" updated = Some (JStr "f1") /\
  stored_key "a6" "query" updated = Some (JStr "rocq") /\
  stored_key "a6" "folder" (snd (execute_action search_action updated)) = None /\
  stored_key "a6" "query" (snd (execute_action search_action updated)) = Some (JStr "rocq") /\
  stored_key "a6" "chat_id" (snd (execute_action search_action updated)) = Some (JStr "c1").
Proof. vm_compute. repeat split. Qed.

(** C9, on the interval action armed at five minutes to nine: the timer is
    armed and the first fire time is stored. *)
Lemma advisory_write_of_next_run_witness :
  let w := world [interval_action] (started []) (nine - 300) no_faults
             (always notification_outcome) in
  new_job (IntervalTrigger 300 nine None None JNull)
    (action_id interval_action) (name interval_action) (Some nine)
    ∈ armed (scheduler (snd (_schedule_action (lib := Ref.lib) interval_action w))) /\
  exists r',
    first_by_id (action_id interval_action)
      (table (snd (_schedule_action interval_action w))) = Some r' /\
    row_next_run_at r' = Some nine.
Proof.
  intros w.
  assert (H1 : fst (_create_trigger interval_action w)
               = Ok (Some (IntervalTrigger 300 nine None None JNull)))
    by (vm_compute; reflexivity).
  assert (H2 : running (scheduler w) = true) by reflexivity.
  assert (H3 : @get_next_fire_time Ref.lib
                 (IntervalTrigger 300 nine None None JNull) None (clock w)
               = Some nine) by (vm_compute; reflexivity).
  assert (H4 : first_by_id (action_id interval_action) (table w)
               = Some (row_of interval_action)) by reflexivity.
  assert (H5 : db_faults w 0%nat = false) by reflexivity.
  destruct (advisory_write_of_next_run (lib := Ref.lib) interval_action w
              (IntervalTrigger 300 nine None None JNull) nine (row_of interval_action)
              H1 H2 H3 H4)
    as (_ & G2 & _ & G4).
  split; [exact G2|].
  destruct (G4 H5) as [(r' & Hr & Hn & _) _].
  exists r'. split; [exact Hr|exact Hn].
Defined.

(** C9 fails on an action that never ran: its [last_run_at] is null before
    the reload and 0 after it. *)
Lemma reload_writes_last_run_of_new_action :
  let w := world [interval_action] (started []) (nine - 300) no_faults
             (always notification_outcome) in
  row_last_run_at <$> first_by_id (lib := Ref.lib) "a2" (table w) = Some None /\
  row_last_run_at <$> first_by_id "a2" (table (snd (reload_jobs w))) = Some (Some 0) /\
  row_next_run_at <$> first_by_id "a2" (table (snd (reload_jobs w))) = Some (Some nine).
Proof. vm_compute. repeat split. Qed.

(** * Properties of the repository, the router and the service *)

Section Extras.
Context `{lib : PyLib}.

Implicit Types (w : World) (action : ScheduledActionModel) (id : string).

Ltac monad_unfold :=
  unfold bind, ret, raise, lift, modify, reads, log, try_except in *.

Ltac preorder := try match goal with |- PreOrder _ => apply _ end.

(** ** Frames: what a computation respects

    [R] relates the world before a computation to the world after it. Each
    hypothesis says that one kind of elementary change respects [R], and a
    lemma depends on the hypotheses for the changes its computation can
    make. *)

#[local] Instance frame_preorder {B} (f : World -> B) : PreOrder (same f).
Proof.
  split.
  - intros w. reflexivity.
  - intros w1 w2 w3 H1 H2. unfold same in *. congruence.
Qed.

(** An invariant of the world, as a relation. *)
#[local] Instance invariant_preorder (I : World -> Prop) :
  PreOrder (fun w w' => I w -> I w').
Proof.
  split.
  - intros w H. exact H.
  - intros w1 w2 w3 H1 H2 H. exact (H2 (H1 H)).
Qed.

Ltac frame_core :=
  first
    [ assumption
    | apply respects_ret; preorder | apply respects_raise; preorder
    | apply respects_lift; preorder | apply respects_reads; preorder
    | apply respects_bind; preorder; [|intros ?]
    | apply respects_try_except; preorder; [|intros ?]
    | apply respects_for_each; preorder; intros ?
    | match goal with
      | |- respects _ (match ?x with _ => _ end) => destruct x
      | |- respects _ (if ?x then _ else _) => destruct x
      | |- respects _ (let _ := _ in _) => cbv zeta
      end ].

(** The operations of the timer subsystem change the scheduler only. *)
Section SchedulerFrames.
Context (R : relation World) `{!PreOrder R}.
Context (R_scheduler : forall s w, R w (set_scheduler s w)).

Ltac sched_step :=
  first [ apply respects_modify; intros ?; apply R_scheduler | frame_core ].

Lemma frame_real_add_job job b : respects R (_real_add_job job b).
Proof. unfold _real_add_job. repeat sched_step. Qed.

Lemma frame_add_job t arg jid jname b grace :
  respects R (add_job t arg jid jname b grace).
Proof.
  unfold add_job. cbv zeta. repeat first [ apply frame_real_add_job | sched_step ].
Qed.

Lemma frame_remove_all_jobs : respects R remove_all_jobs.
Proof. intros w. apply R_scheduler. Qed.

Lemma frame_remove_job jid : respects R (remove_job jid).
Proof. unfold remove_job. repeat sched_step. Qed.

Lemma frame_reschedule jid : respects R (reschedule jid).
Proof. unfold reschedule. repeat sched_step. Qed.

Lemma frame_scheduler_start : respects R scheduler_start.
Proof.
  unfold scheduler_start. repeat first [ apply frame_real_add_job | sched_step ].
Qed.

Lemma frame_scheduler_shutdown : respects R scheduler_shutdown.
Proof. unfold scheduler_shutdown. repeat sched_step. Qed.

End SchedulerFrames.

(** The repository and the service, over what the timer subsystem
    respects. *)
Section Frames.
Context (R : relation World) `{!PreOrder R}.
Context (R_log : forall lvl msg w, R w (emit (EvLog lvl msg) w)).
Context (R_execute : forall executor user config w,
  R w (emit (EvExecute executor user config) w)).
Context (R_commit : forall c w, R w (emit (EvCommit c) w)).
Context (R_fault : forall w, R w (next_db_fault w)).
Context (R_outcome : forall w, R w (next_executor_outcome w)).
Context (R_job_map : forall m w, R w (set_job_map m w)).
Context (R_running : forall b w, R w (set_running b w)).
Context (R_run_times : forall id last next now w,
  R w (set_table (update_first (has_id id) (apply_run_times last next now) (table w)) w)).
Context (R_update : forall id form now w,
  R w (set_table (update_first (has_id id) (apply_update form now) (table w)) w)).
Context (R_config : forall id d now w,
  R w (set_table (update_first (has_id id)
                    (apply_update (form_action_config_only d) now) (table w)) w)).
Context (R_enabled : forall id b now w,
  R w (set_table (update_first (has_id id)
                    (apply_update (form_enabled_only b) now) (table w)) w)).
Context (R_delete : forall id w,
  R w (set_table (delete_first (has_id id) (table w)) w)).
Context (R_add_job : forall t arg jid jname b grace,
  respects R (add_job t arg jid jname b grace)).
Context (R_remove_all_jobs : respects R remove_all_jobs).
Context (R_remove_job : forall jid, respects R (remove_job jid)).
Context (R_scheduler_start : respects R scheduler_start).
Context (R_scheduler_shutdown : respects R scheduler_shutdown).

Lemma frame_log lvl msg : respects R (log lvl msg).
Proof. intros w. apply R_log. Qed.

Lemma frame_get_db : respects R get_db.
Proof. intros w. unfold get_db. destruct (db_faults w 0%nat); apply R_fault. Qed.

Lemma frame_external_execute : respects R external_execute.
Proof. intros w. apply R_outcome. Qed.

Lemma frame_emits evs w : Forall is_log evs -> R w (emits evs w).
Proof.
  intros H. revert w. induction H as [|e evs He _ IH]; intros w; [reflexivity|].
  change (emits (e :: evs) w) with (emits evs (emit e w)).
  transitivity (emit e w); [|apply IH].
  destruct e; try contradiction. apply R_log.
Qed.

Lemma frame_create_trigger action : respects R (_create_trigger action).
Proof.
  intros w. destruct (create_trigger_run action w) as (t & evs & Hlogs & H).
  rewrite (H w eq_refl). apply frame_emits. exact Hlogs.
Qed.

Ltac frame_step :=
  first
    [ apply frame_log | apply frame_get_db | apply frame_external_execute
    | apply frame_create_trigger
    | apply R_add_job | apply R_remove_job
    | apply respects_modify; intros ?;
      first [ apply R_log | apply R_execute | apply R_commit
            | apply R_job_map | apply R_running
            | apply R_run_times | apply R_config | apply R_enabled
            | apply R_update | apply R_delete ]
    | frame_core ].

Lemma frame_execute c user config : respects R (execute c user config).
Proof. unfold execute, NotificationExecutor_execute. repeat frame_step. Qed.

Lemma frame_get_enabled_scheduled_actions : respects R get_enabled_scheduled_actions.
Proof. unfold get_enabled_scheduled_actions. repeat frame_step. Qed.

Lemma frame_get_scheduled_action_by_id id : respects R (get_scheduled_action_by_id id).
Proof. unfold get_scheduled_action_by_id. repeat frame_step. Qed.

Lemma frame_send_completion_notification action result :
  respects R (_send_completion_notification action result).
Proof.
  unfold _send_completion_notification.
  repeat first [ apply frame_execute | frame_step ].
Qed.

Lemma frame_get_job jid : respects R (get_job jid).
Proof. intros w. reflexivity. Qed.

Lemma frame_update_scheduled_action_run_times id last next :
  respects R (update_scheduled_action_run_times id last next).
Proof. unfold update_scheduled_action_run_times. repeat frame_step. Qed.

Lemma frame_schedule_action action : respects R (_schedule_action action).
Proof.
  unfold _schedule_action.
  repeat first [ apply frame_update_scheduled_action_run_times | frame_step ].
Qed.

Lemma frame_reload_jobs : respects R reload_jobs.
Proof.
  unfold reload_jobs.
  repeat first [ apply frame_schedule_action | apply frame_get_enabled_scheduled_actions
               | frame_step ].
Qed.

Lemma frame_start : respects R start.
Proof. unfold start. repeat first [ apply frame_reload_jobs | frame_step ]. Qed.

Lemma frame_stop : respects R stop.
Proof. unfold stop. repeat frame_step. Qed.

Lemma frame_merge_write id d :
  respects R (update_scheduled_action_by_id id (form_action_config_only d)).
Proof. unfold update_scheduled_action_by_id. repeat frame_step. Qed.

Lemma frame_disable id b :
  respects R (update_scheduled_action_by_id id (form_enabled_only b)).
Proof. unfold update_scheduled_action_by_id. repeat frame_step. Qed.

Lemma frame_update_scheduled_action_by_id id form :
  respects R (update_scheduled_action_by_id id form).
Proof. unfold update_scheduled_action_by_id. repeat frame_step. Qed.

Lemma frame_delete_scheduled_action_by_id id :
  respects R (delete_scheduled_action_by_id id).
Proof. unfold delete_scheduled_action_by_id. repeat frame_step. Qed.

Lemma frame_execute_action action : respects R (execute_action action).
Proof.
  unfold execute_action, _execute_action_body.
  repeat first [ apply frame_merge_write | apply frame_execute
               | apply frame_send_completion_notification | frame_step ].
Qed.

Lemma frame_execute_action_wrapper id : respects R (_execute_action_wrapper id).
Proof.
  unfold _execute_action_wrapper, _execute_action_wrapper_body.
  repeat first [ apply frame_execute_action | apply frame_get_job
               | apply frame_get_scheduled_action_by_id
               | apply frame_update_scheduled_action_run_times | apply frame_disable
               | frame_step ].
Qed.

Lemma frame_reload_if_present hs : respects R (Router.reload_if_present hs).
Proof. destruct hs; [apply frame_reload_jobs|]. intros w. reflexivity. Qed.

Lemma frame_internal_error {A} what e : respects R (@Router.internal_error _ A what e).
Proof. unfold Router.internal_error. repeat frame_step. Qed.

Lemma frame_update_scheduled_action hs id form user :
  respects R (Router.update_scheduled_action hs id form user).
Proof.
  unfold Router.update_scheduled_action.
  repeat first [ apply frame_get_scheduled_action_by_id | apply frame_internal_error
               | apply frame_update_scheduled_action_by_id
               | apply frame_reload_if_present | frame_step ].
Qed.

Lemma frame_toggle_scheduled_action hs id b user :
  respects R (Router.toggle_scheduled_action hs id b user).
Proof.
  unfold Router.toggle_scheduled_action.
  repeat first [ apply frame_get_scheduled_action_by_id | apply frame_internal_error
               | apply frame_disable | apply frame_reload_if_present | frame_step ].
Qed.

Lemma frame_delete_scheduled_action hs id user :
  respects R (Router.delete_scheduled_action hs id user).
Proof.
  unfold Router.delete_scheduled_action.
  repeat first [ apply frame_get_scheduled_action_by_id | apply frame_internal_error
               | apply frame_delete_scheduled_action_by_id
               | apply frame_reload_if_present | frame_step ].
Qed.

Lemma frame_test_scheduled_action hs id user :
  respects R (Router.test_scheduled_action hs id user).
Proof.
  unfold Router.test_scheduled_action.
  repeat first [ apply frame_get_scheduled_action_by_id | apply frame_internal_error
               | apply frame_execute_action | frame_step ].
Qed.

Lemma frame_get_scheduled_action_by_id_endpoint id user :
  respects R (Router.get_scheduled_action_by_id id user).
Proof.
  unfold Router.get_scheduled_action_by_id.
  repeat first [ apply frame_get_scheduled_action_by_id | frame_step ].
Qed.

Lemma frame_get_scheduled_actions : respects R get_scheduled_actions.
Proof. unfold get_scheduled_actions. repeat frame_step. Qed.

Lemma frame_get_scheduled_actions_by_user_id user :
  respects R (get_scheduled_actions_by_user_id user).
Proof. unfold get_scheduled_actions_by_user_id. repeat frame_step. Qed.

End Frames.

(** A reload, over what the scheduling of one action respects. *)
Section ReloadFrames.
Context (R : relation World) `{!PreOrder R}.
Context (R_log : forall lvl msg w, R w (emit (EvLog lvl msg) w)).
Context (R_fault : forall w, R w (next_db_fault w)).
Context (R_job_map_clear : forall w, R w (set_job_map ∅ w)).
Context (R_remove_all_jobs : respects R remove_all_jobs).
Context (R_schedule_action : forall action, respects R (_schedule_action action)).

Lemma frame_reload_jobs_from : respects R reload_jobs.
Proof.
  unfold reload_jobs.
  repeat first
    [ apply R_schedule_action
    | apply (frame_get_enabled_scheduled_actions R); assumption
    | apply (frame_log R); assumption
    | apply respects_modify; intros ?; apply R_job_map_clear
    | frame_core ].
Qed.

Context (R_running : forall b w, R w (set_running b w)).
Context (R_scheduler_start : respects R scheduler_start).
Context (R_scheduler_shutdown : respects R scheduler_shutdown).

Lemma frame_start_from : respects R start.
Proof.
  unfold start.
  repeat first
    [ apply frame_reload_jobs_from
    | apply (frame_log R); assumption
    | apply respects_modify; intros ?; apply R_running
    | frame_core ].
Qed.

Lemma frame_stop_from : respects R stop.
Proof.
  unfold stop.
  repeat first
    [ apply (frame_log R); assumption
    | apply respects_modify; intros ?; first [apply R_running | apply R_job_map_clear]
    | frame_core ].
Qed.

End ReloadFrames.

(** ** Columns that the engine leaves alone *)

Lemma map_update_first {A C} (g : A -> C) (p : A -> bool) (h : A -> A) (l : list A) :
  (forall x, g (h x) = g x) -> map g (update_first p h l) = map g l.
Proof.
  intros Hg. induction l as [|x l IH]; [reflexivity|].
  cbn [update_first]. destruct (p x); cbn [map]; [rewrite Hg|rewrite IH]; reflexivity.
Qed.

(** The columns [g] of the rows, in the order of the table. *)
Section Columns.
Context {C : Type} (g : ScheduledAction -> C).
Context (g_run_times : forall last next now r, g (apply_run_times last next now r) = g r).

Lemma columns_frame_run_times id last next now w :
  map g (table (set_table (update_first (has_id id)
                             (apply_run_times last next now) (table w)) w))
  = map g (table w).
Proof. apply (map_update_first g). apply g_run_times. Qed.

Lemma columns_reload_jobs w :
  map g (table (snd (reload_jobs w))) = map g (table w).
Proof.
  apply (frame_reload_jobs (same (fun w => map g (table w)))); try reflexivity.
  - apply columns_frame_run_times.
  - intros. apply frame_add_job; [apply _|reflexivity].
  - apply frame_remove_all_jobs. reflexivity.
Qed.

Lemma columns_start w : map g (table (snd (start w))) = map g (table w).
Proof.
  apply (frame_start (same (fun w => map g (table w)))); try reflexivity.
  - apply columns_frame_run_times.
  - intros. apply frame_add_job; [apply _|reflexivity].
  - apply frame_remove_all_jobs. reflexivity.
  - apply frame_scheduler_start; [apply _|reflexivity].
Qed.

Lemma columns_stop w : map g (table (snd (stop w))) = map g (table w).
Proof.
  apply (frame_stop (same (fun w => map g (table w)))); try reflexivity.
  apply frame_scheduler_shutdown; [apply _|reflexivity].
Qed.

Lemma columns_schedule_action action w :
  map g (table (snd (_schedule_action action w))) = map g (table w).
Proof.
  apply (frame_schedule_action (same (fun w => map g (table w)))); try reflexivity.
  - apply columns_frame_run_times.
  - intros. apply frame_add_job; [apply _|reflexivity].
Qed.

Context (g_config : forall d now r, g (apply_update (form_action_config_only d) now r) = g r).
Context (g_enabled : forall b now r, g (apply_update (form_enabled_only b) now r) = g r).

Lemma columns_execute_action action w :
  map g (table (snd (execute_action action w))) = map g (table w).
Proof.
  apply (frame_execute_action (same (fun w => map g (table w)))); try reflexivity.
  intros. apply (map_update_first g). apply g_config.
Qed.

Lemma columns_execute_action_wrapper id w :
  map g (table (snd (_execute_action_wrapper id w))) = map g (table w).
Proof.
  apply (frame_execute_action_wrapper (same (fun w => map g (table w))));
    try reflexivity.
  - apply columns_frame_run_times.
  - intros. apply (map_update_first g). apply g_config.
  - intros. apply (map_update_first g). apply g_enabled.
  - intros. apply frame_remove_job; [apply _|reflexivity].
Qed.

End Columns.

(** X10. A reload, a start, a stop and the scheduling of one action write
    nothing but run times: no row is added or removed, the rows keep their
    order, and every column other than [last_run_at], [next_run_at] and
    [updated_at] keeps its value. *)
Theorem reload_touches_run_times_only w :
  map definition_of (table (snd (reload_jobs w))) = map definition_of (table w) /\
  map definition_of (table (snd (start w))) = map definition_of (table w) /\
  map definition_of (table (snd (stop w))) = map definition_of (table w) /\
  (forall action,
     map definition_of (table (snd (_schedule_action action w)))
     = map definition_of (table w)).
Proof.
  split; [|split; [|split]].
  - apply columns_reload_jobs; reflexivity.
  - apply columns_start; reflexivity.
  - apply columns_stop; reflexivity.
  - intros action. apply columns_schedule_action; reflexivity.
Qed.

Lemma schedule_of_run_op o w :
  edits o = false -> map schedule_of (table (run_op o w)) = map schedule_of (table w).
Proof.
  intros Ho. destruct o; try discriminate Ho; cbn [run_op].
  - apply columns_start; reflexivity.
  - apply columns_stop; reflexivity.
  - apply columns_reload_jobs; reflexivity.
  - rewrite columns_execute_action_wrapper; try reflexivity.
    apply (frame_reschedule (same (fun w => map schedule_of (table w)))). reflexivity.
  - apply columns_execute_action_wrapper; reflexivity.
  - apply (frame_reschedule (same (fun w => map schedule_of (table w)))). reflexivity.
  - apply columns_schedule_action; reflexivity.
  - apply columns_execute_action; reflexivity.
  - apply (frame_add_job (same (fun w => map schedule_of (table w)))). reflexivity.
  - apply (frame_remove_job (same (fun w => map schedule_of (table w)))). reflexivity.
  - reflexivity.
  - reflexivity.
Qed.

(** X11. Whatever the engine does, in any order (start, stop, reload, the
    fire of a timer, an immediate run, the single steps of the timer
    subsystem, the passing of time), it adds no row, removes none, and
    leaves owner, name, description, action type, schedule type, schedule
    configuration and creation time of every row as they were. *)
Theorem engine_keeps_the_schedule ops w :
  Forall (fun o => edits o = false) ops ->
  map schedule_of (table (run ops w)) = map schedule_of (table w).
Proof.
  intros H. revert w. induction H as [|o ops Ho _ IH]; intros w; [reflexivity|].
  change (run (o :: ops) w) with (run ops (run_op o w)).
  rewrite IH. apply schedule_of_run_op. exact Ho.
Qed.

(** ** The repository *)

Lemma get_db_run w :
  get_db w
  = if db_faults w 0%nat
    then (Raise (Exn OperationalError "database is unavailable"), next_db_fault w)
    else (Ok tt, next_db_fault w).
Proof. reflexivity. Qed.

Lemma model_validate_new_scheduled_action uuid user form now :
  model_validate (new_scheduled_action uuid user form now)
  = Ok (model_of_form uuid user form now).
Proof.
  unfold model_validate, new_scheduled_action. cbn.
  rewrite !json_loads_dumps. reflexivity.
Qed.

Lemma existsb_has_id id (t : list ScheduledAction) :
  existsb (has_id id) t = match first_by_id id t with Some _ => true | None => false end.
Proof.
  unfold first_by_id. induction t as [|r t IH]; [reflexivity|].
  cbn [existsb List.find]. destruct (has_id id r); [reflexivity|exact IH].
Qed.

Lemma insert_new_scheduled_action_run uuid user form w :
  insert_new_scheduled_action uuid user form w
  = if db_faults w 0%nat
    then (Raise (Exn OperationalError "database is unavailable"), next_db_fault w)
    else match first_by_id uuid (table w) with
         | Some _ =>
             (Raise (Exn IntegrityError "UNIQUE constraint failed: scheduled_action.id"),
              next_db_fault w)
         | None =>
             (Ok (Some (model_of_form uuid user form (clock w))),
              emit (EvCommit (CommitInsert uuid))
                (set_table (table w ++ [new_scheduled_action uuid user form (clock w)])
                   (next_db_fault w)))
         end.
Proof.
  unfold insert_new_scheduled_action. monad_unfold. rewrite get_db_run.
  destruct (db_faults w 0%nat); [reflexivity|].
  change (table (next_db_fault w)) with (table w).
  change (clock (next_db_fault w)) with (clock w).
  rewrite existsb_has_id.
  destruct (first_by_id uuid (table w)); [reflexivity|].
  rewrite model_validate_new_scheduled_action. reflexivity.
Qed.

Lemma first_by_id_app id (t1 t2 : list ScheduledAction) :
  first_by_id id (t1 ++ t2)
  = match first_by_id id t1 with Some r => Some r | None => first_by_id id t2 end.
Proof.
  unfold first_by_id. induction t1 as [|r t1 IH]; [reflexivity|].
  cbn [app List.find]. destruct (has_id id r); [reflexivity|exact IH].
Qed.

Lemma get_scheduled_action_by_id_served id w :
  db_faults w 0%nat = false ->
  fst (get_scheduled_action_by_id id w)
  = Ok (match first_by_id id (table w) with
        | Some r => match model_validate r with Ok m => Some m | Raise _ => None end
        | None => None
        end).
Proof.
  intros Hf. unfold get_scheduled_action_by_id. monad_unfold. rewrite get_db_run, Hf.
  change (table (next_db_fault w)) with (table w).
  destruct (first_by_id id (table w)) as [r|]; [|reflexivity].
  destruct (model_validate r); reflexivity.
Qed.

(** X1. Insert and lookup. When the session is served and the new id is
    not in the table, [insert_new_scheduled_action] returns the action the
    form describes, with both run times null and both time stamps the
    current time; it appends the one row, so that a lookup of another id
    finds what it found before, and a lookup of the new id, when served,
    returns the very action the insert returned: the configurations decode
    to the dictionaries of the form. *)
Theorem insert_then_lookup uuid user form w :
  db_faults w 0%nat = false ->
  first_by_id uuid (table w) = None ->
  let w' := snd (insert_new_scheduled_action uuid user form w) in
  fst (insert_new_scheduled_action uuid user form w)
  = Ok (Some (model_of_form uuid user form (clock w))) /\
  table w' = table w ++ [new_scheduled_action uuid user form (clock w)] /\
  (db_faults w 1%nat = false ->
   fst (get_scheduled_action_by_id uuid w')
   = Ok (Some (model_of_form uuid user form (clock w)))) /\
  (forall id', id' <> uuid -> first_by_id id' (table w') = first_by_id id' (table w)).
Proof.
  intros Hf Hfresh w'. subst w'.
  rewrite insert_new_scheduled_action_run, Hf, Hfresh. cbn [fst snd].
  split; [reflexivity|]. split; [reflexivity|]. split.
  - intros Hf1. rewrite get_scheduled_action_by_id_served by exact Hf1.
    cbn [table emit set_table]. rewrite first_by_id_app, Hfresh.
    unfold first_by_id. cbn [List.find]. unfold has_id at 1.
    cbn [row_id new_scheduled_action]. rewrite String.eqb_refl.
    rewrite model_validate_new_scheduled_action. reflexivity.
  - intros id' Hne. cbn [table emit set_table]. rewrite first_by_id_app.
    destruct (first_by_id id' (table w)); [reflexivity|].
    unfold first_by_id. cbn [List.find]. unfold has_id.
    cbn [row_id new_scheduled_action].
    destruct (String.eqb_spec uuid id'); [congruence|reflexivity].
Qed.

Lemma delete_scheduled_action_by_id_run id w :
  delete_scheduled_action_by_id id w
  = if db_faults w 0%nat
    then (Raise (Exn OperationalError "database is unavailable"), next_db_fault w)
    else match first_by_id id (table w) with
         | None => (Ok false, next_db_fault w)
         | Some _ =>
             (Ok true,
              emit (EvCommit (CommitDelete id))
                (set_table (delete_first (has_id id) (table w)) (next_db_fault w)))
         end.
Proof.
  unfold delete_scheduled_action_by_id. monad_unfold. rewrite get_db_run.
  destruct (db_faults w 0%nat); [reflexivity|].
  change (table (next_db_fault w)) with (table w).
  destruct (first_by_id id (table w)); reflexivity.
Qed.

Lemma first_by_id_not_in id (t : list ScheduledAction) :
  id ∉ map row_id t -> first_by_id id t = None.
Proof.
  unfold first_by_id. induction t as [|r t IH]; [reflexivity|].
  cbn [map List.find]. intros H. apply not_elem_of_cons in H as [H1 H2].
  unfold has_id at 1. destruct (String.eqb_spec (row_id r) id); [congruence|].
  apply IH. exact H2.
Qed.

Lemma first_by_id_in id (t : list ScheduledAction) :
  first_by_id id t = None -> id ∉ map row_id t.
Proof.
  unfold first_by_id. induction t as [|r t IH]; cbn [map List.find].
  - intros _ H. inversion H.
  - unfold has_id at 1. destruct (String.eqb_spec (row_id r) id) as [E|E];
      [discriminate|].
    intros H. apply not_elem_of_cons. split; [congruence|]. apply IH. exact H.
Qed.

Lemma first_by_id_delete_first id (t : list ScheduledAction) :
  NoDup (map row_id t) -> first_by_id id (delete_first (has_id id) t) = None.
Proof.
  induction t as [|r t IH]; [reflexivity|].
  cbn [map delete_first]. intros H. apply NoDup_cons in H as [H1 H2].
  destruct (has_id id r) eqn:E.
  - apply first_by_id_not_in. apply has_id_true in E. rewrite <- E. exact H1.
  - unfold first_by_id. cbn [List.find]. rewrite E. apply IH. exact H2.
Qed.

Lemma first_by_id_delete_first_ne id id' (t : list ScheduledAction) :
  id' <> id -> first_by_id id' (delete_first (has_id id) t) = first_by_id id' t.
Proof.
  intros Hne. unfold first_by_id. induction t as [|r t IH]; [reflexivity|].
  cbn [delete_first List.find]. destruct (has_id id r) eqn:E.
  - apply has_id_true in E.
    destruct (has_id id' r) eqn:E'; [|reflexivity].
    apply has_id_true in E'. congruence.
  - cbn [List.find]. destruct (has_id id' r); [reflexivity|exact IH].
Qed.

Lemma length_delete_first id (t : list ScheduledAction) r :
  first_by_id id t = Some r -> S (length (delete_first (has_id id) t)) = length t.
Proof.
  unfold first_by_id. induction t as [|r0 t IH]; [discriminate|].
  cbn [List.find delete_first]. destruct (has_id id r0); [reflexivity|].
  intros H. cbn [length]. rewrite (IH H). reflexivity.
Qed.

(** X3. Delete by id, on a served session and a table with unique ids. For
    an id the table does not hold the operation returns [False] and writes
    nothing. For an id it holds the operation returns [True], the table
    has one row less and no row with that id, so that a lookup of the id
    finds nothing. In both cases the lookup of any other id finds what it
    found before. *)
Theorem delete_removes_the_action id w :
  db_faults w 0%nat = false ->
  unique_ids (table w) ->
  let w' := snd (delete_scheduled_action_by_id id w) in
  (first_by_id id (table w) = None ->
   fst (delete_scheduled_action_by_id id w) = Ok false /\
   table w' = table w /\ trace w' = trace w) /\
  (forall r, first_by_id id (table w) = Some r ->
   fst (delete_scheduled_action_by_id id w) = Ok true /\
   S (length (table w')) = length (table w) /\
   (id ∉ map row_id (table w')) /\
   first_by_id id (table w') = None /\
   trace w' = trace w ++ [EvCommit (CommitDelete id)]) /\
  (forall id', id' <> id -> first_by_id id' (table w') = first_by_id id' (table w)).
Proof.
  intros Hf Hu w'. subst w'. rewrite delete_scheduled_action_by_id_run, Hf.
  split; [|split].
  - intros Hn. rewrite Hn. cbn [fst snd]. auto.
  - intros r Hr. rewrite Hr. cbn [fst snd table trace emit set_table next_db_fault].
    split; [reflexivity|]. split; [apply (length_delete_first id _ r Hr)|].
    split; [|split; [|reflexivity]].
    + apply first_by_id_in. apply first_by_id_delete_first. exact Hu.
    + apply first_by_id_delete_first. exact Hu.
  - intros id' Hne. destruct (first_by_id id (table w)); cbn [snd]; [|reflexivity].
    cbn [table emit set_table]. apply first_by_id_delete_first_ne. exact Hne.
Qed.

Lemma get_scheduled_actions_by_user_id_run user w :
  get_scheduled_actions_by_user_id user w
  = (if db_faults w 0%nat
     then Raise (Exn OperationalError "database is unavailable")
     else map_result model_validate (List.filter (has_user_id user) (table w)),
     next_db_fault w).
Proof.
  unfold get_scheduled_actions_by_user_id. monad_unfold. rewrite get_db_run.
  destruct (db_faults w 0%nat); [reflexivity|].
  change (table (next_db_fault w)) with (table w).
  destruct (map_result model_validate _); reflexivity.
Qed.

Lemma get_scheduled_actions_run w :
  get_scheduled_actions w
  = (if db_faults w 0%nat
     then Raise (Exn OperationalError "database is unavailable")
     else map_result model_validate (table w),
     next_db_fault w).
Proof.
  unfold get_scheduled_actions. monad_unfold. rewrite get_db_run.
  destruct (db_faults w 0%nat); [reflexivity|].
  change (table (next_db_fault w)) with (table w).
  destruct (map_result model_validate _); reflexivity.
Qed.

Lemma delete_scheduled_actions_by_user_id_run user w :
  delete_scheduled_actions_by_user_id user w
  = if db_faults w 0%nat
    then (Raise (Exn OperationalError "database is unavailable"), next_db_fault w)
    else (Ok true,
          emits (map (fun r => EvCommit (CommitDelete (row_id r)))
                   (List.filter (has_user_id user) (table w)))
            (set_table (List.filter (fun r => negb (has_user_id user r)) (table w))
               (next_db_fault w))).
Proof.
  unfold delete_scheduled_actions_by_user_id. monad_unfold. rewrite get_db_run.
  destruct (db_faults w 0%nat); [reflexivity|].
  change (table (next_db_fault w)) with (table w).
  generalize (set_table (List.filter (fun r => negb (has_user_id user r)) (table w))
                (next_db_fault w)).
  induction (List.filter (has_user_id user) (table w)) as [|r rows IH]; intros w0;
    [reflexivity|].
  cbn [for_each map]. monad_unfold.
  change (emits (EvCommit (CommitDelete (row_id r)) :: map _ rows) w0)
    with (emits (map (fun r => EvCommit (CommitDelete (row_id r))) rows)
            (emit (EvCommit (CommitDelete (row_id r))) w0)).
  rewrite <- IH.
  destruct (for_each rows _ (emit (EvCommit (CommitDelete (row_id r))) w0)) as [[[]|e] w1];
    reflexivity.
Qed.

Lemma filter_filter_neg {A} (p q : A -> bool) (l : list A) :
  (forall x, p x = true -> q x = false) ->
  List.filter p (List.filter q l) = [].
Proof.
  intros H. induction l as [|x l IH]; [reflexivity|].
  cbn [List.filter]. destruct (q x) eqn:Eq; [|exact IH].
  cbn [List.filter]. destruct (p x) eqn:Ep; [|exact IH].
  rewrite (H x Ep) in Eq. discriminate.
Qed.

Lemma filter_filter_keep {A} (p q : A -> bool) (l : list A) :
  (forall x, p x = true -> q x = true) ->
  List.filter p (List.filter q l) = List.filter p l.
Proof.
  intros H. induction l as [|x l IH]; [reflexivity|].
  cbn [List.filter]. destruct (q x) eqn:Eq.
  - cbn [List.filter]. destruct (p x); [rewrite IH|]; auto.
  - destruct (p x) eqn:Ep; [|exact IH]. rewrite (H x Ep) in Eq. discriminate.
Qed.

(** X4. The bulk delete of a user's actions, on a served session. It
    returns [True] whether or not the user had actions. The table keeps
    exactly the rows of the other users, in their order: none of the user's
    rows is left, each other user's rows are the ones they were, and a
    listing of the user's actions right after it, when served, is empty. *)
Theorem bulk_delete_removes_the_users_actions user w :
  db_faults w 0%nat = false ->
  let w' := snd (delete_scheduled_actions_by_user_id user w) in
  fst (delete_scheduled_actions_by_user_id user w) = Ok true /\
  (forall r, r ∈ table w' -> row_user_id r <> user /\ r ∈ table w) /\
  (forall other, other <> user ->
     List.filter (has_user_id other) (table w')
     = List.filter (has_user_id other) (table w)) /\
  (db_faults w 1%nat = false ->
   fst (get_scheduled_actions_by_user_id user w') = Ok []).
Proof.
  intros Hf w'. subst w'. rewrite delete_scheduled_actions_by_user_id_run, Hf.
  cbn [fst snd].
  set (evs := map (fun r => EvCommit (CommitDelete (row_id r)))
                (List.filter (has_user_id user) (table w))).
  set (w1 := set_table (List.filter (fun r => negb (has_user_id user r)) (table w))
               (next_db_fault w)).
  destruct (emits_app evs w1) as (Ht & _ & _ & Hd & _).
  rewrite Ht. cbn [table w1 set_table].
  split; [reflexivity|]. split; [|split].
  - intros r Hr. apply list_elem_of_In, filter_In in Hr as [Hin Hneg].
    split; [|apply list_elem_of_In; exact Hin].
    intros E. unfold has_user_id in Hneg. rewrite E, String.eqb_refl in Hneg.
    discriminate.
  - intros other Hne. apply filter_filter_keep. intros x Hx.
    unfold has_user_id in *. apply String.eqb_eq in Hx.
    destruct (String.eqb_spec (row_user_id x) user); [congruence|reflexivity].
  - intros Hf1. rewrite get_scheduled_actions_by_user_id_run. cbn [fst].
    rewrite Hd, Ht. cbn [db_faults w1 set_table next_db_fault table]. rewrite Hf1.
    rewrite filter_filter_neg; [reflexivity|].
    intros x Hx. rewrite Hx. reflexivity.
Qed.

Lemma map_result_filter {A C} (f : A -> result C) (p : A -> bool) (q : C -> bool)
    (l : list A) (l' : list C) :
  (forall x y, f x = Ok y -> q y = p x) ->
  map_result f l = Ok l' ->
  map_result f (List.filter p l) = Ok (List.filter q l').
Proof.
  intros Hpq. revert l'. induction l as [|x l IH]; intros l' H.
  - cbn in H. injection H as <-. reflexivity.
  - cbn [map_result] in H. destruct (f x) as [y|e] eqn:Ex; [|discriminate].
    destruct (map_result f l) as [ys|e] eqn:El; [|discriminate].
    injection H as <-. cbn [List.filter]. rewrite (Hpq x y Ex).
    destruct (p x).
    + cbn [map_result]. rewrite Ex, (IH ys eq_refl). reflexivity.
    + apply IH. reflexivity.
Qed.

Lemma model_validate_user_id r m : model_validate r = Ok m -> user_id m = row_user_id r.
Proof.
  unfold model_validate. destruct (json_loads (row_action_config r)); [|discriminate].
  destruct (json_loads (row_schedule_config r)); [|discriminate].
  intros H. injection H as <-. reflexivity.
Qed.

(** X5. The listing of one user's actions is the listing of all actions
    restricted to that user: whenever [get_scheduled_actions] returns, the
    listing by user id returns, in the same order, those of its actions
    whose [user_id] is the user. *)
Theorem listing_by_user_filters_the_listing user w l :
  fst (get_scheduled_actions w) = Ok l ->
  fst (get_scheduled_actions_by_user_id user w)
  = Ok (List.filter (fun a => String.eqb (user_id a) user) l) /\
  snd (get_scheduled_actions_by_user_id user w) = snd (get_scheduled_actions w).
Proof.
  rewrite get_scheduled_actions_run, get_scheduled_actions_by_user_id_run. cbn [fst snd].
  destruct (db_faults w 0%nat); [discriminate|]. intros H. split; [|reflexivity].
  apply map_result_filter; [|exact H].
  intros r m Hm. unfold has_user_id. rewrite (model_validate_user_id r m Hm). reflexivity.
Qed.

Lemma model_validate_apply_update form now r m :
  model_validate r = Ok m ->
  nulls_a_config form = false ->
  model_validate (apply_update form now r) = Ok (updated_model form now m).
Proof.
  unfold model_validate, nulls_a_config.
  cbn [row_action_config row_schedule_config apply_update].
  destruct (json_loads (row_action_config r)) as [ac|] eqn:Ea; [|discriminate].
  destruct (json_loads (row_schedule_config r)) as [sc|] eqn:Es; [|discriminate].
  intros H. injection H as <-.
  destruct form as [n d a st s e]; cbn.
  intros Hnull. apply orb_false_iff in Hnull as [Hna Hns].
  assert (Ha : json_loads (set_config (row_action_config r) a) = Some (set_column ac a)).
  { destruct a as [[d0|]|]; [apply json_loads_dumps|discriminate|exact Ea]. }
  assert (Hs : json_loads (set_config (row_schedule_config r) s) = Some (set_column sc s)).
  { destruct s as [[d0|]|]; [apply json_loads_dumps|discriminate|exact Es]. }
  rewrite Ha, Hs. reflexivity.
Qed.

Lemma model_validate_null_config form now r m :
  model_validate r = Ok m ->
  nulls_a_config form = true ->
  exists e, model_validate (apply_update form now r) = Raise e.
Proof.
  unfold model_validate, nulls_a_config.
  cbn [row_action_config row_schedule_config apply_update].
  destruct (json_loads (row_action_config r)) as [ac|] eqn:Ea; [|discriminate].
  destruct (json_loads (row_schedule_config r)) as [sc|] eqn:Es; [|discriminate].
  intros _. destruct form as [n d a st s e]; cbn.
  intros Hnull.
  destruct a as [[d0|]|]; cbn [set_config].
  - rewrite json_loads_dumps. destruct s as [[d1|]|]; try discriminate.
    cbn [set_config]. rewrite json_loads_None. eexists. reflexivity.
  - rewrite json_loads_None. eexists. reflexivity.
  - rewrite Ea. destruct s as [[d1|]|]; try discriminate.
    cbn [set_config]. rewrite json_loads_None. eexists. reflexivity.
Qed.

Lemma get_scheduled_action_by_id_undecodable id w r e :
  first_by_id id (table w) = Some r ->
  model_validate r = Raise e ->
  fst (get_scheduled_action_by_id id w) = Ok None.
Proof.
  intros Hr He. unfold get_scheduled_action_by_id, get_db. monad_unfold.
  destruct (db_faults w 0%nat); [reflexivity|].
  cbn [table next_db_fault]. rewrite Hr, He. reflexivity.
Qed.

(** X6. Update and lookup, on a served session and for a row that decodes.
    With a form that sets no field to null but the description,
    [update_scheduled_action_by_id] returns the action with exactly the
    fields the form sets replaced and [updated_at] set to the current time;
    id, owner, action type, run times and creation time stay, and a lookup
    right after it, when served, returns that same action. A form that sets
    [name], [schedule_type] or [enabled] to null raises at the commit and
    leaves table and trace as they were. A form that sets a configuration
    to null raises after the commit: the row is stored and no longer
    decodes, so that a lookup of the action finds nothing from then on. In
    every case the lookup of any other id finds what it found before. *)
Theorem update_then_lookup id form w r m :
  db_faults w 0%nat = false ->
  first_by_id id (table w) = Some r ->
  model_validate r = Ok m ->
  let w' := snd (update_scheduled_action_by_id id form w) in
  (null_violation form = None -> nulls_a_config form = false ->
   fst (update_scheduled_action_by_id id form w)
   = Ok (Some (updated_model form (clock w) m)) /\
   (db_faults w 1%nat = false ->
    fst (get_scheduled_action_by_id id w')
    = Ok (Some (updated_model form (clock w) m)))) /\
  (forall column, null_violation form = Some column ->
   fst (update_scheduled_action_by_id id form w)
   = Raise (Exn IntegrityError
              ("NOT NULL constraint failed: scheduled_action." +:+ column)) /\
   table w' = table w /\ trace w' = trace w) /\
  (null_violation form = None -> nulls_a_config form = true ->
   (exists e, fst (update_scheduled_action_by_id id form w) = Raise e) /\
   (exists r' e, first_by_id id (table w') = Some r' /\ model_validate r' = Raise e) /\
   fst (get_scheduled_action_by_id id w') = Ok None) /\
  (forall id', id' <> id -> first_by_id id' (table w') = first_by_id id' (table w)).
Proof.
  intros Hf Hr Hm w'. subst w'. rewrite update_scheduled_action_by_id_run, Hf, Hr.
  split; [|split; [|split]].
  - intros Hv Hn. rewrite Hv.
    rewrite (model_validate_apply_update form (clock w) r m Hm Hn). cbn [fst snd].
    split; [reflexivity|].
    intros Hf1. rewrite get_scheduled_action_by_id_served by exact Hf1.
    cbn [table emit set_table].
    rewrite first_by_id_update_first by reflexivity. rewrite Hr.
    cbn [fmap option_fmap option_map].
    rewrite (model_validate_apply_update form (clock w) r m Hm Hn). reflexivity.
  - intros column Hv. rewrite Hv. cbn [fst snd]. repeat split.
  - intros Hv Hn. rewrite Hv.
    destruct (model_validate_null_config form (clock w) r m Hm Hn) as [e He].
    rewrite He. cbn [fst snd].
    assert (Hrow : first_by_id id
                     (table (emit (EvCommit (CommitUpdate id form))
                               (set_table
                                  (update_first (has_id id) (apply_update form (clock w))
                                     (table w))
                                  (next_db_fault w))))
                   = Some (apply_update form (clock w) r)).
    { cbn [table emit set_table].
      rewrite first_by_id_update_first by reflexivity. rewrite Hr. reflexivity. }
    split; [exists e; reflexivity|].
    split; [exists (apply_update form (clock w) r), e; split; [exact Hrow|exact He]|].
    exact (get_scheduled_action_by_id_undecodable _ _ _ _ Hrow He).
  - intros id' Hne. destruct (null_violation form); [reflexivity|].
    cbn [snd table emit set_table].
    apply first_by_id_update_first_ne; [reflexivity|exact Hne].
Qed.

(** ** The router: what an endpoint computes *)

Lemma get_scheduled_action_by_id_eq id w :
  get_scheduled_action_by_id id w
  = (Ok match fst (get_scheduled_action_by_id id w) with
        | Ok o => o
        | Raise _ => None
        end, next_db_fault w).
Proof.
  destruct (get_scheduled_action_by_id_run id w) as [o Ho]. rewrite Ho. reflexivity.
Qed.

(** The guard that the endpoints on one action share: the lookup, the
    answer 404 for an action that is not found, the answer 403 for a user
    who is neither the owner nor an administrator, and the answer 500 for an
    exception of the guarded suite. *)
Lemma guarded_run {A} (body : ScheduledActionModel -> M (http A)) what id user w :
  try_except
    (bind (get_scheduled_action_by_id id) (fun found =>
       match found with
       | None => ret (HTTPException 404 "Scheduled action not found")
       | Some action =>
           if Router.access_denied action user
           then ret (HTTPException 403 "Access denied")
           else body action
       end))
    (Router.internal_error what) w
  = match fst (get_scheduled_action_by_id id w) with
    | Ok (Some action) =>
        if Router.access_denied action user
        then (Ok (HTTPException 403 "Access denied"), next_db_fault w)
        else match body action (next_db_fault w) with
             | (Ok r, w1) => (Ok r, w1)
             | (Raise e, w1) =>
                 (Ok (HTTPException 500 (exn_msg e)),
                  emit (EvLog ERROR ("Error " +:+ what +:+ " scheduled action: "
                                     +:+ exn_msg e)) w1)
             end
    | _ => (Ok (HTTPException 404 "Scheduled action not found"), next_db_fault w)
    end.
Proof.
  unfold try_except, bind at 1. rewrite (get_scheduled_action_by_id_eq id w).
  cbn [fst]. destruct (fst (get_scheduled_action_by_id id w)) as [[action|]|e];
    try reflexivity.
  destruct (Router.access_denied action user); [reflexivity|].
  destruct (body action (next_db_fault w)) as [[r|e] w1]; reflexivity.
Qed.

Lemma reload_if_present_run hs w :
  Router.reload_if_present hs w = (Ok tt, snd (Router.reload_if_present hs w)).
Proof.
  destruct hs; [|reflexivity]. cbn [Router.reload_if_present].
  destruct (total_run reload_jobs w total_reload_jobs) as [[] H]. exact H.
Qed.

Lemma update_scheduled_action_run hs id form user w :
  Router.update_scheduled_action hs id form user w
  = match fst (get_scheduled_action_by_id id w) with
    | Ok (Some action) =>
        if Router.access_denied action user
        then (Ok (HTTPException 403 "Access denied"), next_db_fault w)
        else match update_scheduled_action_by_id id form (next_db_fault w) with
             | (Ok r, w1) => (Ok (Response r), snd (Router.reload_if_present hs w1))
             | (Raise e, w1) =>
                 (Ok (HTTPException 500 (exn_msg e)),
                  emit (EvLog ERROR ("Error updating scheduled action: " +:+ exn_msg e)) w1)
             end
    | _ => (Ok (HTTPException 404 "Scheduled action not found"), next_db_fault w)
    end.
Proof.
  unfold Router.update_scheduled_action.
  rewrite (guarded_run (fun _ =>
    bind (update_scheduled_action_by_id id form) (fun updated_action =>
      bind (Router.reload_if_present hs) (fun _ => ret (Response updated_action))))).
  destruct (fst (get_scheduled_action_by_id id w)) as [[action|]|e]; try reflexivity.
  destruct (Router.access_denied action user); [reflexivity|].
  unfold bind at 1.
  destruct (update_scheduled_action_by_id id form (next_db_fault w)) as [[r|e] w1];
    [|reflexivity].
  unfold bind, ret. rewrite reload_if_present_run. reflexivity.
Qed.

Lemma toggle_scheduled_action_run hs id b user w :
  Router.toggle_scheduled_action hs id b user w
  = match fst (get_scheduled_action_by_id id w) with
    | Ok (Some action) =>
        if Router.access_denied action user
        then (Ok (HTTPException 403 "Access denied"), next_db_fault w)
        else match update_scheduled_action_by_id id (form_enabled_only b)
                     (next_db_fault w) with
             | (Ok r, w1) => (Ok (Response r), snd (Router.reload_if_present hs w1))
             | (Raise e, w1) =>
                 (Ok (HTTPException 500 (exn_msg e)),
                  emit (EvLog ERROR ("Error toggling scheduled action: " +:+ exn_msg e)) w1)
             end
    | _ => (Ok (HTTPException 404 "Scheduled action not found"), next_db_fault w)
    end.
Proof.
  unfold Router.toggle_scheduled_action.
  rewrite (guarded_run (fun _ =>
    bind (update_scheduled_action_by_id id (form_enabled_only b)) (fun updated_action =>
      bind (Router.reload_if_present hs) (fun _ => ret (Response updated_action))))).
  destruct (fst (get_scheduled_action_by_id id w)) as [[action|]|e]; try reflexivity.
  destruct (Router.access_denied action user); [reflexivity|].
  unfold bind at 1.
  destruct (update_scheduled_action_by_id id (form_enabled_only b) (next_db_fault w))
    as [[r|e] w1]; [|reflexivity].
  unfold bind, ret. rewrite reload_if_present_run. reflexivity.
Qed.

Lemma delete_scheduled_action_run hs id user w :
  Router.delete_scheduled_action hs id user w
  = match fst (get_scheduled_action_by_id id w) with
    | Ok (Some action) =>
        if Router.access_denied action user
        then (Ok (HTTPException 403 "Access denied"), next_db_fault w)
        else match delete_scheduled_action_by_id id (next_db_fault w) with
             | (Ok r, w1) => (Ok (Response r), snd (Router.reload_if_present hs w1))
             | (Raise e, w1) =>
                 (Ok (HTTPException 500 (exn_msg e)),
                  emit (EvLog ERROR ("Error deleting scheduled action: " +:+ exn_msg e)) w1)
             end
    | _ => (Ok (HTTPException 404 "Scheduled action not found"), next_db_fault w)
    end.
Proof.
  unfold Router.delete_scheduled_action.
  rewrite (guarded_run (fun _ =>
    bind (delete_scheduled_action_by_id id) (fun result =>
      bind (Router.reload_if_present hs) (fun _ => ret (Response result))))).
  destruct (fst (get_scheduled_action_by_id id w)) as [[action|]|e]; try reflexivity.
  destruct (Router.access_denied action user); [reflexivity|].
  unfold bind at 1.
  destruct (delete_scheduled_action_by_id id (next_db_fault w)) as [[r|e] w1];
    [|reflexivity].
  unfold bind, ret. rewrite reload_if_present_run. reflexivity.
Qed.

Lemma test_scheduled_action_run hs id user w :
  Router.test_scheduled_action hs id user w
  = match fst (get_scheduled_action_by_id id w) with
    | Ok (Some action) =>
        if Router.access_denied action user
        then (Ok (HTTPException 403 "Access denied"), next_db_fault w)
        else if hs then
          match fst (execute_action action (next_db_fault w)) with
          | Ok result =>
              (Ok (Response {| response_status := "success"; response_result := result |}),
               snd (execute_action action (next_db_fault w)))
          | Raise e =>
              (Ok (HTTPException 500 (exn_msg e)),
               emit (EvLog ERROR ("Error testing scheduled action: " +:+ exn_msg e))
                 (snd (execute_action action (next_db_fault w))))
          end
        else (Ok (HTTPException 503 "Scheduler service not available"), next_db_fault w)
    | _ => (Ok (HTTPException 404 "Scheduled action not found"), next_db_fault w)
    end.
Proof.
  unfold Router.test_scheduled_action.
  rewrite (guarded_run (fun action =>
    if hs then
      bind (execute_action action) (fun result =>
        ret (Response {| response_status := "success"; response_result := result |}))
    else ret (HTTPException 503 "Scheduler service not available"))).
  destruct (fst (get_scheduled_action_by_id id w)) as [[action|]|e]; try reflexivity.
  destruct (Router.access_denied action user); [reflexivity|].
  destruct hs; [|reflexivity].
  unfold bind, ret.
  destruct (execute_action action (next_db_fault w)) as [[r|e] w1]; reflexivity.
Qed.

Lemma get_scheduled_action_by_id_endpoint_run id user w :
  Router.get_scheduled_action_by_id id user w
  = (Ok match fst (get_scheduled_action_by_id id w) with
        | Ok (Some action) =>
            if Router.access_denied action user
            then HTTPException 403 "Access denied"
            else Response action
        | _ => HTTPException 404 "Scheduled action not found"
        end, next_db_fault w).
Proof.
  unfold Router.get_scheduled_action_by_id, bind.
  rewrite (get_scheduled_action_by_id_eq id w). cbn [fst].
  destruct (fst (get_scheduled_action_by_id id w)) as [[action|]|e]; try reflexivity.
  destruct (Router.access_denied action user); reflexivity.
Qed.

Lemma create_scheduled_action_run hs uuid form user w :
  Router.create_scheduled_action hs uuid form user w
  = if negb (str_in (form_action_type form) valid_action_types) then
      (Ok (HTTPException 400
             "Invalid action_type. Must be one of: web_search, chat_completion, notification"),
       w)
    else if negb (str_in (form_schedule_type form) valid_schedule_types) then
      (Ok (HTTPException 400
             "Invalid schedule_type. Must be one of: cron, interval, once"), w)
    else match insert_new_scheduled_action uuid (user_model_id user) form w with
         | (Ok a, w1) => (Ok (Response a), snd (Router.reload_if_present hs w1))
         | (Raise e, w1) =>
             (Ok (HTTPException 500 (exn_msg e)),
              emit (EvLog ERROR ("Error creating scheduled action: " +:+ exn_msg e)) w1)
         end.
Proof.
  unfold Router.create_scheduled_action, try_except.
  destruct (negb (str_in (form_action_type form) valid_action_types)); [reflexivity|].
  destruct (negb (str_in (form_schedule_type form) valid_schedule_types)); [reflexivity|].
  unfold bind at 1.
  destruct (insert_new_scheduled_action uuid (user_model_id user) form w) as [[a|e] w1];
    [|reflexivity].
  unfold bind, ret. rewrite reload_if_present_run. reflexivity.
Qed.

(** ** Invariants over requests and engine steps *)

(** What every request and every step of the engine respects, given what
    the elementary changes, the timer subsystem and the start and stop of
    the service do. *)
Section Happenings.
Context (R : relation World) `{!PreOrder R}.
Context (R_emit : forall e w, R w (emit e w)).
Context (R_fault : forall w, R w (next_db_fault w)).
Context (R_outcome : forall w, R w (next_executor_outcome w)).
Context (R_clock : forall t w, R w (set_clock t w)).
Context (R_run_times : forall id last next now w,
  R w (set_table (update_first (has_id id) (apply_run_times last next now) (table w)) w)).
Context (R_update : forall id form now w,
  R w (set_table (update_first (has_id id) (apply_update form now) (table w)) w)).
Context (R_delete : forall id w,
  R w (set_table (delete_first (has_id id) (table w)) w)).
Context (R_insert : forall uuid user form w,
  first_by_id uuid (table w) = None ->
  str_in (form_action_type form) valid_action_types = true ->
  str_in (form_schedule_type form) valid_schedule_types = true ->
  R w (set_table (table w ++ [new_scheduled_action uuid user form (clock w)]) w)).
Context (R_add_job : forall t arg jid jname b grace,
  respects R (add_job t arg jid jname b grace)).
Context (R_remove_all_jobs : respects R remove_all_jobs).
Context (R_remove_job : forall jid, respects R (remove_job jid)).
Context (R_reschedule : forall jid, respects R (reschedule jid)).
Context (R_schedule_action : forall action, respects R (_schedule_action action)).
Context (R_reload_jobs : respects R reload_jobs).
Context (R_start : respects R start).
Context (R_stop : respects R stop).

Lemma happening_reload_if_present hs : respects R (Router.reload_if_present hs).
Proof. destruct hs; [apply R_reload_jobs|]. intros w. reflexivity. Qed.

Lemma happening_create hs uuid form user :
  respects R (Router.create_scheduled_action hs uuid form user).
Proof.
  intros w. rewrite create_scheduled_action_run.
  destruct (str_in (form_action_type form) valid_action_types) eqn:Ha;
    cbn [negb]; [|reflexivity].
  destruct (str_in (form_schedule_type form) valid_schedule_types) eqn:Hs;
    cbn [negb]; [|reflexivity].
  rewrite insert_new_scheduled_action_run.
  destruct (db_faults w 0%nat).
  { cbn [snd]. transitivity (next_db_fault w); [apply R_fault|apply R_emit]. }
  destruct (first_by_id uuid (table w)) eqn:Hfresh.
  { cbn [snd]. transitivity (next_db_fault w); [apply R_fault|apply R_emit]. }
  cbn [snd].
  etransitivity; [|apply happening_reload_if_present].
  transitivity (next_db_fault w); [apply R_fault|].
  etransitivity; [|apply R_emit].
  apply (R_insert uuid (user_model_id user) form (next_db_fault w)); assumption.
Qed.

Lemma happening_update hs id form user :
  respects R (Router.update_scheduled_action hs id form user).
Proof.
  intros w. rewrite update_scheduled_action_run.
  destruct (fst (get_scheduled_action_by_id id w)) as [[action|]|e];
    cbn [snd]; try apply R_fault.
  destruct (Router.access_denied action user); cbn [snd]; [apply R_fault|].
  transitivity (next_db_fault w); [apply R_fault|].
  assert (H : R (next_db_fault w)
                 (snd (update_scheduled_action_by_id id form (next_db_fault w))))
    by (apply (frame_update_scheduled_action_by_id R); auto).
  destruct (update_scheduled_action_by_id id form (next_db_fault w)) as [[r|e] w1];
    cbn [snd] in *.
  - etransitivity; [exact H|apply happening_reload_if_present].
  - etransitivity; [exact H|apply R_emit].
Qed.

Lemma happening_toggle hs id b user :
  respects R (Router.toggle_scheduled_action hs id b user).
Proof.
  intros w. rewrite toggle_scheduled_action_run.
  destruct (fst (get_scheduled_action_by_id id w)) as [[action|]|e];
    cbn [snd]; try apply R_fault.
  destruct (Router.access_denied action user); cbn [snd]; [apply R_fault|].
  transitivity (next_db_fault w); [apply R_fault|].
  assert (H : R (next_db_fault w)
                 (snd (update_scheduled_action_by_id id (form_enabled_only b)
                         (next_db_fault w))))
    by (apply (frame_update_scheduled_action_by_id R); auto).
  destruct (update_scheduled_action_by_id id (form_enabled_only b) (next_db_fault w))
    as [[r|e] w1]; cbn [snd] in *.
  - etransitivity; [exact H|apply happening_reload_if_present].
  - etransitivity; [exact H|apply R_emit].
Qed.

Lemma happening_delete hs id user :
  respects R (Router.delete_scheduled_action hs id user).
Proof.
  intros w. rewrite delete_scheduled_action_run.
  destruct (fst (get_scheduled_action_by_id id w)) as [[action|]|e];
    cbn [snd]; try apply R_fault.
  destruct (Router.access_denied action user); cbn [snd]; [apply R_fault|].
  transitivity (next_db_fault w); [apply R_fault|].
  assert (H : R (next_db_fault w)
                 (snd (delete_scheduled_action_by_id id (next_db_fault w))))
    by (apply (frame_delete_scheduled_action_by_id R); auto).
  destruct (delete_scheduled_action_by_id id (next_db_fault w)) as [[r|e] w1];
    cbn [snd] in *.
  - etransitivity; [exact H|apply happening_reload_if_present].
  - etransitivity; [exact H|apply R_emit].
Qed.

Lemma happening_execute_action action : respects R (execute_action action).
Proof.
  apply (frame_execute_action R); auto; intros; apply R_update.
Qed.

Lemma happening_execute_action_wrapper id : respects R (_execute_action_wrapper id).
Proof.
  apply (frame_execute_action_wrapper R); auto; intros; apply R_update.
Qed.

Lemma happening_serve hs user q w : R w (serve hs user q w).
Proof.
  destruct q; cbn [serve].
  - apply happening_create.
  - apply happening_update.
  - apply happening_toggle.
  - apply happening_delete.
  - apply (frame_test_scheduled_action R); auto; intros; apply R_update.
  - apply (frame_get_scheduled_action_by_id_endpoint R); auto.
  - apply (frame_get_scheduled_actions_by_user_id R); auto.
  - apply (frame_get_scheduled_actions R); auto.
Qed.

Lemma happening_run_op o w : edits o = false -> R w (run_op o w).
Proof.
  intros Ho. destruct o; try discriminate Ho; cbn [run_op].
  - apply R_start.
  - apply R_stop.
  - apply R_reload_jobs.
  - etransitivity; [apply R_reschedule|]. apply happening_execute_action_wrapper.
  - apply happening_execute_action_wrapper.
  - apply R_reschedule.
  - apply R_schedule_action.
  - apply happening_execute_action.
  - apply R_add_job.
  - apply R_remove_job.
  - apply R_remove_all_jobs.
  - apply R_clock.
Qed.

Lemma happening_history hs w :
  Forall (fun h => outside_edit h = false) hs -> R w (history hs w).
Proof.
  intros H. revert w. induction H as [|h hs Hh _ IH]; intros w; [reflexivity|].
  change (history (h :: hs) w) with (history hs (happen h w)).
  etransitivity; [|apply IH].
  destruct h as [has user q|o]; cbn [happen].
  - apply happening_serve.
  - apply happening_run_op. exact Hh.
Qed.

Context (R_edit : forall t w, R w (set_table t w)).

Lemma happening_history_edits hs w : R w (history hs w).
Proof.
  revert w. induction hs as [|h hs IH]; intros w; [reflexivity|].
  change (history (h :: hs) w) with (history hs (happen h w)).
  etransitivity; [|apply IH].
  destruct h as [has user q|o]; cbn [happen].
  - apply happening_serve.
  - destruct (edits o) eqn:Ho; [|apply happening_run_op; exact Ho].
    destruct o; try discriminate Ho. apply R_edit.
Qed.

End Happenings.

(** The case of a relation that every change of the scheduler and of the
    flag of the service respects. *)
Section TableHappenings.
Context (R : relation World) `{!PreOrder R}.
Context (R_emit : forall e w, R w (emit e w)).
Context (R_fault : forall w, R w (next_db_fault w)).
Context (R_outcome : forall w, R w (next_executor_outcome w)).
Context (R_job_map : forall m w, R w (set_job_map m w)).
Context (R_running : forall b w, R w (set_running b w)).
Context (R_scheduler : forall s w, R w (set_scheduler s w)).
Context (R_clock : forall t w, R w (set_clock t w)).
Context (R_run_times : forall id last next now w,
  R w (set_table (update_first (has_id id) (apply_run_times last next now) (table w)) w)).
Context (R_update : forall id form now w,
  R w (set_table (update_first (has_id id) (apply_update form now) (table w)) w)).
Context (R_delete : forall id w,
  R w (set_table (delete_first (has_id id) (table w)) w)).
Context (R_insert : forall uuid user form w,
  first_by_id uuid (table w) = None ->
  str_in (form_action_type form) valid_action_types = true ->
  str_in (form_schedule_type form) valid_schedule_types = true ->
  R w (set_table (table w ++ [new_scheduled_action uuid user form (clock w)]) w)).

Lemma table_history hs w :
  Forall (fun h => outside_edit h = false) hs -> R w (history hs w).
Proof.
  apply (happening_history R); auto.
  - intros. apply frame_add_job; auto.
  - apply frame_remove_all_jobs; auto.
  - intros. apply frame_remove_job; auto.
  - intros. apply frame_reschedule; auto.
  - intros. apply (frame_schedule_action R); auto. intros. apply frame_add_job; auto.
  - apply (frame_reload_jobs R); auto; try (intros; apply frame_add_job; auto).
    apply frame_remove_all_jobs; auto.
  - apply (frame_start R); auto; try (intros; apply frame_add_job; auto);
      first [apply frame_remove_all_jobs | apply frame_scheduler_start]; auto.
  - apply (frame_stop R); auto. apply frame_scheduler_shutdown; auto.
Qed.

End TableHappenings.

(** ** The primary key *)

Lemma delete_first_sublist {A} (p : A -> bool) (l : list A) :
  sublist (delete_first p l) l.
Proof.
  induction l as [|x l IH]; [constructor|].
  cbn [delete_first]. destruct (p x).
  - apply sublist_cons. reflexivity.
  - apply sublist_skip. exact IH.
Qed.

Lemma unique_ids_sublist (t t' : list ScheduledAction) :
  sublist t' t -> unique_ids t -> unique_ids t'.
Proof.
  unfold unique_ids. intros Hs Hu.
  eapply sublist_NoDup; [exact Hu|].
  clear Hu. induction Hs as [|x l1 l2 _ IH|x l1 l2 _ IH]; simpl.
  - apply sublist_nil.
  - apply sublist_skip. exact IH.
  - apply sublist_cons. exact IH.
Qed.

Lemma first_by_id_None id (t : list ScheduledAction) :
  first_by_id id t = None <-> id ∉ map row_id t.
Proof.
  unfold first_by_id. induction t as [|r t IH]; cbn [List.find map].
  - split; [intros _ H; inversion H|reflexivity].
  - unfold has_id at 1. destruct (String.eqb_spec (row_id r) id) as [E|E].
    + split; [discriminate|]. intros H. exfalso. apply H. rewrite E. left.
    + rewrite IH. rewrite not_elem_of_cons. split; [intros H; split; congruence|intros [_ H]; exact H].
Qed.

Lemma unique_ids_insert uuid user form now (t : list ScheduledAction) :
  first_by_id uuid t = None -> unique_ids t ->
  unique_ids (t ++ [new_scheduled_action uuid user form now]).
Proof.
  unfold unique_ids. intros Hf Hu. rewrite map_app. cbn [map].
  apply NoDup_app. split; [exact Hu|]. split; [|apply NoDup_singleton].
  intros x Hx Hx'. apply list_elem_of_singleton in Hx'. subst x.
  apply first_by_id_None in Hf. exact (Hf Hx).
Qed.

Lemma filter_sublist {A} (p : A -> bool) (l : list A) : sublist (List.filter p l) l.
Proof.
  induction l as [|x l IH]; [constructor|].
  cbn [List.filter]. destruct (p x); [apply sublist_skip|apply sublist_cons]; exact IH.
Qed.

(** X2. The primary key. An insert under an id that the table holds raises
    and leaves the table as it was. Over every sequence of requests to the
    router and steps of the engine the ids of the table stay unique, and
    the bulk delete of a user's actions keeps them unique as well. *)
Theorem ids_stay_unique :
  (forall uuid user form w r,
     db_faults w 0%nat = false -> first_by_id uuid (table w) = Some r ->
     insert_new_scheduled_action uuid user form w
     = (Raise (Exn IntegrityError "UNIQUE constraint failed: scheduled_action.id"),
        next_db_fault w)) /\
  (forall hs w,
     Forall (fun h => outside_edit h = false) hs ->
     unique_ids (table w) -> unique_ids (table (history hs w))) /\
  (forall user w,
     unique_ids (table w) ->
     unique_ids (table (snd (delete_scheduled_actions_by_user_id user w)))).
Proof.
  split; [|split].
  - intros uuid user form w r Hf Hr.
    rewrite insert_new_scheduled_action_run, Hf, Hr. reflexivity.
  - intros hs w Hhs.
    apply (table_history (fun w w' => unique_ids (table w) -> unique_ids (table w')));
      try exact Hhs;
      try (intros; match goal with H : unique_ids _ |- _ => exact H end).
    + intros id last next now w0 H. cbn [table set_table]. unfold unique_ids.
      rewrite map_update_first by reflexivity. exact H.
    + intros id form now w0 H. cbn [table set_table]. unfold unique_ids.
      rewrite map_update_first by reflexivity. exact H.
    + intros id w0 H. cbn [table set_table].
      eapply unique_ids_sublist; [apply delete_first_sublist|exact H].
    + intros uuid user form w0 Hfresh _ _ H. cbn [table set_table].
      apply unique_ids_insert; assumption.
  - intros user w H. rewrite delete_scheduled_actions_by_user_id_run.
    destruct (db_faults w 0%nat); [exact H|]. cbn [snd].
    destruct (emits_app (map (fun r => EvCommit (CommitDelete (row_id r)))
                           (List.filter (has_user_id user) (table w)))
                (set_table (List.filter (fun r => negb (has_user_id user r)) (table w))
                   (next_db_fault w))) as (Ht & _).
    rewrite Ht. cbn [table set_table].
    eapply unique_ids_sublist; [apply filter_sublist|exact H].
Qed.

(** ** The service and its scheduler *)

(** The state of the scheduler: the timer subsystem changes it in [start]
    and [shutdown] only. *)
Lemma running_real_add_job job b :
  respects (same (fun w => running (scheduler w))) (_real_add_job job b).
Proof.
  intros w. unfold _real_add_job, same. monad_unfold.
  destruct (existsb _ _); [destruct b|]; reflexivity.
Qed.

Lemma running_add_job t arg jid jname b grace :
  respects (same (fun w => running (scheduler w))) (add_job t arg jid jname b grace).
Proof.
  intros w. unfold same, add_job. cbv zeta. unfold bind at 1, reads at 1.
  destruct (running (scheduler w)) eqn:E.
  - match goal with |- context [_real_add_job ?j b w] =>
      pose proof (running_real_add_job j b w) as H end.
    unfold same in H. cbn beta in H. rewrite H. exact E.
  - monad_unfold. cbn. exact E.
Qed.

Lemma running_remove_all_jobs :
  respects (same (fun w => running (scheduler w))) remove_all_jobs.
Proof.
  intros w. unfold remove_all_jobs, same. monad_unfold. cbn.
  destruct (running (scheduler w)) eqn:E; cbn; congruence.
Qed.

Lemma running_remove_job jid :
  respects (same (fun w => running (scheduler w))) (remove_job jid).
Proof.
  intros w. unfold remove_job, same. monad_unfold.
  destruct (running (scheduler w)) eqn:E; destruct (existsb _ _); cbn; congruence.
Qed.

Lemma running_reschedule jid :
  respects (same (fun w => running (scheduler w))) (reschedule jid).
Proof.
  intros w. unfold reschedule, same. monad_unfold.
  destruct (List.find _ _); [|reflexivity].
  destruct (get_next_fire_time _ _ _); reflexivity.
Qed.

#[local] Instance quiet_while_stopped_preorder : PreOrder quiet_while_stopped.
Proof.
  split.
  - intros w _. repeat split. exists []. rewrite app_nil_r. split; [reflexivity|constructor].
  - intros w1 w2 w3 H12 H23 Hs.
    destruct (H12 Hs) as (Ht & Hr & Hf & Hc & logs1 & Hl1 & HF1).
    assert (Hs2 : running (scheduler w2) = false) by congruence.
    destruct (H23 Hs2) as (Ht' & Hr' & Hf' & Hc' & logs2 & Hl2 & HF2).
    repeat split; try congruence.
    exists (logs1 ++ logs2). split.
    + rewrite Hl2, Hl1, app_assoc. reflexivity.
    + apply Forall_app. split; assumption.
Qed.

Lemma quiet_log lvl msg w : quiet w (emit (EvLog lvl msg) w).
Proof.
  repeat split. exists [EvLog lvl msg]. split; [reflexivity|].
  constructor; [exact I|constructor].
Qed.

Lemma quiet_same w w' :
  table w' = table w -> running (scheduler w') = running (scheduler w) ->
  _running w' = _running w ->
  clock w' = clock w -> trace w' = trace w -> quiet w w'.
Proof.
  intros Ht Hs Hr Hc Htr. repeat split; try congruence.
  exists []. rewrite app_nil_r. split; [exact Htr|constructor].
Qed.

Lemma quiet_emits evs w : Forall is_log evs -> quiet w (emits evs w).
Proof.
  intros H. destruct (emits_app evs w) as (Ht & Hs & Hc & _ & _ & _ & Htr).
  repeat split; try congruence.
  - clear -evs. revert w. induction evs as [|e evs IH]; intros w; [reflexivity|].
    change (emits (e :: evs) w) with (emits evs (emit e w)). rewrite IH. reflexivity.
  - exists evs. split; assumption.
Qed.

(** While the scheduler is stopped, a job that is added is pending and has
    no fire time yet: the scheduling of an action writes no run time. *)
Lemma schedule_action_stopped action :
  respects quiet_while_stopped (_schedule_action action).
Proof.
  intros w Hs.
  destruct (create_trigger_run action w) as (t & evs & Hlogs & H).
  pose proof (quiet_emits evs w Hlogs) as Hq.
  destruct (emits_app evs w) as (_ & Hsch & _ & _ & _ & _ & _).
  unfold _schedule_action, try_except, bind at 1. rewrite (H w eq_refl).
  remember (emits evs w) as w1 eqn:Hw1. clear Hw1 H.
  destruct Hq as (Ht & Hr & Hf & Hc & logs & Hl & HF).
  destruct t as [t|].
  - unfold add_job. cbv zeta. monad_unfold. rewrite Hsch, Hs.
    unfold modify. cbn [fst snd next_run_time].
    repeat split; try assumption.
    eexists (logs ++ [_]). split.
    + cbn [trace emit set_job_map set_scheduler]. rewrite Hl, <- app_assoc. reflexivity.
    + apply Forall_app. split; [exact HF|]. constructor; [exact I|constructor].
  - unfold log, modify. cbn [snd].
    repeat split; try assumption.
    eexists (logs ++ [_]). split.
    + cbn [trace emit]. rewrite Hl, <- app_assoc. reflexivity.
    + apply Forall_app. split; [exact HF|]. constructor; [exact I|constructor].
Qed.

Lemma reload_jobs_stopped : respects quiet_while_stopped reload_jobs.
Proof.
  apply (frame_reload_jobs_from quiet_while_stopped).
  - intros lvl msg w _. apply quiet_log.
  - intros w _. apply quiet_same; reflexivity.
  - intros w _. apply quiet_same; reflexivity.
  - intros w Hs. unfold remove_all_jobs, modify. cbn [snd]. rewrite Hs.
    apply quiet_same; reflexivity.
  - apply schedule_action_stopped.
Qed.

(** The pending jobs are stored one by one: that never fails, and it
    changes the job store only. *)
Lemma store_pending_jobs js w :
  exists stored,
    for_each js (fun j => bind (_real_add_job j true) (fun _ => ret tt)) w
    = (Ok tt, set_scheduler (set_jobs stored (scheduler w)) w).
Proof.
  revert w. induction js as [|j js IH]; intros w.
  - exists (_jobs (scheduler w)). cbn. unfold ret. f_equal.
    destruct w as [? [? ? ?] ? ? ? ? ? ?]. reflexivity.
  - cbn [for_each]. unfold bind at 1, bind at 1.
    assert (exists stored1,
              _real_add_job j true w
              = (Ok (set_next_run_time (get_next_fire_time (trigger j) None (clock w)) j),
                 set_scheduler (set_jobs stored1 (scheduler w)) w)) as [stored1 H1].
    { unfold _real_add_job. monad_unfold.
      destruct (existsb _ _); eexists; reflexivity. }
    rewrite H1. unfold ret at 1.
    destruct (IH (set_scheduler (set_jobs stored1 (scheduler w)) w)) as [stored H2].
    rewrite H2. exists stored. reflexivity.
Qed.

Lemma scheduler_start_stopped w :
  running (scheduler w) = false ->
  exists stored,
    scheduler_start w
    = (Ok tt, set_scheduler {| running := true; _pending_jobs := []; _jobs := stored |} w).
Proof.
  intros Hs. unfold scheduler_start. unfold bind at 1, reads at 1. rewrite Hs.
  unfold bind at 1.
  destruct (store_pending_jobs (_pending_jobs (scheduler w)) w) as [stored H].
  rewrite H. exists stored. reflexivity.
Qed.

Lemma start_stopped w :
  _running w = false ->
  running (scheduler w) = false ->
  let w' := snd (start w) in
  fst (start w) = Ok tt /\
  _running w' = true /\
  running (scheduler w') = true /\
  _pending_jobs (scheduler w') = [] /\
  table w' = table w /\
  exists logs, trace w' = trace w ++ logs /\ Forall is_log logs.
Proof.
  intros Hr Hs w'. subst w'.
  set (w1 := emit (EvLog INFO "Starting scheduler service...") w).
  destruct (total_run reload_jobs w1 total_reload_jobs) as [[] Hreload].
  assert (Hq : quiet w1 (snd (reload_jobs w1))) by (apply reload_jobs_stopped; exact Hs).
  destruct Hq as (Ht & Hrun & Hf & Hc & logs & Hl & HF).
  set (w2 := snd (reload_jobs w1)) in *.
  assert (Hs2 : running (scheduler w2) = false) by (rewrite Hrun; exact Hs).
  destruct (scheduler_start_stopped w2 Hs2) as [stored Hstart].
  assert (Hrun_start :
    start w
    = (Ok tt,
       emit (EvLog INFO "Scheduler service started successfully")
         (set_running true
            (set_scheduler {| running := true; _pending_jobs := []; _jobs := stored |}
               w2)))).
  { unfold start. monad_unfold. rewrite Hr. unfold modify. cbv beta iota.
    fold w1. rewrite Hreload. cbv beta iota. rewrite Hstart. reflexivity. }
  rewrite Hrun_start. cbn [fst snd].
  split; [reflexivity|]. split; [reflexivity|]. split; [reflexivity|].
  split; [reflexivity|]. split; [exact Ht|].
  exists ([EvLog INFO "Starting scheduler service..."] ++ logs
          ++ [EvLog INFO "Scheduler service started successfully"]).
  split.
  - cbn [trace emit set_running set_scheduler]. rewrite Hl. cbn [trace emit w1].
    rewrite <- !app_assoc. reflexivity.
  - apply Forall_app. split; [constructor; [exact I|constructor]|].
    apply Forall_app. split; [exact HF|constructor; [exact I|constructor]].
Qed.

(** X7. The start of a stopped service. Whatever the table holds and
    whether or not the database serves the reload, [start] returns, and
    service and scheduler run afterwards with no job left pending. It writes
    nothing: the jobs of the reload are added while the scheduler is still
    stopped, a pending job has no fire time, and so no [next_run_at] is
    stored at start; the trace gains log records only. *)
Theorem start_of_a_stopped_service w :
  _running w = false ->
  running (scheduler w) = false ->
  let w' := snd (start w) in
  fst (start w) = Ok tt /\
  _running w' = true /\
  running (scheduler w') = true /\
  _pending_jobs (scheduler w') = [] /\
  table w' = table w /\
  exists logs, trace w' = trace w ++ logs /\ Forall is_log logs.
Proof. exact (start_stopped w). Qed.

Lemma stop_running w :
  _running w = true ->
  running (scheduler w) = true ->
  stop w
  = (Ok tt,
     emit (EvLog INFO "Scheduler service stopped")
       (set_job_map ∅
          (set_running false
             (set_scheduler (set_state false (set_jobs [] (scheduler w)))
                (emit (EvLog INFO "Stopping scheduler service...") w))))).
Proof.
  intros Hr Hs. unfold stop, scheduler_shutdown. monad_unfold. rewrite Hr.
  unfold modify. cbn [negb scheduler emit]. rewrite Hs. reflexivity.
Qed.

Lemma consistent_of_frames {A} (m : M A) :
  respects (same _running) m ->
  respects (same (fun w => running (scheduler w))) m ->
  respects (fun w w' => service_consistent w -> service_consistent w') m.
Proof.
  intros H1 H2 w H. unfold service_consistent, same in *.
  rewrite (H1 w), (H2 w). exact H.
Qed.

Lemma running_reload_jobs :
  respects (same (fun w => running (scheduler w))) reload_jobs.
Proof.
  apply (frame_reload_jobs (same (fun w => running (scheduler w)))); try reflexivity.
  - apply running_add_job.
  - apply running_remove_all_jobs.
Qed.

Lemma flag_reload_jobs : respects (same _running) reload_jobs.
Proof.
  apply (frame_reload_jobs (same _running)); try reflexivity.
  - intros. apply frame_add_job; [apply _|reflexivity].
  - apply frame_remove_all_jobs. reflexivity.
Qed.

Lemma consistent_start :
  respects (fun w w' => service_consistent w -> service_consistent w') start.
Proof.
  intros w H. unfold service_consistent in *.
  destruct (_running w) eqn:Hr.
  - unfold start. monad_unfold. rewrite Hr. cbn. congruence.
  - destruct (start_stopped w Hr (eq_sym H)) as (_ & H1 & H2 & _). congruence.
Qed.

Lemma consistent_stop :
  respects (fun w w' => service_consistent w -> service_consistent w') stop.
Proof.
  intros w H. unfold service_consistent in *.
  destruct (_running w) eqn:Hr.
  - rewrite (stop_running w Hr (eq_sym H)). reflexivity.
  - unfold stop. monad_unfold. rewrite Hr. cbn. congruence.
Qed.

(** X8. The flag of the service agrees with the state of its scheduler, in
    every world reached from one where they agree (a new service is one) by
    requests to the router, steps of the engine and edits of the table, in
    any order. In such a world neither [start] nor [stop] raises: the
    scheduler is never started twice and never shut down while stopped. *)
Theorem service_flag_agrees_with_scheduler hs w :
  service_consistent w ->
  service_consistent (history hs w) /\
  fst (start (history hs w)) = Ok tt /\
  fst (stop (history hs w)) = Ok tt.
Proof.
  intros H.
  assert (Hc : service_consistent (history hs w)).
  { revert H.
    apply (happening_history_edits
             (fun w w' => service_consistent w -> service_consistent w'));
      try (intros; match goal with H : service_consistent _ |- _ => exact H end).
    - intros. apply consistent_of_frames.
      + apply frame_add_job; [apply _|reflexivity].
      + apply running_add_job.
    - apply consistent_of_frames;
        [apply frame_remove_all_jobs; reflexivity|apply running_remove_all_jobs].
    - intros. apply consistent_of_frames;
        [apply frame_remove_job; [apply _|reflexivity]|apply running_remove_job].
    - intros. apply consistent_of_frames;
        [apply frame_reschedule; [apply _|reflexivity]|apply running_reschedule].
    - intros. apply consistent_of_frames.
      + apply (frame_schedule_action (same _running)); try reflexivity.
        intros. apply frame_add_job; [apply _|reflexivity].
      + apply (frame_schedule_action (same (fun w => running (scheduler w))));
          try reflexivity.
        apply running_add_job.
    - apply consistent_of_frames; [apply flag_reload_jobs|apply running_reload_jobs].
    - apply consistent_start.
    - apply consistent_stop. }
  split; [exact Hc|]. unfold service_consistent in Hc.
  destruct (_running (history hs w)) eqn:Hr.
  - split.
    + unfold start. monad_unfold. rewrite Hr. reflexivity.
    + rewrite (stop_running _ Hr (eq_sym Hc)). reflexivity.
  - split.
    + apply (start_stopped _ Hr (eq_sym Hc)).
    + unfold stop. monad_unfold. rewrite Hr. reflexivity.
Qed.

(** ** What a reload arms *)

Lemma reload_jobs_run w :
  let w0 := next_db_fault
              (set_job_map ∅
                 (snd (remove_all_jobs (emit (EvLog INFO "Reloading scheduled jobs...") w)))) in
  reload_jobs w
  = (Ok tt,
     if db_faults w 0%nat
     then emit (EvLog ERROR "Error reloading jobs: database is unavailable") w0
     else match map_result model_validate (List.filter row_enabled (table w)) with
          | Raise e => emit (EvLog ERROR ("Error reloading jobs: " +:+ exn_msg e)) w0
          | Ok actions =>
              snd (for_each actions _schedule_action
                     (emit (EvLog INFO ("Found " +:+ pretty (length actions)
                                        +:+ " enabled scheduled actions")) w0))
          end).
Proof.
  intros w0. unfold reload_jobs.
  unfold bind at 1, log at 1, modify at 1.
  unfold bind at 1. unfold remove_all_jobs at 1, modify at 1.
  unfold bind at 1, modify at 1.
  unfold try_except, bind at 1. rewrite get_enabled_scheduled_actions_run.
  cbn [db_faults table set_job_map set_scheduler emit].
  destruct (db_faults w 0%nat); [reflexivity|].
  destruct (map_result model_validate (List.filter row_enabled (table w)))
    as [actions|e]; [|reflexivity].
  unfold bind at 1, log at 1, modify at 1.
  match goal with |- context [for_each actions _schedule_action ?x] =>
    change (emit (EvLog INFO ("Found " +:+ pretty (length actions)
                              +:+ " enabled scheduled actions")) w0) with x;
    destruct (for_each_schedule_spec actions x) as (Fok & _);
    destruct (for_each actions _schedule_action x) as [r w']
  end.
  cbn [fst] in Fok. subst r. reflexivity.
Qed.

Lemma armed_after_remove_all_jobs w :
  armed (scheduler (snd (remove_all_jobs w))) = [].
Proof.
  unfold remove_all_jobs, modify, armed. cbn.
  destruct (running (scheduler w)) eqn:E; cbn; rewrite E; reflexivity.
Qed.

Lemma map_result_elem {A C} (f : A -> result C) (l : list A) (l' : list C) y :
  map_result f l = Ok l' -> y ∈ l' -> exists x, x ∈ l /\ f x = Ok y.
Proof.
  revert l'. induction l as [|x l IH]; intros l' H Hy.
  - cbn in H. injection H as <-. inversion Hy.
  - cbn [map_result] in H. destruct (f x) as [y0|e] eqn:Ex; [|discriminate].
    destruct (map_result f l) as [ys|e]; [|discriminate].
    injection H as <-. apply elem_of_cons in Hy as [->|Hy].
    + exists x. split; [left|exact Ex].
    + destruct (IH ys eq_refl Hy) as (x' & Hx' & Hf). exists x'. split; [right; exact Hx'|exact Hf].
Qed.

Lemma model_validate_name r m : model_validate r = Ok m -> name m = row_name r.
Proof.
  unfold model_validate. destruct (json_loads (row_action_config r)); [|discriminate].
  destruct (json_loads (row_schedule_config r)); [|discriminate].
  intros H. injection H as <-. reflexivity.
Qed.

Lemma armed_after_reload w j :
  j ∈ armed (scheduler (snd (reload_jobs w))) ->
  exists r, r ∈ table w /\ row_enabled r = true /\
            job_id j = job_id_of (row_id r) /\ job_args j = row_id r /\
            job_name j = row_name r /\ misfire_grace_time j = 60.
Proof.
  rewrite reload_jobs_run. cbn [snd].
  set (w00 := snd (remove_all_jobs (emit (EvLog INFO "Reloading scheduled jobs...") w))).
  assert (Hempty : armed (scheduler w00) = []) by apply armed_after_remove_all_jobs.
  destruct (db_faults w 0%nat).
  { cbn [scheduler emit next_db_fault set_job_map]. rewrite Hempty. intros H. inversion H. }
  destruct (map_result model_validate (List.filter row_enabled (table w)))
    as [actions|e] eqn:Hlist.
  2:{ cbn [scheduler emit next_db_fault set_job_map]. rewrite Hempty.
      intros H. inversion H. }
  match goal with |- context [for_each actions _schedule_action ?x] =>
    destruct (for_each_schedule_spec actions x) as (_ & _ & _ & _ & _ & Fsub & _)
  end.
  intros Hj. destruct (Fsub j Hj) as [Hin|(b & t & Hb & _ & ->)].
  - cbn [scheduler emit next_db_fault set_job_map] in Hin. rewrite Hempty in Hin.
    inversion Hin.
  - destruct (map_result_elem _ _ _ b Hlist Hb) as (r & Hr & Hm).
    apply list_elem_of_In, filter_In in Hr as [Hin Hen].
    destruct (model_validate_fields r b Hm) as (Hid & _).
    exists r. split; [apply list_elem_of_In; exact Hin|]. split; [exact Hen|].
    cbn [job_id job_args job_name misfire_grace_time new_job].
    rewrite Hid, (model_validate_name r b Hm). repeat split.
Qed.

(** X9. A reload arms timers for enabled actions only. Every timer that is
    armed after [reload_jobs] (pending while the scheduler is stopped,
    stored while it runs) is the timer of an enabled row of the table: it
    has that row's id, its job id and its name. So an id whose rows are all
    disabled, or that has no row, is left without a timer, whatever was
    armed for it before and whether or not the database served the
    reload. *)
Theorem reload_arms_enabled_actions_only w :
  Forall (fun j =>
            exists r, r ∈ table w /\ row_enabled r = true /\
                      job_id j = job_id_of (row_id r) /\ job_args j = row_id r /\
                      job_name j = row_name r /\ misfire_grace_time j = 60)
         (armed (scheduler (snd (reload_jobs w)))) /\
  (forall id,
     Forall (fun r => row_id r = id -> row_enabled r = false) (table w) ->
     Forall (fun j => job_id j <> job_id_of id)
            (armed (scheduler (snd (reload_jobs w))))).
Proof.
  split.
  - apply Forall_forall. intros j Hj. apply armed_after_reload. exact Hj.
  - intros id Hid. apply Forall_forall. intros j Hj Heq.
    destruct (armed_after_reload w j Hj) as (r & Hr & Hen & Hjid & _).
    rewrite Hjid in Heq. apply job_id_of_inj in Heq.
    rewrite Forall_forall in Hid. rewrite (Hid r Hr Heq) in Hen. discriminate.
Qed.

(** ** The job map *)

Lemma schedule_action_job_map action w :
  job_map (snd (_schedule_action action w))
  = match fst (_create_trigger action w) with
    | Ok (Some _) => <[action_id action := job_id_of (action_id action)]> (job_map w)
    | _ => job_map w
    end.
Proof.
  destruct (create_trigger_run action w) as (tr & evs & Hlogs & H).
  pose proof (H w eq_refl) as Hct.
  destruct (emits_app evs w) as (_ & _ & _ & _ & Em & _ & _).
  unfold _schedule_action, try_except, bind at 1. rewrite Hct. cbn [fst].
  destruct tr as [t|].
  - destruct (add_job_run t (action_id action) (name action) (emits evs w))
      as (w2 & Hadd & _ & _ & _ & _ & Am & _).
    unfold bind at 1. rewrite Hadd. unfold bind at 1, modify at 1.
    match goal with
    | |- context [match ?j with Some _ => _ | None => _ end (set_job_map ?m w2)] =>
        set (tail := match j with Some _ => _ | None => _ end);
        set (w3 := set_job_map m w2)
    end.
    assert (H3 : job_map w3
                 = <[action_id action := job_id_of (action_id action)]> (job_map w)).
    { subst w3. cbn [job_map set_job_map job_id new_job]. rewrite Am, Em. reflexivity. }
    assert (Htail : job_map (snd (tail w3)) = job_map w3).
    { assert (Hr : respects (same job_map) tail); [|exact (Hr w3)].
      subst tail. destruct (next_run_time _).
      - apply respects_bind; [apply _| |intros ?].
        + apply (frame_update_scheduled_action_run_times (same job_map)); reflexivity.
        + apply (frame_log (same job_map)). reflexivity.
      - apply (frame_log (same job_map)). reflexivity. }
    destruct (tail w3) as [[[]|e] w4]; cbn [snd] in *; unfold log, modify; cbn;
      congruence.
  - unfold log, modify. cbn. exact Em.
Qed.

Lemma job_map_named_insert id w m :
  job_map_named w -> m = <[id := job_id_of id]> (job_map w) ->
  forall id' jid, m !! id' = Some jid -> jid = job_id_of id'.
Proof.
  intros Hn -> id' jid H. destruct (decide (id = id')) as [->|Hne].
  - rewrite lookup_insert_eq in H. congruence.
  - rewrite lookup_insert_ne in H by exact Hne. apply (Hn id' jid H).
Qed.

Lemma named_schedule_action action :
  respects (fun w w' => job_map_named w -> job_map_named w') (_schedule_action action).
Proof.
  intros w Hn. unfold job_map_named. rewrite schedule_action_job_map.
  destruct (fst (_create_trigger action w)) as [[t|]|e]; try exact Hn.
  apply (job_map_named_insert (action_id action) w); [exact Hn|reflexivity].
Qed.

Lemma matches_schedule_action action :
  respects (fun w w' => job_map_matches_timers w -> job_map_matches_timers w')
    (_schedule_action action).
Proof.
  intros w Hm id. rewrite schedule_action_job_map.
  destruct (schedule_action_spec action w) as (_ & _ & _ & _ & Hspec).
  destruct (fst (_create_trigger action w)) as [[t|]|e]; [| |contradiction].
  - destruct Hspec as (Hin & Hsub & Hkeep & _).
    set (j := new_job t (action_id action) (name action)
                (if running (scheduler w)
                 then get_next_fire_time t None (clock w) else None)) in *.
    destruct (decide (action_id action = id)) as [<-|Hne].
    + rewrite lookup_insert_eq. split; [|intros _; eexists; reflexivity].
      intros _. exists j. split; [exact Hin|reflexivity].
    + rewrite lookup_insert_ne by exact Hne. rewrite (Hm id). split.
      * intros (k & Hk & Hid). exists k. split; [|exact Hid].
        apply Hkeep; [exact Hk|]. rewrite Hid. intros E.
        apply job_id_of_inj in E. congruence.
      * intros (k & Hk & Hid). destruct (Hsub k Hk) as [Hold| ->].
        -- exists k. split; assumption.
        -- cbn in Hid. apply job_id_of_inj in Hid. congruence.
  - destruct Hspec as (Hs & _). rewrite Hs. apply Hm.
Qed.

(** X12. After a reload the job map and the timer subsystem agree: an
    action has an entry in the job map exactly when a timer with its job id
    is armed, and the entry of an action is its job id [action_<id>]. That
    holds whatever the job map and the timers were before the reload and
    whether or not the database served it. *)
Theorem job_map_after_reload w :
  job_map_named (snd (reload_jobs w)) /\
  job_map_matches_timers (snd (reload_jobs w)).
Proof.
  rewrite reload_jobs_run. cbn [snd].
  set (w00 := snd (remove_all_jobs (emit (EvLog INFO "Reloading scheduled jobs...") w))).
  assert (Hempty : armed (scheduler w00) = []) by apply armed_after_remove_all_jobs.
  assert (Hn0 : forall w1, job_map w1 = ∅ -> job_map_named w1).
  { intros w1 H1 id jid H. rewrite H1, lookup_empty in H. discriminate. }
  assert (Hm0 : forall w1, job_map w1 = ∅ -> armed (scheduler w1) = [] ->
                           job_map_matches_timers w1).
  { intros w1 H1 H2 id. rewrite H1, H2, lookup_empty. split.
    - intros [x Hx]. discriminate.
    - intros (j & Hj & _). inversion Hj. }
  destruct (db_faults w 0%nat).
  { split; [apply Hn0|apply Hm0]; try reflexivity; exact Hempty. }
  destruct (map_result model_validate (List.filter row_enabled (table w)))
    as [actions|e].
  2:{ split; [apply Hn0|apply Hm0]; try reflexivity; exact Hempty. }
  split.
  - apply (respects_for_each (fun w w' => job_map_named w -> job_map_named w')
             actions _schedule_action named_schedule_action).
    apply Hn0. reflexivity.
  - apply (respects_for_each
             (fun w w' => job_map_matches_timers w -> job_map_matches_timers w')
             actions _schedule_action matches_schedule_action).
    apply Hm0; [reflexivity|exact Hempty].
Qed.

(** The job map is written by the scheduling of an action and cleared by
    a reload and a stop. *)
Lemma named_of_same {A} (m : M A) :
  respects (same job_map) m ->
  respects (fun w w' => job_map_named w -> job_map_named w') m.
Proof.
  intros H w Hn. unfold job_map_named. rewrite (H w). exact Hn.
Qed.

Lemma named_history hs w : job_map_named w -> job_map_named (history hs w).
Proof.
  assert (Hclear : forall w0, job_map_named w0 -> job_map_named (set_job_map ∅ w0)).
  { intros w0 _ id jid H. cbn in H. rewrite lookup_empty in H. discriminate. }
  assert (Hreload : respects (fun w w' => job_map_named w -> job_map_named w') reload_jobs).
  { apply (frame_reload_jobs_from (fun w w' => job_map_named w -> job_map_named w'));
      try (intros; match goal with H : job_map_named _ |- _ => exact H end).
    - exact Hclear.
    - apply named_of_same. apply frame_remove_all_jobs. reflexivity.
    - apply named_schedule_action. }
  apply (happening_history_edits (fun w w' => job_map_named w -> job_map_named w'));
    try (intros; match goal with H : job_map_named _ |- _ => exact H end).
  - intros. apply named_of_same. apply frame_add_job; [apply _|reflexivity].
  - apply named_of_same. apply frame_remove_all_jobs. reflexivity.
  - intros. apply named_of_same. apply frame_remove_job; [apply _|reflexivity].
  - intros. apply named_of_same. apply frame_reschedule; [apply _|reflexivity].
  - apply named_schedule_action.
  - exact Hreload.
  - apply (frame_start_from (fun w w' => job_map_named w -> job_map_named w'));
      try (intros; match goal with H : job_map_named _ |- _ => exact H end).
    + exact Hclear.
    + apply named_of_same. apply frame_remove_all_jobs. reflexivity.
    + apply named_schedule_action.
    + apply named_of_same. apply frame_scheduler_start; [apply _|reflexivity].
  - apply (frame_stop_from (fun w w' => job_map_named w -> job_map_named w'));
      try (intros; match goal with H : job_map_named _ |- _ => exact H end).
    + exact Hclear.
    + apply named_of_same. apply frame_scheduler_shutdown; [apply _|reflexivity].
Qed.

Lemma find_has_job_id jid (js : list Job) j :
  List.find (has_job_id jid) js = Some j -> j ∈ js /\ job_id j = jid.
Proof.
  intros H. apply find_some in H as [Hin Hid].
  split; [apply list_elem_of_In; exact Hin|apply has_job_id_true; exact Hid].
Qed.

Section StatusProperties.
Context (isoformat : Z -> string) (trigger_str : Trigger -> string).

(** X13. The status of a timer. In every world reached from one whose job
    map names its timers (a new service is one) by requests, engine steps
    and table edits, [get_job_status] returns without raising and without
    changing anything; it returns nothing for an action that has no entry
    in the job map, and a status it returns for the action [id] carries the
    job id [action_<id>] and name, next fire time and trigger of a job of
    the scheduler that has that id. *)
Theorem job_status_names_the_timer hs w id :
  job_map_named w ->
  let w' := history hs w in
  snd (get_job_status isoformat trigger_str id w') = w' /\
  (job_map w' !! id = None ->
   fst (get_job_status isoformat trigger_str id w') = Ok None) /\
  exists o,
    fst (get_job_status isoformat trigger_str id w') = Ok o /\
    forall st, o = Some st ->
      status_id st = job_id_of id /\
      exists j, (j ∈ _jobs (scheduler w') \/ j ∈ _pending_jobs (scheduler w')) /\
                job_id j = job_id_of id /\
                status_name st = job_name j /\
                status_next_run_time st = isoformat <$> next_run_time j /\
                status_trigger st = trigger_str (trigger j).
Proof.
  intros Hn w'. pose proof (named_history hs w Hn) as Hn'. fold w' in Hn'.
  clearbody w'. clear Hn.
  unfold get_job_status, get_job. monad_unfold.
  destruct (job_map w' !! id) as [jid|] eqn:Hmap.
  2:{ split; [reflexivity|]. split; [reflexivity|].
      exists None. split; [reflexivity|]. intros st H. discriminate. }
  pose proof (Hn' id jid Hmap) as ->.
  destruct (String.eqb (job_id_of id) "") eqn:He.
  { split; [reflexivity|]. split; [discriminate|].
    exists None. split; [reflexivity|]. intros st H. discriminate. }
  assert (Hfound : forall o,
            o = (if running (scheduler w')
                 then List.find (has_job_id (job_id_of id)) (_jobs (scheduler w'))
                 else match List.find (has_job_id (job_id_of id))
                              (_pending_jobs (scheduler w')) with
                      | Some j => Some j
                      | None => List.find (has_job_id (job_id_of id)) (_jobs (scheduler w'))
                      end) ->
            forall j, o = Some j ->
              (j ∈ _jobs (scheduler w') \/ j ∈ _pending_jobs (scheduler w'))
              /\ job_id j = job_id_of id).
  { intros o -> j Hj. destruct (running (scheduler w')).
    - apply find_has_job_id in Hj as [H1 H2]. auto.
    - destruct (List.find _ (_pending_jobs _)) eqn:Hp.
      + injection Hj as ->. apply find_has_job_id in Hp as [H1 H2]. auto.
      + apply find_has_job_id in Hj as [H1 H2]. auto. }
  specialize (Hfound _ eq_refl).
  destruct (if running (scheduler w') then _ else _) as [j|].
  - split; [reflexivity|]. split; [discriminate|].
    eexists. split; [reflexivity|]. intros st Hst. injection Hst as <-.
    destruct (Hfound j eq_refl) as [Hin Hid]. cbn. split; [exact Hid|].
    exists j. repeat split; assumption.
  - split; [reflexivity|]. split; [discriminate|].
    exists None. split; [reflexivity|]. intros st H. discriminate.
Qed.

End StatusProperties.

(** ** The trigger calculator: one-shot, interval and unknown schedules *)

Lemma create_trigger_once action w :
  schedule_type action = "once" ->
  _create_trigger action w
  = let dt_str := py_or (dict_get (schedule_config action) "datetime")
                        (dict_get (schedule_config action) "run_at") in
    if negb (truthy dt_str)
    then (Ok None, emit (EvLog ERROR "No datetime specified for 'once' schedule") w)
    else match dt_str with
         | JStr s =>
             match datetime_fromisoformat (replace_Z s) with
             | Some run_date => (Ok (Some (DateTrigger run_date)), w)
             | None => (Ok None, emit (EvLog ERROR ("Invalid datetime format: " +:+ s)) w)
             end
         | _ =>
             (Ok None,
              emit (EvLog ERROR
                      "Error creating trigger: object has no attribute 'replace'") w)
         end.
Proof.
  intros Hty. unfold _create_trigger. rewrite Hty.
  cbn [String.eqb Ascii.eqb Bool.eqb]. cbv zeta.
  destruct (negb (truthy _)); [reflexivity|].
  destruct (py_or _ _) as [| | |s| |]; try reflexivity.
  unfold try_except. destruct (datetime_fromisoformat (replace_Z s)); reflexivity.
Qed.

Lemma replace_Z_no_Z s :
  (forall c, c ∈ list_ascii_of_string s -> c <> "Z"%char) -> replace_Z s = s.
Proof.
  induction s as [|c s IH]; [reflexivity|].
  cbn [list_ascii_of_string replace_Z]. intros H.
  destruct (Ascii.eqb_spec c "Z"%char) as [E|E].
  - exfalso. apply (H c); [left|exact E].
  - rewrite IH; [reflexivity|]. intros c' Hc'. apply H. right. exact Hc'.
Qed.

Lemma replace_Z_app s1 s2 : replace_Z (s1 +:+ s2) = replace_Z s1 +:+ replace_Z s2.
Proof.
  induction s1 as [|c s1 IH]; [reflexivity|].
  change (replace_Z (String c s1 +:+ s2))
    with (if Ascii.eqb c "Z"%char then "+00:00" +:+ replace_Z (s1 +:+ s2)
          else String c (replace_Z (s1 +:+ s2))).
  change (replace_Z (String c s1))
    with (if Ascii.eqb c "Z"%char then "+00:00" +:+ replace_Z s1
          else String c (replace_Z s1)).
  rewrite IH. destruct (Ascii.eqb c "Z"%char); reflexivity.
Qed.

(** X14. The trigger of a one-shot schedule. The instant is read from the
    key [datetime], and from [run_at] when [datetime] is missing or empty.
    When neither gives a value there is no trigger and an error is logged.
    A text value gives the date trigger of the instant it denotes, read with
    every [Z] replaced by [+00:00] (so a trailing [Z] stands for UTC), and
    nothing is logged; a text that is no ISO date gives no trigger and one
    error record. The calculator does not raise in any of these cases, and
    it changes nothing but the trace. *)
Theorem once_schedule_trigger action w :
  schedule_type action = "once" ->
  let reads_instant s :=
    match datetime_fromisoformat (replace_Z s) with
    | Some run_date => _create_trigger action w = (Ok (Some (DateTrigger run_date)), w)
    | None => exists msg, _create_trigger action w = (Ok None, emit (EvLog ERROR msg) w)
    end in
  (forall s, schedule_config action !! "datetime" = Some (JStr s) -> s <> "" ->
     reads_instant s) /\
  (forall s, truthy (dict_get (schedule_config action) "datetime") = false ->
     schedule_config action !! "run_at" = Some (JStr s) -> s <> "" ->
     reads_instant s) /\
  (truthy (dict_get (schedule_config action) "datetime") = false ->
   truthy (dict_get (schedule_config action) "run_at") = false ->
   _create_trigger action w
   = (Ok None, emit (EvLog ERROR "No datetime specified for 'once' schedule") w)) /\
  (forall s, (forall c, c ∈ list_ascii_of_string s -> c <> "Z"%char) ->
     replace_Z (s +:+ "Z") = s +:+ "+00:00").
Proof.
  intros Hty reads_instant. subst reads_instant. cbv beta.
  rewrite (create_trigger_once action w Hty). cbv zeta.
  assert (Hne : forall s, s <> "" -> negb (String.eqb s "") = true).
  { intros s Hs. destruct (String.eqb_spec s ""); [contradiction|reflexivity]. }
  split; [|split; [|split]].
  - intros s Hd Hs.
    assert (Hdg : dict_get (schedule_config action) "datetime" = JStr s)
      by (unfold dict_get; rewrite Hd; reflexivity).
    unfold py_or. rewrite Hdg. cbn [truthy]. rewrite (Hne s Hs).
    cbn [negb truthy]. rewrite (Hne s Hs). cbn [negb].
    destruct (datetime_fromisoformat (replace_Z s)); [reflexivity|].
    eexists. reflexivity.
  - intros s Hd Hr Hs.
    assert (Hdg : dict_get (schedule_config action) "run_at" = JStr s)
      by (unfold dict_get; rewrite Hr; reflexivity).
    unfold py_or. rewrite Hd, Hdg. cbn [truthy]. rewrite (Hne s Hs). cbn [negb].
    destruct (datetime_fromisoformat (replace_Z s)); [reflexivity|].
    eexists. reflexivity.
  - intros Hd Hr. unfold py_or. rewrite Hd, Hr. reflexivity.
  - intros s Hs. rewrite replace_Z_app, (replace_Z_no_Z s Hs). reflexivity.
Qed.

Lemma create_trigger_unknown_type action w :
  schedule_type action <> "cron" -> schedule_type action <> "interval" ->
  schedule_type action <> "once" ->
  _create_trigger action w
  = (Ok None, emit (EvLog ERROR ("Unknown schedule type: " +:+ schedule_type action)) w).
Proof.
  intros H1 H2 H3. unfold _create_trigger.
  apply String.eqb_neq in H1, H2, H3. rewrite H1, H2, H3. reflexivity.
Qed.

(** X15. A schedule type that is none of [cron], [interval] and [once].
    The calculator returns no trigger and logs the type; the scheduling of
    such an action then returns without raising, arms no timer, leaves the
    scheduler, the job map and the table as they were, and logs that no
    trigger could be created. *)
Theorem unknown_schedule_type_gets_no_timer action w :
  schedule_type action <> "cron" -> schedule_type action <> "interval" ->
  schedule_type action <> "once" ->
  _create_trigger action w
  = (Ok None, emit (EvLog ERROR ("Unknown schedule type: " +:+ schedule_type action)) w) /\
  _schedule_action action w
  = (Ok tt,
     emit (EvLog WARNING ("Could not create trigger for action " +:+ action_id action))
       (emit (EvLog ERROR ("Unknown schedule type: " +:+ schedule_type action)) w)).
Proof.
  intros H1 H2 H3. pose proof (create_trigger_unknown_type action w H1 H2 H3) as H.
  split; [exact H|].
  unfold _schedule_action, try_except, bind at 1. rewrite H. reflexivity.
Qed.

(** X16. The trigger of an interval schedule. Without [value] and [unit]
    the interval is 60 minutes. With a unit among weeks, days, hours,
    minutes and seconds and an integer count that a [timedelta] can hold,
    the interval is the count in that unit, and one second when the count
    is zero. In both cases the first fire is one interval after the current
    time, the trigger has neither end date nor jitter, and nothing is
    logged. A unit that is a text but no keyword of the interval trigger
    gives no trigger. *)
Theorem interval_schedule_period action w :
  schedule_type action = "interval" ->
  (schedule_config action !! "value" = None ->
   schedule_config action !! "unit" = None ->
   datetime_min <= clock w + 3600 <= datetime_max ->
   _create_trigger action w
   = (Ok (Some (IntervalTrigger 3600 (clock w + 3600) None None JNull)), w)) /\
  (forall u k z,
     dict_get_default (schedule_config action) "unit" (JStr "minutes") = JStr u ->
     dict_get_default (schedule_config action) "value" (JInt 60) = JInt z ->
     unit_seconds u = Some k ->
     Z.abs (z * k / 86400) <= 999999999 ->
     let period := if z * k =? 0 then 1 else z * k in
     datetime_min <= clock w + period <= datetime_max ->
     _create_trigger action w
     = (Ok (Some (IntervalTrigger period (clock w + period) None None JNull)), w)) /\
  (forall u,
     dict_get_default (schedule_config action) "unit" (JStr "minutes") = JStr u ->
     unit_seconds u = None ->
     u <> "start_date" -> u <> "end_date" -> u <> "timezone" -> u <> "jitter" ->
     fst (_create_trigger action w) = Ok None).
Proof.
  intros Hty. split; [|split].
  - intros Hv Hu Hd. apply interval_defaults; assumption.
  - intros u k z Hu Hv Hk Hb period Hd. subst period.
    apply (interval_recognized_unit action w u k z); assumption.
  - intros u Hu Hk H1 H2 H3 H4.
    apply (interval_unknown_keyword action w u); assumption.
Qed.

(** ** The router: who may do what, and what a request leaves behind *)

Lemma access_denied_true action user :
  Router.access_denied action user = true <->
  user_id action <> user_model_id user /\ role user <> "admin".
Proof.
  unfold Router.access_denied. rewrite andb_true_iff, !negb_true_iff.
  rewrite !String.eqb_neq. reflexivity.
Qed.

(** X17. A user who is neither the owner of an action nor an administrator
    is answered 403 by every endpoint on that action, whatever the form and
    whether or not a scheduler service is present. Nothing is written,
    executed, reloaded or logged: the world is the one after the session of
    the lookup. The owner and an administrator pass the check. *)
Theorem foreign_user_is_denied hs id user w action :
  fst (get_scheduled_action_by_id id w) = Ok (Some action) ->
  user_id action <> user_model_id user ->
  role user <> "admin" ->
  (forall form,
     Router.update_scheduled_action hs id form user w
     = (Ok (HTTPException 403 "Access denied"), next_db_fault w)) /\
  (forall b,
     Router.toggle_scheduled_action hs id b user w
     = (Ok (HTTPException 403 "Access denied"), next_db_fault w)) /\
  Router.delete_scheduled_action hs id user w
  = (Ok (HTTPException 403 "Access denied"), next_db_fault w) /\
  Router.test_scheduled_action hs id user w
  = (Ok (HTTPException 403 "Access denied"), next_db_fault w) /\
  Router.get_scheduled_action_by_id id user w
  = (Ok (HTTPException 403 "Access denied"), next_db_fault w) /\
  (forall owner, user_id action = user_model_id owner ->
     Router.access_denied action owner = false) /\
  (forall admin, role admin = "admin" -> Router.access_denied action admin = false).
Proof.
  intros Hget Hu Hr.
  assert (Hd : Router.access_denied action user = true)
    by (apply access_denied_true; split; assumption).
  repeat split.
  - intros form. rewrite update_scheduled_action_run, Hget, Hd. reflexivity.
  - intros b. rewrite toggle_scheduled_action_run, Hget, Hd. reflexivity.
  - rewrite delete_scheduled_action_run, Hget, Hd. reflexivity.
  - rewrite test_scheduled_action_run, Hget, Hd. reflexivity.
  - rewrite get_scheduled_action_by_id_endpoint_run, Hget, Hd. reflexivity.
  - intros owner Ho. unfold Router.access_denied. rewrite Ho, String.eqb_refl. reflexivity.
  - intros admin Ha. unfold Router.access_denied. rewrite Ha.
    apply andb_false_r.
Qed.

Lemma get_scheduled_action_by_id_none id w :
  db_faults w 0%nat = true \/ first_by_id id (table w) = None \/
  (exists r e, first_by_id id (table w) = Some r /\ model_validate r = Raise e) ->
  fst (get_scheduled_action_by_id id w) = Ok None.
Proof.
  intros H. unfold get_scheduled_action_by_id. monad_unfold. rewrite get_db_run.
  destruct (db_faults w 0%nat) eqn:Hf; [reflexivity|].
  change (table (next_db_fault w)) with (table w).
  destruct H as [H|[H|(r & e & H1 & H2)]]; [discriminate|rewrite H; reflexivity|].
  rewrite H1, H2. reflexivity.
Qed.

(** X18. An action that cannot be looked up is answered 404 by every
    endpoint on one action: when no row has the id, when a configuration of
    the row does not decode, and also when the database does not serve the
    lookup, which is therefore not answered 500. Nothing is written,
    executed, reloaded or logged. *)
Theorem missing_action_is_not_found hs id user w :
  db_faults w 0%nat = true \/ first_by_id id (table w) = None \/
  (exists r e, first_by_id id (table w) = Some r /\ model_validate r = Raise e) ->
  (forall form,
     Router.update_scheduled_action hs id form user w
     = (Ok (HTTPException 404 "Scheduled action not found"), next_db_fault w)) /\
  (forall b,
     Router.toggle_scheduled_action hs id b user w
     = (Ok (HTTPException 404 "Scheduled action not found"), next_db_fault w)) /\
  Router.delete_scheduled_action hs id user w
  = (Ok (HTTPException 404 "Scheduled action not found"), next_db_fault w) /\
  Router.test_scheduled_action hs id user w
  = (Ok (HTTPException 404 "Scheduled action not found"), next_db_fault w) /\
  Router.get_scheduled_action_by_id id user w
  = (Ok (HTTPException 404 "Scheduled action not found"), next_db_fault w).
Proof.
  intros H. pose proof (get_scheduled_action_by_id_none id w H) as Hget.
  repeat split.
  - intros form. rewrite update_scheduled_action_run, Hget. reflexivity.
  - intros b. rewrite toggle_scheduled_action_run, Hget. reflexivity.
  - rewrite delete_scheduled_action_run, Hget. reflexivity.
  - rewrite test_scheduled_action_run, Hget. reflexivity.
  - rewrite get_scheduled_action_by_id_endpoint_run, Hget. reflexivity.
Qed.

(** X19. The creation endpoint validates both types before it touches
    anything. An action type outside web_search, chat_completion and
    notification is answered 400 with the list of the three; with a valid
    action type, a schedule type outside cron, interval and once is
    answered 400 with that list. In both cases the world is unchanged: no
    session is opened, nothing is inserted, reloaded or logged. *)
Theorem create_rejects_unknown_types hs uuid form user w :
  (str_in (form_action_type form) valid_action_types = false ->
   Router.create_scheduled_action hs uuid form user w
   = (Ok (HTTPException 400
            "Invalid action_type. Must be one of: web_search, chat_completion, notification"),
      w)) /\
  (str_in (form_action_type form) valid_action_types = true ->
   str_in (form_schedule_type form) valid_schedule_types = false ->
   Router.create_scheduled_action hs uuid form user w
   = (Ok (HTTPException 400 "Invalid schedule_type. Must be one of: cron, interval, once"),
      w)).
Proof.
  split.
  - intros Ha. rewrite create_scheduled_action_run, Ha. reflexivity.
  - intros Ha Hs. rewrite create_scheduled_action_run, Ha, Hs. reflexivity.
Qed.

Lemma definition_of_row_id (r r' : ScheduledAction) :
  definition_of r = definition_of r' -> row_id r = row_id r'.
Proof. unfold definition_of. congruence. Qed.

Lemma first_by_id_of_definitions (t t' : list ScheduledAction) row :
  row_id row ∉ map row_id t ->
  map definition_of t' = map definition_of (t ++ [row]) ->
  exists r, first_by_id (row_id row) t' = Some r /\ definition_of r = definition_of row.
Proof.
  revert t'. induction t as [|r0 t IH]; intros t' Hfresh Hdef.
  - destruct t' as [|r' t']; cbn [map app] in Hdef; [discriminate|].
    assert (H1 : definition_of r' = definition_of row) by congruence.
    exists r'. split; [|exact H1].
    unfold first_by_id. cbn [List.find]. unfold has_id.
    rewrite (definition_of_row_id _ _ H1), String.eqb_refl. reflexivity.
  - destruct t' as [|r' t']; cbn [map app] in Hdef; [discriminate|].
    assert (H1 : definition_of r' = definition_of r0) by congruence.
    assert (H2 : map definition_of t' = map definition_of (t ++ [row])) by congruence.
    cbn [map] in Hfresh. apply not_elem_of_cons in Hfresh as [Hne Hfresh].
    destruct (IH t' Hfresh H2) as (r & Hr & Hrd).
    exists r. split; [|exact Hrd].
    unfold first_by_id in *. cbn [List.find]. unfold has_id at 1.
    rewrite (definition_of_row_id _ _ H1).
    destruct (String.eqb_spec (row_id r0) (row_id row)); [congruence|exact Hr].
Qed.

(** X20. The creation endpoint on a form with valid types, a served session
    and a new id. The response is the action the form describes, owned by
    the requesting user, created and updated at the current time, with
    both run times null: it is the snapshot taken before the reload. The
    table gains exactly one row, the last one, and no other row changes but
    in its run times; the stored row has the definition of the form. *)
Theorem create_stores_the_action hs uuid form user w :
  str_in (form_action_type form) valid_action_types = true ->
  str_in (form_schedule_type form) valid_schedule_types = true ->
  db_faults w 0%nat = false ->
  first_by_id uuid (table w) = None ->
  let w' := snd (Router.create_scheduled_action hs uuid form user w) in
  fst (Router.create_scheduled_action hs uuid form user w)
  = Ok (Response (Some (model_of_form uuid (user_model_id user) form (clock w)))) /\
  map definition_of (table w')
  = map definition_of (table w)
    ++ [definition_of (new_scheduled_action uuid (user_model_id user) form (clock w))] /\
  (exists r, first_by_id uuid (table w') = Some r /\
             definition_of r
             = definition_of (new_scheduled_action uuid (user_model_id user) form (clock w))) /\
  (hs = false ->
   table w' = table w ++ [new_scheduled_action uuid (user_model_id user) form (clock w)]).
Proof.
  intros Ha Hs Hf Hfresh w'. subst w'.
  rewrite create_scheduled_action_run, Ha, Hs. cbn [negb].
  rewrite insert_new_scheduled_action_run, Hf, Hfresh. cbn [fst snd].
  set (row := new_scheduled_action uuid (user_model_id user) form (clock w)).
  set (w1 := emit (EvCommit (CommitInsert uuid)) (set_table (table w ++ [row]) (next_db_fault w))).
  assert (Hdef : map definition_of (table (snd (Router.reload_if_present hs w1)))
                 = map definition_of (table w ++ [row])).
  { destruct hs; cbn [Router.reload_if_present].
    - rewrite (columns_reload_jobs definition_of) by reflexivity. reflexivity.
    - reflexivity. }
  split; [reflexivity|]. split; [rewrite Hdef, map_app; reflexivity|]. split.
  - apply (first_by_id_of_definitions (table w) _ row); [|exact Hdef].
    apply first_by_id_in. exact Hfresh.
  - intros ->. reflexivity.
Qed.

Lemma Forall_sublist_of {A} (P : A -> Prop) (l l' : list A) :
  sublist l' l -> Forall P l -> Forall P l'.
Proof.
  intros Hs. induction Hs as [|x l1 l2 _ IH|x l1 l2 _ IH]; intros H.
  - constructor.
  - apply Forall_cons in H as [Hx H]. constructor; [exact Hx|apply IH; exact H].
  - apply Forall_cons in H as [_ H]. apply IH. exact H.
Qed.

Lemma valid_action_type_has_executor t :
  str_in t valid_action_types = true <-> is_Some (get_executor t).
Proof.
  unfold str_in, valid_action_types, get_executor, EXECUTOR_REGISTRY.
  cbn [existsb]. rewrite orb_false_r.
  destruct (String.eqb t "web_search"); [split; [eexists; reflexivity|reflexivity]|].
  destruct (String.eqb t "chat_completion"); [split; [eexists; reflexivity|reflexivity]|].
  destruct (String.eqb t "notification"); [split; [eexists; reflexivity|reflexivity]|].
  split; [discriminate|intros [x Hx]; discriminate].
Qed.

(** X21. The action types the creation endpoint accepts are exactly the
    types that have an executor, and no request and no step of the engine
    changes the action type of a row or stores a row of another type. So
    over every sequence of requests and engine steps, every row of a table
    that started with valid types keeps a type with an executor: an action
    created through the router never meets the answer that no executor was
    found. *)
Theorem stored_actions_have_executors :
  (forall t, str_in t valid_action_types = true <-> is_Some (get_executor t)) /\
  (forall hs w,
     Forall (fun h => outside_edit h = false) hs ->
     Forall (fun r => is_Some (get_executor (row_action_type r))) (table w) ->
     Forall (fun r => is_Some (get_executor (row_action_type r))) (table (history hs w))).
Proof.
  split; [exact valid_action_type_has_executor|].
  intros hs w Hhs.
  set (P := fun r : ScheduledAction => is_Some (get_executor (row_action_type r))).
  assert (Hupd : forall (p : ScheduledAction -> bool) f t,
            (forall r, row_action_type (f r) = row_action_type r) ->
            Forall P t -> Forall P (update_first p f t)).
  { intros p f t Hf Ht. induction Ht as [|r t Hr Ht IH]; [constructor|].
    cbn [update_first]. destruct (p r); constructor; try assumption.
    unfold P. rewrite Hf. exact Hr. }
  apply (table_history (fun w w' => Forall P (table w) -> Forall P (table w')));
    try exact Hhs;
    try (intros; match goal with H : Forall P _ |- _ => exact H end).
  - intros id last next now w0 H. cbn [table set_table]. apply Hupd; [reflexivity|exact H].
  - intros id form now w0 H. cbn [table set_table]. apply Hupd; [reflexivity|exact H].
  - intros id w0 H. cbn [table set_table].
    eapply Forall_sublist_of; [|exact H]. apply delete_first_sublist.
  - intros uuid user form w0 _ Ha _ H. cbn [table set_table].
    apply Forall_app. split; [exact H|]. constructor; [|constructor].
    unfold P. cbn [row_action_type new_scheduled_action].
    apply valid_action_type_has_executor. exact Ha.
Qed.

(** ** Requests that disarm *)

Lemma enabled_after_reload_if_present hs w :
  map (fun r => (row_id r, row_enabled r)) (table (snd (Router.reload_if_present hs w)))
  = map (fun r => (row_id r, row_enabled r)) (table w).
Proof.
  destruct hs; [|reflexivity]. cbn [Router.reload_if_present].
  apply (columns_reload_jobs (fun r => (row_id r, row_enabled r))). reflexivity.
Qed.

Lemma first_by_id_of_columns {C} (g : ScheduledAction -> C) id (t t' : list ScheduledAction) :
  map (fun r => (row_id r, g r)) t' = map (fun r => (row_id r, g r)) t ->
  g <$> first_by_id id t' = g <$> first_by_id id t.
Proof.
  revert t'. induction t as [|r t IH]; intros t' H.
  - destruct t'; [reflexivity|discriminate].
  - destruct t' as [|r' t']; [discriminate|]. cbn [map] in H.
    assert (H1 : row_id r' = row_id r) by congruence.
    assert (H2 : g r' = g r) by congruence.
    assert (H3 : map (fun r => (row_id r, g r)) t' = map (fun r => (row_id r, g r)) t)
      by congruence.
    unfold first_by_id in *. cbn [List.find]. unfold has_id at 1 3. rewrite H1.
    destruct (String.eqb (row_id r) id); [cbn; rewrite H2; reflexivity|].
    apply IH. exact H3.
Qed.

Lemma unique_disabled id (t : list ScheduledAction) f :
  unique_ids t ->
  (forall r, row_id (f r) = row_id r) ->
  (forall r, row_enabled (f r) = false) ->
  Forall (fun r => row_id r = id -> row_enabled r = false)
         (update_first (has_id id) f t).
Proof.
  intros Hu Hid Hen. induction t as [|r t IH]; [constructor|].
  cbn [update_first]. unfold unique_ids in Hu. cbn [map] in Hu.
  apply NoDup_cons in Hu as [Hnotin Hu].
  destruct (has_id id r) eqn:E.
  - apply has_id_true in E. constructor; [intros _; apply Hen|].
    apply Forall_forall. intros r' Hr' Hid'. exfalso. apply Hnotin.
    rewrite E, <- Hid'. apply list_elem_of_fmap_2 with (f := row_id) in Hr'. exact Hr'.
  - constructor; [|apply IH; exact Hu].
    intros Hr. exfalso. apply has_id_true in Hr. congruence.
Qed.

Lemma Forall_of_columns (t t' : list ScheduledAction) id :
  map (fun r => (row_id r, row_enabled r)) t' = map (fun r => (row_id r, row_enabled r)) t ->
  Forall (fun r => row_id r = id -> row_enabled r = false) t ->
  Forall (fun r => row_id r = id -> row_enabled r = false) t'.
Proof.
  revert t'. induction t as [|r t IH]; intros t' H Ht.
  - destruct t'; [constructor|discriminate].
  - destruct t' as [|r' t']; [discriminate|]. cbn [map] in H.
    assert (H1 : row_id r' = row_id r) by congruence.
    assert (H2 : row_enabled r' = row_enabled r) by congruence.
    assert (H3 : map (fun r => (row_id r, row_enabled r)) t'
                 = map (fun r => (row_id r, row_enabled r)) t) by congruence.
    apply Forall_cons in Ht as [Hr Ht].
    constructor; [rewrite H1, H2; exact Hr|apply IH; assumption].
Qed.

Lemma no_timer_after_reload id w :
  Forall (fun r => row_id r = id -> row_enabled r = false) (table w) ->
  Forall (fun j => job_id j <> job_id_of id) (armed (scheduler (snd (reload_jobs w)))).
Proof.
  intros Hid. apply Forall_forall. intros j Hj Heq.
  destruct (armed_after_reload w j Hj) as (r & Hr & Hen & Hjid & _).
  rewrite Hjid in Heq. apply job_id_of_inj in Heq.
  rewrite Forall_forall in Hid. rewrite (Hid r Hr Heq) in Hen. discriminate.
Qed.

(** X22. Disabling an action through the router disarms it. When the
    toggle endpoint with [enabled] false, or the update endpoint with a form
    that sets [enabled] to false, answers with a response, on a table with
    unique ids and with a scheduler service present, then afterwards the row
    of the action is disabled and no timer is armed for it. *)
Theorem disabling_disarms id user w :
  unique_ids (table w) ->
  let disarmed w' :=
    row_enabled <$> first_by_id id (table w') = Some false /\
    Forall (fun j => job_id j <> job_id_of id) (armed (scheduler w')) in
  (forall x,
     fst (Router.toggle_scheduled_action true id false user w) = Ok (Response x) ->
     disarmed (snd (Router.toggle_scheduled_action true id false user w))) /\
  (forall form x,
     upd_enabled form = Some (Some false) ->
     fst (Router.update_scheduled_action true id form user w) = Ok (Response x) ->
     disarmed (snd (Router.update_scheduled_action true id form user w))).
Proof.
  intros Hu disarmed. subst disarmed. cbv beta.
  assert (Hcore : forall form w1,
            upd_enabled form = Some (Some false) ->
            table w1 = table w ->
            db_faults w1 0%nat = false ->
            forall r, first_by_id id (table w1) = Some r ->
            let w2 := emit (EvCommit (CommitUpdate id form))
                        (set_table (update_first (has_id id)
                                      (apply_update form (clock w1)) (table w1))
                           (next_db_fault w1)) in
            row_enabled <$> first_by_id id (table (snd (reload_jobs w2))) = Some false /\
            Forall (fun j => job_id j <> job_id_of id)
                   (armed (scheduler (snd (reload_jobs w2))))).
  { intros form w1 Hen Ht Hf r Hr w2.
    assert (Hdis : Forall (fun r => row_id r = id -> row_enabled r = false) (table w2)).
    { subst w2. cbn [table emit set_table]. rewrite Ht. apply unique_disabled.
      - exact Hu.
      - reflexivity.
      - intros r0. cbn [row_enabled apply_update]. rewrite Hen. reflexivity. }
    split.
    - rewrite (first_by_id_of_columns row_enabled id (table w2)).
      + subst w2. cbn [table emit set_table].
        rewrite first_by_id_update_first by reflexivity. rewrite Hr.
        cbn. rewrite Hen. reflexivity.
      + apply (columns_reload_jobs (fun r => (row_id r, row_enabled r))). reflexivity.
    - apply no_timer_after_reload. exact Hdis. }
  assert (Hshape : forall form (what : string) x,
            upd_enabled form = Some (Some false) ->
            fst (match fst (get_scheduled_action_by_id id w) with
                 | Ok (Some action) =>
                     if Router.access_denied action user
                     then (Ok (HTTPException 403 "Access denied"), next_db_fault w)
                     else match update_scheduled_action_by_id id form (next_db_fault w) with
                          | (Ok r, w1) =>
                              (Ok (Response r), snd (Router.reload_if_present true w1))
                          | (Raise e, w1) =>
                              (Ok (HTTPException 500 (exn_msg e)),
                               emit (EvLog ERROR ("Error " +:+ what +:+ " scheduled action: "
                                                  +:+ exn_msg e)) w1)
                          end
                 | _ => (Ok (HTTPException 404 "Scheduled action not found"),
                         next_db_fault w)
                 end) = Ok (Response x) ->
            exists r,
              first_by_id id (table w) = Some r /\
              db_faults w 1%nat = false /\
              update_scheduled_action_by_id id form (next_db_fault w)
              = (Ok x,
                 emit (EvCommit (CommitUpdate id form))
                   (set_table (update_first (has_id id)
                                 (apply_update form (clock w)) (table w))
                      (next_db_fault (next_db_fault w))))).
  { intros form what x Hen.
    destruct (fst (get_scheduled_action_by_id id w)) as [[action|]|e] eqn:Hget;
      try discriminate.
    destruct (get_scheduled_action_by_id_some id w action Hget) as (_ & r & Hr & _).
    destruct (Router.access_denied action user); [discriminate|].
    rewrite update_scheduled_action_by_id_run.
    change (db_faults (next_db_fault w) 0%nat) with (db_faults w 1%nat).
    change (table (next_db_fault w)) with (table w).
    change (clock (next_db_fault w)) with (clock w).
    destruct (db_faults w 1%nat); [discriminate|]. rewrite Hr.
    destruct (null_violation form); [discriminate|].
    destruct (model_validate _) as [m|e]; [|discriminate].
    cbn [fst]. intros H. injection H as <-.
    exists r. split; [reflexivity|]. split; reflexivity. }
  split.
  - intros x Hx. rewrite toggle_scheduled_action_run in *.
    destruct (Hshape (form_enabled_only false) "toggling" x eq_refl Hx)
      as (r & Hr & Hf & Hupd).
    destruct (fst (get_scheduled_action_by_id id w)) as [[action|]|e]; try discriminate.
    destruct (Router.access_denied action user); [discriminate|].
    rewrite Hupd. cbn [snd Router.reload_if_present].
    apply (Hcore (form_enabled_only false) (next_db_fault w) eq_refl eq_refl Hf r Hr).
  - intros form x Hen Hx. rewrite update_scheduled_action_run in *.
    destruct (Hshape form "updating" x Hen Hx) as (r & Hr & Hf & Hupd).
    destruct (fst (get_scheduled_action_by_id id w)) as [[action|]|e]; try discriminate.
    destruct (Router.access_denied action user); [discriminate|].
    rewrite Hupd. cbn [snd Router.reload_if_present].
    apply (Hcore form (next_db_fault w) Hen eq_refl Hf r Hr).
Qed.

Lemma ids_after_reload_if_present hs w :
  map row_id (table (snd (Router.reload_if_present hs w))) = map row_id (table w).
Proof.
  destruct hs; [|reflexivity]. cbn [Router.reload_if_present].
  apply (columns_reload_jobs row_id). reflexivity.
Qed.

(** X23. Deleting an action through the router, on a table with unique
    ids. When the endpoint answers with a response, the response is [True],
    the table has no row with the id any more, the other rows are the ones
    they were (but for their run times, which a reload may refresh) and in
    their order, and with a scheduler service present no timer is armed for
    the action. *)
Theorem delete_removes_and_disarms hs id user w b :
  unique_ids (table w) ->
  fst (Router.delete_scheduled_action hs id user w) = Ok (Response b) ->
  let w' := snd (Router.delete_scheduled_action hs id user w) in
  b = true /\
  first_by_id id (table w') = None /\
  map definition_of (table w')
  = map definition_of (delete_first (has_id id) (table w)) /\
  (hs = true ->
   Forall (fun j => job_id j <> job_id_of id) (armed (scheduler w'))).
Proof.
  intros Hu. rewrite delete_scheduled_action_run.
  destruct (fst (get_scheduled_action_by_id id w)) as [[action|]|e] eqn:Hget;
    try discriminate.
  destruct (get_scheduled_action_by_id_some id w action Hget) as (_ & r & Hr & _).
  destruct (Router.access_denied action user); [discriminate|].
  rewrite delete_scheduled_action_by_id_run.
  change (db_faults (next_db_fault w) 0%nat) with (db_faults w 1%nat).
  change (table (next_db_fault w)) with (table w).
  destruct (db_faults w 1%nat); [discriminate|]. rewrite Hr. cbn [fst snd].
  intros H. injection H as <-.
  set (w1 := emit (EvCommit (CommitDelete id))
               (set_table (delete_first (has_id id) (table w))
                  (next_db_fault (next_db_fault w)))).
  assert (Hnone : first_by_id id (table w1) = None)
    by (apply first_by_id_delete_first; exact Hu).
  split; [reflexivity|]. split; [|split].
  - apply first_by_id_not_in. rewrite ids_after_reload_if_present.
    apply first_by_id_in. exact Hnone.
  - destruct hs; [|reflexivity]. cbn [Router.reload_if_present].
    apply (columns_reload_jobs definition_of). reflexivity.
  - intros ->. cbn [Router.reload_if_present]. apply no_timer_after_reload.
    apply Forall_forall. intros r0 Hr0 Hid. exfalso.
    apply first_by_id_in in Hnone. apply Hnone. rewrite <- Hid.
    apply list_elem_of_fmap_2 with (f := row_id) in Hr0. exact Hr0.
Qed.

(** X24. The test endpoint runs the action once and keeps no books. For a
    user who passes the check: without a scheduler service the answer is
    503 and nothing is executed; with one, the answer is always a response
    with the status [success], wrapping whatever the execution returned (an
    error outcome included), never the status 500. The run is not recorded:
    [enabled], [last_run_at] and [next_run_at] of every row stay as they
    were, so a one-shot action is not disabled by its test, and scheduler
    and job map are untouched. *)
Theorem test_runs_without_bookkeeping id user w action :
  fst (get_scheduled_action_by_id id w) = Ok (Some action) ->
  Router.access_denied action user = false ->
  Router.test_scheduled_action false id user w
  = (Ok (HTTPException 503 "Scheduler service not available"), next_db_fault w) /\
  (exists result,
     fst (execute_action action (next_db_fault w)) = Ok result /\
     fst (Router.test_scheduled_action true id user w)
     = Ok (Response {| response_status := "success"; response_result := result |})) /\
  (let w' := snd (Router.test_scheduled_action true id user w) in
   map (fun r => (row_id r, run_state_of r)) (table w')
   = map (fun r => (row_id r, run_state_of r)) (table w) /\
   scheduler w' = scheduler w /\ job_map w' = job_map w /\ _running w' = _running w).
Proof.
  intros Hget Hd. rewrite !test_scheduled_action_run, Hget, Hd.
  split; [reflexivity|].
  destruct (total_run (execute_action action) (next_db_fault w)
              (total_execute_action action)) as [result Hrun].
  rewrite Hrun. cbn [fst snd]. split.
  - exists result. split; reflexivity.
  - split; [|split; [|split]].
    + change (table w) with (table (next_db_fault w)).
      apply (columns_execute_action (fun r => (row_id r, run_state_of r))); reflexivity.
    + change (scheduler w) with (scheduler (next_db_fault w)).
      apply (same_execute_action scheduler); reflexivity.
    + change (job_map w) with (job_map (next_db_fault w)).
      apply (same_execute_action job_map); reflexivity.
    + change (_running w) with (_running (next_db_fault w)).
      apply (same_execute_action _running); reflexivity.
Qed.

(** X25. A write that the database does not serve is answered 500. When
    the lookup succeeded and the user passed the check but the session of
    the write fails, the update, toggle and delete endpoints answer 500
    with the text of the exception; the table, the scheduler and the job
    map are as they were, no reload took place, and the trace gained the
    one error record. The creation endpoint answers 500 in the same way
    when its session fails or when the new id is already in the table. *)
Theorem write_fault_is_answered_500 hs id user w action :
  fst (get_scheduled_action_by_id id w) = Ok (Some action) ->
  Router.access_denied action user = false ->
  db_faults w 1%nat = true ->
  let failed (A : Type) what : result (http A) * World :=
    (Ok (HTTPException 500 "database is unavailable"),
     emit (EvLog ERROR ("Error " +:+ what +:+ " scheduled action: database is unavailable"))
       (next_db_fault (next_db_fault w))) in
  (forall form, Router.update_scheduled_action hs id form user w = failed _ "updating") /\
  (forall b, Router.toggle_scheduled_action hs id b user w = failed _ "toggling") /\
  Router.delete_scheduled_action hs id user w = failed _ "deleting" /\
  (forall uuid form creator w0,
     str_in (form_action_type form) valid_action_types = true ->
     str_in (form_schedule_type form) valid_schedule_types = true ->
     (db_faults w0 0%nat = true ->
      Router.create_scheduled_action hs uuid form creator w0
      = (Ok (HTTPException 500 "database is unavailable"),
         emit (EvLog ERROR "Error creating scheduled action: database is unavailable")
           (next_db_fault w0))) /\
     (forall r, db_faults w0 0%nat = false -> first_by_id uuid (table w0) = Some r ->
      Router.create_scheduled_action hs uuid form creator w0
      = (Ok (HTTPException 500 "UNIQUE constraint failed: scheduled_action.id"),
         emit (EvLog ERROR
                 "Error creating scheduled action: UNIQUE constraint failed: scheduled_action.id")
           (next_db_fault w0)))).
Proof.
  intros Hget Hd Hf failed. subst failed. cbv beta.
  repeat split.
  - intros form. rewrite update_scheduled_action_run, Hget, Hd.
    rewrite update_scheduled_action_by_id_run.
    change (db_faults (next_db_fault w) 0%nat) with (db_faults w 1%nat).
    rewrite Hf. reflexivity.
  - intros b. rewrite toggle_scheduled_action_run, Hget, Hd.
    rewrite update_scheduled_action_by_id_run.
    change (db_faults (next_db_fault w) 0%nat) with (db_faults w 1%nat).
    rewrite Hf. reflexivity.
  - rewrite delete_scheduled_action_run, Hget, Hd.
    rewrite delete_scheduled_action_by_id_run.
    change (db_faults (next_db_fault w) 0%nat) with (db_faults w 1%nat).
    rewrite Hf. reflexivity.
  - intros Hf0. rewrite create_scheduled_action_run, H, H0. cbn [negb].
    rewrite insert_new_scheduled_action_run, Hf0. reflexivity.
  - intros r Hf0 Hr. rewrite create_scheduled_action_run, H, H0. cbn [negb].
    rewrite insert_new_scheduled_action_run, Hf0, Hr. reflexivity.
Qed.

Lemma map_result_app {A C} (f : A -> result C) (l1 l2 : list A) l1' l2' :
  map_result f l1 = Ok l1' -> map_result f l2 = Ok l2' ->
  map_result f (l1 ++ l2) = Ok (l1' ++ l2').
Proof.
  revert l1'. induction l1 as [|x l1 IH]; intros l1' H1 H2.
  - cbn in H1. injection H1 as <-. exact H2.
  - cbn [map_result app] in *. destruct (f x); [|discriminate].
    destruct (map_result f l1) as [ys|]; [|discriminate].
    injection H1 as <-. rewrite (IH ys eq_refl H2). reflexivity.
Qed.

Lemma map_result_ids (rows : list ScheduledAction) actions :
  map_result model_validate rows = Ok actions ->
  map action_id actions = map row_id rows.
Proof.
  revert actions. induction rows as [|r rows IH]; intros actions H.
  - cbn in H. injection H as <-. reflexivity.
  - cbn [map_result] in H. destruct (model_validate r) as [m|] eqn:Hm; [|discriminate].
    destruct (map_result model_validate rows) as [ms|]; [|discriminate].
    injection H as <-. cbn [map]. rewrite (IH ms eq_refl).
    destruct (model_validate_fields r m Hm) as (Hid & _). rewrite Hid. reflexivity.
Qed.

Lemma filter_app_list {A} (p : A -> bool) (l1 l2 : list A) :
  List.filter p (l1 ++ l2) = List.filter p l1 ++ List.filter p l2.
Proof.
  induction l1 as [|x l1 IH]; [reflexivity|].
  cbn [app List.filter]. destruct (p x); [cbn [app]; rewrite IH|]; auto.
Qed.

(** X26. An enabled action created through the router is armed at once.
    With a scheduler service present, valid types, a new id, served
    sessions for the insert and for the reload, unique ids, enabled rows
    that all decode, and a schedule from which the calculator makes a
    trigger, the creation endpoint leaves a timer for the new action: its
    job id is [action_<id>], its argument the id, its name the name of the
    form, its trigger the calculated one, and, while the scheduler runs,
    its next fire time the one the trigger gives for the current time. *)
Theorem created_action_is_armed uuid form user w actions t :
  str_in (form_action_type form) valid_action_types = true ->
  str_in (form_schedule_type form) valid_schedule_types = true ->
  form_enabled form = true ->
  db_faults w 0%nat = false ->
  db_faults w 1%nat = false ->
  unique_ids (table w) ->
  first_by_id uuid (table w) = None ->
  map_result model_validate (List.filter row_enabled (table w)) = Ok actions ->
  fst (_create_trigger (model_of_form uuid (user_model_id user) form (clock w)) w)
  = Ok (Some t) ->
  new_job t uuid (form_name form)
    (if running (scheduler w) then get_next_fire_time t None (clock w) else None)
  ∈ armed (scheduler (snd (Router.create_scheduled_action true uuid form user w))).
Proof.
  intros Ha Hs Hen Hf0 Hf1 Hu Hfresh Hlist Ht.
  rewrite create_scheduled_action_run, Ha, Hs. cbn [negb].
  rewrite insert_new_scheduled_action_run, Hf0, Hfresh.
  cbn [snd Router.reload_if_present].
  set (row := new_scheduled_action uuid (user_model_id user) form (clock w)).
  set (m := model_of_form uuid (user_model_id user) form (clock w)) in *.
  set (w1 := emit (EvCommit (CommitInsert uuid))
               (set_table (table w ++ [row]) (next_db_fault w))).
  rewrite (reload_jobs_run w1). cbn [snd].
  change (db_faults w1 0%nat) with (db_faults w 1%nat). rewrite Hf1.
  change (table w1) with (table w ++ [row]).
  assert (Hlist1 : map_result model_validate (List.filter row_enabled (table w ++ [row]))
                   = Ok (actions ++ [m])).
  { rewrite filter_app_list. apply map_result_app; [exact Hlist|].
    cbn [List.filter]. change (row_enabled row) with (form_enabled form). rewrite Hen.
    cbn [map_result]. subst row m. rewrite model_validate_new_scheduled_action.
    reflexivity. }
  rewrite Hlist1.
  match goal with |- context [for_each (actions ++ [m]) _schedule_action ?x] =>
    set (w3 := x);
    destruct (for_each_schedule_spec (actions ++ [m]) w3)
      as (_ & _ & _ & _ & _ & _ & _ & Fnew)
  end.
  assert (Hnd : NoDup (map action_id (actions ++ [m]))).
  { rewrite (map_result_ids _ _ Hlist1).
    assert (Hu1 : unique_ids (table w ++ [row]))
      by (apply unique_ids_insert; assumption).
    eapply unique_ids_sublist; [apply filter_sublist|exact Hu1]. }
  assert (Hm : m ∈ actions ++ [m])
    by (apply elem_of_app; right; apply list_elem_of_singleton; reflexivity).
  assert (Ht3 : fst (_create_trigger m w3) = Ok (Some t)).
  { rewrite <- Ht. apply create_trigger_clock. reflexivity. }
  specialize (Fnew Hnd m t Hm Ht3).
  assert (Hr3 : running (scheduler w3) = running (scheduler w)).
  { subst w3. cbn [scheduler emit next_db_fault set_job_map].
    apply (running_remove_all_jobs (emit (EvLog INFO "Reloading scheduled jobs...") w1)). }
  rewrite Hr3 in Fnew. exact Fnew.
Qed.

(** ** The executors *)

Section ExecutorProperties.
Context {svc : Services}.

Lemma bind_ok_inv {A B} (m : M A) (k : A -> M B) w b w' :
  bind m k w = (Ok b, w') ->
  exists a w1, m w = (Ok a, w1) /\ k a w1 = (Ok b, w').
Proof.
  unfold bind. destruct (m w) as [[a|e] w1]; intros H.
  - exists a, w1. split; [reflexivity | exact H].
  - discriminate H.
Qed.

Lemma try_except_answers {A} (P : A -> Prop) (m : M A) (h : exn -> M A) w :
  (forall a w', m w = (Ok a, w') -> P a) ->
  (forall e w1, exists a, fst (h e w1) = Ok a /\ P a) ->
  exists a, fst (try_except m h w) = Ok a /\ P a.
Proof.
  intros Hm Hh. unfold try_except.
  destruct (m w) as [[a|e] w1] eqn:E.
  - exists a. split; [reflexivity | exact (Hm a w1 eq_refl)].
  - apply Hh.
Qed.

Lemma reports_error msg : reports_status (error_outcome msg).
Proof. right. reflexivity. Qed.

Lemma reports_search_success query engine results chat_id :
  reports_status (search_success query engine results chat_id).
Proof. left. reflexivity. Qed.

Lemma reports_completion_success model prompt response :
  reports_status (completion_success model prompt response).
Proof. left. reflexivity. Qed.

Lemma ret_ok_inv {A} (a b : A) w w' : ret a w = (Ok b, w') -> a = b.
Proof. unfold ret. intros H. congruence. Qed.

Lemma finish_search_reports U A user query engine cfg results w d w' :
  finish_search U A user query engine cfg results w = (Ok d, w') ->
  reports_status d.
Proof.
  unfold finish_search. intros H.
  apply bind_ok_inv in H as (cid & w1 & _ & H).
  apply ret_ok_inv in H. subst d. apply reports_search_success.
Qed.

Lemma provider_then_finish_reports U A user query engine cfg
    (provider : M (list search_item)) w d w' :
  bind provider (finish_search U A user query engine cfg) w = (Ok d, w') ->
  reports_status d.
Proof.
  intros H. apply bind_ok_inv in H as (results & w1 & _ & H).
  exact (finish_search_reports _ _ _ _ _ _ _ _ _ _ H).
Qed.

Lemma _save_to_memory_returns user prompt response w :
  exists w', _save_to_memory user prompt response w = (Ok tt, w').
Proof.
  unfold _save_to_memory, try_except.
  match goal with |- context [match ?m w with _ => _ end] => destruct (m w) as [[[]|e] w1] end.
  - exists w1. reflexivity.
  - eexists. reflexivity.
Qed.

Lemma chat_completion_run user cfg w :
  truthy (dict_get_default cfg "prompt" (JStr "")) = true ->
  truthy (dict_get_default cfg "model" (JStr "")) = true ->
  fst (ChatCompletionExecutor_execute user cfg w) =
    Ok (completion_success (dict_get_default cfg "model" (JStr ""))
          (dict_get_default cfg "prompt" (JStr ""))
          "Chat completion executed (implementation pending)").
Proof.
  intros Hp Hm. unfold ChatCompletionExecutor_execute, try_except.
  rewrite Hp, Hm. cbn [negb].
  unfold bind at 1. unfold log at 1, modify at 1.
  unfold bind.
  destruct (truthy (dict_get_default cfg "save_to_memory" (JBool false))).
  - match goal with |- context [_save_to_memory ?u ?p ?r ?w0] =>
      destruct (_save_to_memory_returns u p r w0) as [w' E]; rewrite E end.
    reflexivity.
  - reflexivity.
Qed.

(** X29. A chat completion that has a prompt and a model answers with a
    success whose response is the fixed text "Chat completion executed
    (implementation pending)": on every world, for every model and prompt,
    and whatever the memory services do, also when they raise. *)
Theorem chat_completion_answers_with_a_fixed_text user cfg w :
  truthy (dict_get_default cfg "prompt" (JStr "")) = true ->
  truthy (dict_get_default cfg "model" (JStr "")) = true ->
  fst (ChatCompletionExecutor_execute user cfg w) =
    Ok (completion_success (dict_get_default cfg "model" (JStr ""))
          (dict_get_default cfg "prompt" (JStr ""))
          "Chat completion executed (implementation pending)").
Proof. exact (chat_completion_run user cfg w). Qed.

Lemma handler_reports (what : string) e w1 :
  exists d, fst (bind (log ERROR (what +:+ exn_msg e))
                       (fun _ => ret (error_outcome (exn_msg e))) w1) = Ok d
            /\ reports_status d.
Proof. eexists. split; [reflexivity | apply reports_error]. Qed.

Lemma web_search_reports U A user cfg w :
  exists d, fst (WebSearchExecutor_execute U A user cfg w) = Ok d /\ reports_status d.
Proof.
  unfold WebSearchExecutor_execute.
  apply try_except_answers; [| intros e w1; apply handler_reports].
  intros d w'.
  destruct (negb (truthy (dict_get_default cfg "query" (JStr "")))).
  { intros H. apply ret_ok_inv in H. subst d. apply reports_error. }
  intros H. apply bind_ok_inv in H as ([] & w1 & _ & H).
  repeat match type of H with
  | (if ?c then _ else _) _ = _ => destruct c
  | ret _ _ = _ => apply ret_ok_inv in H; subst d; apply reports_error
  | bind _ _ _ = _ => exact (provider_then_finish_reports _ _ _ _ _ _ _ _ _ _ H)
  end.
Qed.

Lemma chat_completion_reports user cfg w :
  exists d, fst (ChatCompletionExecutor_execute user cfg w) = Ok d /\ reports_status d.
Proof.
  unfold ChatCompletionExecutor_execute.
  apply try_except_answers; [| intros e w1; apply handler_reports].
  intros d w'.
  destruct (negb (truthy (dict_get_default cfg "prompt" (JStr "")))).
  { intros H. apply ret_ok_inv in H. subst d. apply reports_error. }
  destruct (negb (truthy (dict_get_default cfg "model" (JStr "")))).
  { intros H. apply ret_ok_inv in H. subst d. apply reports_error. }
  intros H. apply bind_ok_inv in H as ([] & w1 & _ & H).
  apply bind_ok_inv in H as ([] & w2 & _ & H).
  apply ret_ok_inv in H. subst d. apply reports_completion_success.
Qed.

(** X28. The search and the chat completion never raise: on every world,
    for every configuration and whatever the services they call do, each
    returns an outcome whose status is "success" or "error". *)
Theorem executors_answer_with_a_status U A user cfg w :
  (exists d, fst (WebSearchExecutor_execute U A user cfg w) = Ok d /\ reports_status d)
  /\ (exists d, fst (ChatCompletionExecutor_execute user cfg w) = Ok d /\ reports_status d).
Proof. split; [apply web_search_reports | apply chat_completion_reports]. Qed.

(** X27. A search with a query whose engine is none of the six that have a
    branch is answered with the error "Unsupported search engine: ..."; no
    provider and no chat is reached, the world gains one line of the log.
    The engines google, serpstack, serper, serply and jina are among
    them. *)
Theorem unsupported_engine_is_refused U A user cfg w :
  truthy (dict_get_default cfg "query" (JStr "")) = true ->
  (forall name, name ∈ supported_engines ->
     is_str (dict_get_default cfg "engine" (JStr "ollama_cloud")) name = false) ->
  exists line,
    WebSearchExecutor_execute U A user cfg w =
      (Ok (error_outcome
             ("Unsupported search engine: "
              +:+ py_str (dict_get_default cfg "engine" (JStr "ollama_cloud")))),
       emit (EvLog INFO line) w).
Proof.
  intros Hq He. unfold WebSearchExecutor_execute, try_except.
  rewrite Hq. cbn [negb].
  rewrite !He by (unfold supported_engines; rewrite !elem_of_cons; tauto).
  eexists. reflexivity.
Qed.

(** *** Dictionaries in insertion order *)

Lemma odict_get_set_eq k v (d : odict) : odict_get k (odict_set k v d) = Some v.
Proof.
  induction d as [|[k' v'] d IH]; cbn.
  - rewrite String.eqb_refl. reflexivity.
  - destruct (String.eqb k' k) eqn:E; cbn; rewrite E; [reflexivity | exact IH].
Qed.

Lemma odict_get_set_ne k k' v (d : odict) :
  k <> k' -> odict_get k' (odict_set k v d) = odict_get k' d.
Proof.
  intros Hne. induction d as [|[k0 v0] d IH]; cbn.
  - destruct (String.eqb k k') eqn:E; [apply String.eqb_eq in E; contradiction | reflexivity].
  - destruct (String.eqb k0 k) eqn:E; cbn.
    + apply String.eqb_eq in E. subst k0.
      destruct (String.eqb k k') eqn:E'; [apply String.eqb_eq in E'; contradiction | reflexivity].
    + destruct (String.eqb k0 k'); [reflexivity | exact IH].
Qed.

Lemma odict_get_setdefault_ne k k' v (d : odict) :
  k <> k' -> odict_get k' (odict_setdefault k v d) = odict_get k' d.
Proof.
  intros Hne. unfold odict_setdefault.
  destruct (odict_in k d); [reflexivity | apply odict_get_set_ne, Hne].
Qed.

Lemma odict_setdefault_present k v v0 (d : odict) :
  odict_get k d = Some v0 -> odict_setdefault k v d = d.
Proof. intros H. unfold odict_setdefault, odict_in. rewrite H. reflexivity. Qed.

Lemma odict_in_false k (d : odict) : odict_in k d = false -> odict_get k d = None.
Proof. unfold odict_in. destruct (odict_get k d); [discriminate | reflexivity]. Qed.

Lemma first_leaf_some (messages : odict) k :
  first_leaf messages = Ok (Some k) -> truthy (JDict messages) = true.
Proof. destruct messages; [discriminate | reflexivity]. Qed.

(** X30. A search saved into a chat whose first message without children
    is [k]: the two new messages are filed under their ids and appended to
    the message array, the question hangs under [k] and [k] lists it as
    its child, the answer becomes the current message, and every other
    message of the chat is as it was. The ids drawn are new to the chat
    and differ. *)
Theorem saved_search_hangs_under_the_leaf chat_data U A query content now
    messages array k leaf :
  messages_of chat_data = Some messages ->
  array_of chat_data = Some array ->
  first_leaf messages = Ok (Some k) ->
  k <> "" ->
  odict_get k messages = Some (JDict leaf) ->
  odict_get "childrenIds" leaf = None \/ odict_get "childrenIds" leaf = Some (JList []) ->
  U <> A -> odict_in U messages = false -> odict_in A messages = false ->
  let question := user_message U A (JStr k) query now in
  let answer := assistant_message U A content now in
  exists chat_data' messages',
    add_to_chat chat_data U A query content now = Ok chat_data'
    /\ array_of chat_data' = Some (array ++ [JDict question; JDict answer])
    /\ messages_of chat_data' = Some messages'
    /\ current_of chat_data' = Some (JStr A)
    /\ odict_get U messages' = Some (JDict question)
    /\ odict_get A messages' = Some (JDict answer)
    /\ odict_get k messages' =
         Some (JDict (odict_set "childrenIds" (JList [JStr U]) leaf))
    /\ forall key, key <> k -> key <> U -> key <> A ->
         odict_get key messages' = odict_get key messages.
Proof.
  intros Hms Harr Hleaf Hk Hget Hchildren HUA HU HA question answer.
  unfold messages_of in Hms. unfold array_of in Harr.
  destruct (odict_get "history" chat_data) as [[| | | | |history]|] eqn:Hh; try discriminate.
  destruct (odict_get "messages" history) as [[| | | | |ms]|] eqn:Hm; try discriminate.
  injection Hms as ->.
  destruct (odict_get "messages" chat_data) as [[| | | |arr|]|] eqn:Ha; try discriminate.
  injection Harr as ->.
  assert (HkU : k <> U).
  { intros ->. apply odict_in_false in HU. congruence. }
  assert (HkA : k <> A).
  { intros ->. apply odict_in_false in HA. congruence. }
  assert (Hadd : add_child U (JDict leaf)
                 = Ok (JDict (odict_set "childrenIds" (JList [JStr U]) leaf))).
  { unfold add_child. destruct Hchildren as [-> | ->]; reflexivity. }
  set (messages2 := odict_set A (JDict answer) (odict_set U (JDict question) messages)).
  assert (Hget2 : odict_get k messages2 = Some (JDict leaf)).
  { unfold messages2. rewrite !odict_get_set_ne by congruence. exact Hget. }
  set (messages' := odict_set k (JDict (odict_set "childrenIds" (JList [JStr U]) leaf))
                      messages2).
  set (history' := odict_set "currentId" (JStr A)
                     (odict_set "messages" (JDict messages') history)).
  eexists _, messages'.
  split.
  { unfold add_to_chat.
    rewrite (odict_setdefault_present "history" _ _ _ Hh). rewrite Hh. cbn [default from_option id].
    rewrite (odict_setdefault_present "messages" _ _ _ Hm). rewrite Hm. cbn [default from_option id].
    rewrite (odict_setdefault_present "messages" _ _ _ Ha).
    rewrite (first_leaf_some _ _ Hleaf), Hleaf.
    match goal with
    | |- context [odict_get "messages" (odict_setdefault "files" ?v1
                    (odict_setdefault "tags" ?v2 ?d))] =>
        assert (Ha' : odict_get "messages" (odict_setdefault "files" v1
                        (odict_setdefault "tags" v2 d)) = Some (JList array));
        [ rewrite !odict_get_setdefault_ne by discriminate;
          destruct (negb _ || negb _);
          [rewrite odict_get_set_ne by discriminate |]; exact Ha
        | rewrite !Ha' ]
    end.
    cbn [default from_option id].
    fold question answer. fold messages2.
    assert (Hin : odict_in k messages2 = true).
    { unfold odict_in. rewrite Hget2. reflexivity. }
    rewrite Hin, Hget2. cbn [default from_option id]. rewrite Hadd.
    assert (Hne : negb (String.eqb k "") = true).
    { destruct (String.eqb k "") eqn:E; [apply String.eqb_eq in E; contradiction | reflexivity]. }
    rewrite Hne. cbn [andb].
    assert (EU : String.eqb k U = false).
    { destruct (String.eqb k U) eqn:E; [apply String.eqb_eq in E; contradiction | reflexivity]. }
    assert (EA : String.eqb k A = false).
    { destruct (String.eqb k A) eqn:E; [apply String.eqb_eq in E; contradiction | reflexivity]. }
    rewrite EU, EA. cbn [andb]. fold messages'. fold history'.
    reflexivity. }
  assert (Hh' : forall d v, odict_get "history"
                  (odict_set "messages" v (odict_set "history" (JDict history') d))
                = Some (JDict history')).
  { intros d v. rewrite odict_get_set_ne by discriminate. apply odict_get_set_eq. }
  split; [unfold array_of; rewrite odict_get_set_eq; reflexivity |].
  split.
  { unfold messages_of. rewrite Hh'. unfold history'.
    rewrite odict_get_set_ne by discriminate. rewrite odict_get_set_eq. reflexivity. }
  split.
  { unfold current_of. rewrite Hh'. unfold history'. apply odict_get_set_eq. }
  split.
  { unfold messages', messages2. rewrite odict_get_set_ne by exact HkU.
    rewrite odict_get_set_ne by (intros E; apply HUA; symmetry; exact E).
    apply odict_get_set_eq. }
  split.
  { unfold messages', messages2. rewrite odict_get_set_ne by exact HkA.
    apply odict_get_set_eq. }
  split; [unfold messages'; apply odict_get_set_eq |].
  intros key H1 H2 H3. unfold messages', messages2.
  rewrite !odict_get_set_ne by congruence. reflexivity.
Qed.

End ExecutorProperties.

End Extras.


(** * Repository, router, service and executors on concrete inputs *)

Import RouterSample.
Import ExecutorSample.

(** X1, on a new id: the insert returns the action of the form. *)
Lemma insert_then_lookup_witness :
  fst (insert_new_scheduled_action (lib := Ref.lib) "a9" "u1" new_form deployed)
  = Ok (Some (model_of_form "a9" "u1" new_form nine)).
Proof.
  refine (proj1 (insert_then_lookup (lib := Ref.lib) "a9" "u1" new_form deployed _ _));
    reflexivity.
Defined.

(** X3, on the id of the one row: the delete returns [True] and a lookup
    finds nothing. *)
Lemma delete_removes_the_action_witness :
  fst (delete_scheduled_action_by_id (lib := Ref.lib) "a1" deployed) = Ok true /\
  first_by_id "a1" (table (snd (delete_scheduled_action_by_id "a1" deployed))) = None.
Proof.
  destruct (proj1 (proj2 (delete_removes_the_action (lib := Ref.lib) "a1" deployed
                            eq_refl (NoDup_singleton "a1")))
              (row_of once_action) eq_refl)
    as (H1 & _ & _ & H2 & _).
  split; [exact H1 | exact H2].
Defined.

(** X4, on the owner of the one row. *)
Lemma bulk_delete_removes_the_users_actions_witness :
  fst (delete_scheduled_actions_by_user_id (lib := Ref.lib) "u1" deployed) = Ok true.
Proof.
  refine (proj1 (bulk_delete_removes_the_users_actions (lib := Ref.lib) "u1" deployed _)).
  vm_compute. reflexivity.
Defined.

(** X5, on a table with the one action of [u1]. *)
Lemma listing_by_user_filters_the_listing_witness :
  fst (get_scheduled_actions_by_user_id (lib := Ref.lib) "u1" deployed)
  = Ok (List.filter (fun a => String.eqb (user_id a) "u1") [once_action]).
Proof.
  refine (proj1 (listing_by_user_filters_the_listing (lib := Ref.lib) "u1" deployed
                   [once_action] _)).
  vm_compute. reflexivity.
Defined.

(** X6, on a form that renames the one-shot action. *)
Lemma update_then_lookup_witness :
  fst (update_scheduled_action_by_id (lib := Ref.lib) "a1" rename deployed)
  = Ok (Some (updated_model rename nine once_action)).
Proof.
  refine (proj1 (proj1 (update_then_lookup (lib := Ref.lib) "a1" rename deployed
                          (row_of once_action) once_action _ _ _) _ _));
    reflexivity.
Defined.

(** X7, on a service that was never started. *)
Lemma start_of_a_stopped_service_witness :
  fst (start (lib := Ref.lib) idle) = Ok tt /\
  _running (snd (start (lib := Ref.lib) idle)) = true.
Proof.
  destruct (start_of_a_stopped_service (lib := Ref.lib) idle eq_refl eq_refl)
    as (H1 & H2 & _).
  split; [exact H1 | exact H2].
Defined.

(** X8, on a start, a toggle and a stop. *)
Lemma service_flag_agrees_with_scheduler_witness :
  service_consistent (lib := Ref.lib)
    (history [Engine Start; Request true owner (ToggleAction "a1" false); Engine Stop] idle).
Proof.
  refine (proj1 (service_flag_agrees_with_scheduler (lib := Ref.lib)
                   [Engine Start; Request true owner (ToggleAction "a1" false); Engine Stop]
                   idle _)).
  reflexivity.
Defined.

(** X11, on a start, a fire and a stop. *)
Lemma engine_keeps_the_schedule_witness :
  map schedule_of (table (run (lib := Ref.lib) [Start; Fire "a1"; Stop] idle))
  = map schedule_of (table idle).
Proof.
  apply (engine_keeps_the_schedule (lib := Ref.lib)).
  repeat constructor.
Defined.

(** X13, after a start: the status query changes nothing. *)
Lemma job_status_names_the_timer_witness :
  snd (get_job_status (lib := Ref.lib) (fun _ => "2030-01-01T09:00:00")
         (fun _ => "date") "a1" (history [Engine Start] idle))
  = history [Engine Start] idle.
Proof.
  refine (proj1 (job_status_names_the_timer (lib := Ref.lib) (fun _ => "2030-01-01T09:00:00")
                   (fun _ => "date") [Engine Start] idle "a1" _)).
  intros id jid H. cbv in H. discriminate H.
Defined.

(** X14, on the one-shot action: the trailing [Z] reads as UTC. *)
Lemma once_schedule_trigger_witness :
  _create_trigger (lib := Ref.lib) once_action deployed
  = (Ok (Some (DateTrigger nine)), deployed).
Proof.
  exact (proj1 (once_schedule_trigger (lib := Ref.lib) once_action deployed eq_refl)
           "2030-01-01T09:00:00Z" eq_refl ltac:(discriminate)).
Defined.

(** X15, on a schedule type [weekly]. *)
Lemma unknown_schedule_type_gets_no_timer_witness :
  _create_trigger (lib := Ref.lib) weekly_action deployed
  = (Ok None, emit (EvLog ERROR "Unknown schedule type: weekly") deployed).
Proof.
  refine (proj1 (unknown_schedule_type_gets_no_timer (lib := Ref.lib) weekly_action
                   deployed _ _ _)); discriminate.
Defined.

(** X16, on five minutes. *)
Lemma interval_schedule_period_witness :
  _create_trigger (lib := Ref.lib) interval_action deployed
  = (Ok (Some (IntervalTrigger 300 (nine + 300) None None JNull)), deployed).
Proof.
  refine (proj1 (proj2 (interval_schedule_period (lib := Ref.lib) interval_action
                          deployed eq_refl))
            "minutes" 60 5 eq_refl eq_refl eq_refl _ _).
  - vm_compute. discriminate.
  - split; vm_compute; discriminate.
Defined.

(** X17, on a user who does not own the action. *)
Lemma foreign_user_is_denied_witness :
  Router.delete_scheduled_action (lib := Ref.lib) true "a1" stranger deployed
  = (Ok (HTTPException 403 "Access denied"), next_db_fault deployed).
Proof.
  refine (proj1 (proj2 (proj2 (foreign_user_is_denied (lib := Ref.lib) true "a1" stranger
                                 deployed once_action _ _ _)))).
  - vm_compute. reflexivity.
  - discriminate.
  - discriminate.
Defined.

(** X18, on an id that no row has. *)
Lemma missing_action_is_not_found_witness :
  Router.get_scheduled_action_by_id (lib := Ref.lib) "zz" owner deployed
  = (Ok (HTTPException 404 "Scheduled action not found"), next_db_fault deployed).
Proof.
  refine (proj2 (proj2 (proj2 (proj2
            (missing_action_is_not_found (lib := Ref.lib) true "zz" owner deployed _))))).
  right. left. reflexivity.
Defined.

(** X20, without a scheduler service. *)
Lemma create_stores_the_action_witness :
  fst (Router.create_scheduled_action (lib := Ref.lib) false "a9" new_form owner deployed)
  = Ok (Response (Some (model_of_form "a9" "u1" new_form nine))).
Proof.
  refine (proj1 (create_stores_the_action (lib := Ref.lib) false "a9" new_form owner
                   deployed _ _ _ _)); reflexivity.
Defined.

(** X22, on a toggle of the one-shot action. *)
Lemma disabling_disarms_witness :
  Forall (fun j => job_id j <> job_id_of "a1")
    (armed (scheduler (snd (Router.toggle_scheduled_action (lib := Ref.lib) true "a1"
                              false owner deployed)))).
Proof.
  refine (proj2 (proj1 (disabling_disarms (lib := Ref.lib) "a1" owner deployed
                          (NoDup_singleton "a1"))
                   (Some (updated_model (form_enabled_only false) nine once_action)) _)).
  vm_compute. reflexivity.
Defined.

(** X23, on the one-shot action. *)
Lemma delete_removes_and_disarms_witness :
  first_by_id "a1"
    (table (snd (Router.delete_scheduled_action (lib := Ref.lib) true "a1" owner deployed)))
  = None.
Proof.
  refine (proj1 (proj2 (delete_removes_and_disarms (lib := Ref.lib) true "a1" owner deployed
                          true (NoDup_singleton "a1") _))).
  vm_compute. reflexivity.
Defined.

(** X24, without a scheduler service. *)
Lemma test_runs_without_bookkeeping_witness :
  Router.test_scheduled_action (lib := Ref.lib) false "a1" owner deployed
  = (Ok (HTTPException 503 "Scheduler service not available"), next_db_fault deployed).
Proof.
  refine (proj1 (test_runs_without_bookkeeping (lib := Ref.lib) "a1" owner deployed
                   once_action _ _)); vm_compute; reflexivity.
Defined.

(** X25, on a delete whose session fails. *)
Lemma write_fault_is_answered_500_witness :
  Router.delete_scheduled_action (lib := Ref.lib) true "a1" owner faulty
  = (Ok (HTTPException 500 "database is unavailable"),
     emit (EvLog ERROR "Error deleting scheduled action: database is unavailable")
       (next_db_fault (next_db_fault faulty))).
Proof.
  refine (proj1 (proj2 (proj2 (write_fault_is_answered_500 (lib := Ref.lib) true "a1" owner
                                 faulty once_action _ _ _))));
    vm_compute; reflexivity.
Defined.

(** X26, on a notification every five minutes. *)
Lemma created_action_is_armed_witness :
  new_job (IntervalTrigger 300 (nine + 300) None None JNull) "a9" "digest"
    (if running (scheduler deployed)
     then @get_next_fire_time Ref.lib
            (IntervalTrigger 300 (nine + 300) None None JNull) None (clock deployed)
     else None)
  ∈ armed (scheduler (snd (Router.create_scheduled_action (lib := Ref.lib) true "a9"
                             new_form owner deployed))).
Proof.
  refine (created_action_is_armed (lib := Ref.lib) "a9" new_form owner deployed
            [once_action] (IntervalTrigger 300 (nine + 300) None None JNull)
            _ _ _ _ _ (NoDup_singleton "a1") _ _ _); try reflexivity.
Defined.


(** X27, on the engine [google]. *)
Lemma unsupported_engine_is_refused_witness :
  exists line,
    WebSearchExecutor_execute (svc := services) "m2" "m3" "u1" google_search deployed
    = (Ok (error_outcome "Unsupported search engine: google"),
       emit (EvLog INFO line) deployed).
Proof.
  refine (unsupported_engine_is_refused (svc := services) "m2" "m3" "u1" google_search
            deployed _ _).
  - reflexivity.
  - intros name Hin.
    repeat (apply elem_of_cons in Hin as [-> | Hin]; [reflexivity |]).
    inversion Hin.
Defined.

(** X29, with a memory store that raises. *)
Lemma chat_completion_answers_with_a_fixed_text_witness :
  fst (ChatCompletionExecutor_execute (svc := services) "u1" remembered_completion deployed)
  = Ok (completion_success (JStr "m") (JStr "hi")
          "Chat completion executed (implementation pending)").
Proof.
  refine (chat_completion_answers_with_a_fixed_text (svc := services) "u1"
            remembered_completion deployed _ _); reflexivity.
Defined.

(** X30, on a chat of one message. *)
Lemma saved_search_hangs_under_the_leaf_witness :
  exists chat_data',
    add_to_chat (lib := Ref.lib) chat_content "m2" "m3" (JStr "rocq") "found" nine
    = Ok chat_data'
    /\ current_of chat_data' = Some (JStr "m3")
    /\ array_of chat_data'
       = Some [JDict hello;
               JDict (user_message (lib := Ref.lib) "m2" "m3" (JStr "m1") (JStr "rocq") nine);
               JDict (assistant_message "m2" "m3" "found" nine)].
Proof.
  destruct (saved_search_hangs_under_the_leaf (lib := Ref.lib) chat_content "m2" "m3"
              (JStr "rocq") "found" nine [("m1", JDict hello)] [JDict hello] "m1" hello
              eq_refl eq_refl eq_refl ltac:(discriminate) eq_refl (or_intror eq_refl)
              ltac:(discriminate) eq_refl eq_refl)
    as (chat_data' & messages' & H1 & H2 & _ & H4 & _).
  exists chat_data'. split; [exact H1 |]. split; [exact H4 | exact H2].
Defined.
